(** * Composite health aggregation engine: a shallow embedding

    The development follows the Python sources
    - [diagnostics/monitoring_bridge.py]  (module [MonitoringBridge]),
    - [ai-analysis/smart_analyzer.py]     (module [LogAnalyzer]),
    - [diagnostics/network_analyzer.py]   (module [NetworkAnalyzer]),
    - [ai-reporter/insight_generator.py]  (module [InsightGenerator]),
    - [diagnostics/master_analyzer.py]    (module [MasterAnalyzer]).

    Conventions.  Python [int] is [Z].  Python [float] is a binary64 number
    (module [Binary64]) where the code compares computed numbers with
    thresholds that are not integers, in [analyze_trends]; everywhere else it
    is idealised to an exact rational [Q].  Labels, dictionary keys and
    message literals are [string] (the bytes of their UTF-8 text); text that
    is inspected character by character (log text, command output, JSON
    strings) is a list of Unicode code points.  Everything the code obtains
    from the outside world (clock readings, HTTP answers, command output) is
    an explicit argument.  Exceptions are values of the error monad [M]. *)

From stdpp Require Import gmap strings list pretty.
From Stdlib Require Import ZArith QArith Lia Lqa.
From Stdlib Require Import Floats.SpecFloat.

Local Open Scope string_scope.
Local Open Scope list_scope.
Local Open Scope Z_scope.
#[local] Set Warnings "-register-all".

(** ** Python values and the error monad *)

Module Py.

(** A Python [str]: the sequence of its code points. *)
Abbreviation str := (list N).

(** An ASCII literal of the source as a [str]. *)
Definition lit (s : string) : str :=
  map Ascii.N_of_ascii (String.list_ascii_of_string s).

Inductive exn_kind :=
  | ImportError | TypeError | AttributeError | IndexError | KeyError
  | ZeroDivisionError | RequestException | JSONDecodeError | OtherError.

(** The error monad: a call returns a value or raises. *)
Inductive M (A : Type) : Type :=
  | Ret (a : A)
  | Raise (e : exn_kind).
Arguments Ret {A} a.
Arguments Raise {A} e.

Definition bind {A B} (m : M A) (k : A -> M B) : M B :=
  match m with
  | Ret a => k a
  | Raise e => Raise e
  end.

(** [try: m  except Exception: h] *)
Definition try_except {A} (m : M A) (h : exn_kind -> A) : A :=
  match m with
  | Ret a => a
  | Raise e => h e
  end.

(** [sum(bools)] : [True] counts 1 and [False] counts 0. *)
Definition sum_bools (l : list bool) : Z :=
  fold_left (fun acc (b : bool) => acc + (if b then 1 else 0)) l 0.

(** [len(l)] *)
Definition len {A} (l : list A) : Z := Z.of_nat (length l).

(** [str.isspace] on one code point (the Unicode white-space set). *)
Definition isspace (c : N) : bool :=
  ((9 <=? c) && (c <=? 13) || (28 <=? c) && (c <=? 32)
   || (c =? 133) || (c =? 160) || (c =? 5760)
   || (8192 <=? c) && (c <=? 8202)
   || (c =? 8232) || (c =? 8233) || (c =? 8239) || (c =? 8287)
   || (c =? 12288))%N.

Fixpoint lstrip (s : str) : str :=
  match s with
  | c :: r => if isspace c then lstrip r else s
  | [] => []
  end.

Definition rstrip (s : str) : str := rev (lstrip (rev s)).

(** [s.strip()] *)
Definition strip (s : str) : str := rstrip (lstrip s).

Definition newline : N := 10%N.

(** [s.split('\n')]: always at least one piece. *)
Fixpoint split_lines (s : str) : list str :=
  match s with
  | [] => [[]]
  | c :: r =>
      if (c =? newline)%N then [] :: split_lines r
      else match split_lines r with
           | l :: ls => (c :: l) :: ls
           | [] => [[c]]
           end
  end.

Fixpoint startswith (p s : str) : bool :=
  match p, s with
  | [], _ => true
  | a :: p', b :: s' => (a =? b)%N && startswith p' s'
  | _ :: _, [] => false
  end.

(** [needle in hay] for two strings. *)
Fixpoint contains (needle hay : str) : bool :=
  startswith needle hay ||
  match hay with
  | [] => false
  | _ :: r => contains needle r
  end.

(** [l[:n]] *)
Definition slice_to {A} (n : nat) (l : list A) : list A := take n l.

(** [l[-n:]] *)
Definition slice_last {A} (n : nat) (l : list A) : list A :=
  drop (length l - n)%nat l.

(** [sep.join(parts)] on labels. *)
Fixpoint join (sep : string) (parts : list string) : string :=
  match parts with
  | [] => ""
  | [p] => p
  | p :: rest => p +:+ sep +:+ join sep rest
  end.

(** [x in l] for a list of labels. *)
Definition mem (x : string) (l : list string) : bool :=
  existsb (String.eqb x) l.

(** *** Parsed JSON, as [response.json()] returns it: [None], [bool],
    number, [str], [list], [dict] (an association list with distinct
    keys). *)
Inductive json :=
  | JNull
  | JBool (b : bool)
  | JNum (q : Q)
  | JStr (s : str)
  | JArr (items : list json)
  | JObj (entries : list (str * json)).

Fixpoint assoc (k : str) (entries : list (str * json)) : option json :=
  match entries with
  | [] => None
  | (k', v) :: r => if bool_decide (k' = k) then Some v else assoc k r
  end.

Definition is_str (s : str) (v : json) : bool :=
  match v with
  | JStr t => bool_decide (t = s)
  | _ => false
  end.

(** [k in v] for a string [k]. *)
Definition contains_key (k : str) (v : json) : M bool :=
  match v with
  | JObj entries => Ret (bool_decide (is_Some (assoc k entries)))
  | JArr items => Ret (existsb (is_str k) items)
  | JStr s => Ret (contains k s)
  | _ => Raise TypeError
  end.

(** [v.get(k, default)]: only a [dict] has the method. *)
Definition get (v : json) (k : str) (dflt : json) : M json :=
  match v with
  | JObj entries => Ret (default dflt (assoc k entries))
  | _ => Raise AttributeError
  end.

(** [v[k]] for a string key. *)
Definition subscript_key (v : json) (k : str) : M json :=
  match v with
  | JObj entries =>
      match assoc k entries with
      | Some x => Ret x
      | None => Raise KeyError
      end
  | _ => Raise TypeError
  end.

(** [v[i]] for an integer index [i >= 0]; the keys of a parsed JSON object
    are strings, so an integer is never among them. *)
Definition subscript (v : json) (i : nat) : M json :=
  match v with
  | JArr items =>
      match items !! i with
      | Some x => Ret x
      | None => Raise IndexError
      end
  | JStr s =>
      match s !! i with
      | Some c => Ret (JStr [c])
      | None => Raise IndexError
      end
  | JObj _ => Raise KeyError
  | _ => Raise TypeError
  end.

(** The items a [for] loop over [v] visits. *)
Definition iter (v : json) : M (list json) :=
  match v with
  | JArr items => Ret items
  | JObj entries => Ret (map (fun e => JStr (fst e)) entries)
  | JStr s => Ret (map (fun c => JStr [c]) s)
  | _ => Raise TypeError
  end.

(** [len(v)] *)
Definition json_len (v : json) : M Z :=
  match v with
  | JArr items => Ret (len items)
  | JObj entries => Ret (len entries)
  | JStr s => Ret (len s)
  | _ => Raise TypeError
  end.

(** ["\n".join(items)]: every item has to be a [str]. *)
Fixpoint join_lines (items : list json) : M str :=
  match items with
  | [] => Ret []
  | JStr s :: rest =>
      match rest with
      | [] => Ret s
      | _ :: _ =>
          match join_lines rest with
          | Ret t => Ret (s ++ newline :: t)%list
          | Raise e => Raise e
          end
      end
  | _ :: _ => Raise TypeError
  end.

(** [a / b] on integers: true division. *)
Definition truediv (a b : Z) : M Q :=
  if b =? 0 then Raise ZeroDivisionError
  else Ret (inject_Z a / inject_Z b)%Q.

(** [statistics.mean] of a non-empty sample. *)
Definition mean (l : list Q) : Q :=
  (fold_right Qplus 0%Q l / inject_Z (len l))%Q.

End Py.

(** The monad through stdpp's classes, so that [x ← m; k] reads like the
    statement sequence of the source. *)
#[global] Instance M_ret : MRet Py.M := @Py.Ret.
#[global] Instance M_bind : MBind Py.M := fun A B k m => Py.bind m k.

(** ** diagnostics/monitoring_bridge.py *)

Module MonitoringBridge.

(** The four answers of [_fast_curl_check], in the order of the [services]
    dictionary. *)
Record services := {
  app : bool;
  prometheus : bool;
  loki : bool;
  grafana : bool
}.

Definition services_values (s : services) : list bool :=
  [app s; prometheus s; loki s; grafana s].

(** What one call observes: the four checks, the output of [docker ps]
    ([None] when [subprocess.run] raises), two clock readings. *)
Record probe := {
  checks : services;
  docker_stdout : option Py.str;
  now_iso : string;
  elapsed_ms : Q
}.

Record quick_status := {
  timestamp : string;
  response_time_ms : Q;
  services_total : Z;
  services_available : Z;
  services_details : services;
  containers_running : Z;
  containers_expected : Z;
  status : string
}.

Definition OK : string := "🟢 OK".
Definition PARTIAL : string := "🟡 PARTIAL".
Definition CRITICAL : string := "🔴 CRITICAL".

(** The conditional expression of the ['status'] entry. *)
Definition status_of (services_ok : Z) : string :=
  if services_ok =? 4 then OK
  else if services_ok >=? 2 then PARTIAL
  else CRITICAL.

Definition count_containers (out : option Py.str) : Z :=
  match out with
  | Some stdout =>
      Py.len (filter (fun line => line <> []) (Py.split_lines (Py.strip stdout)))
  | None => 0
  end.

Definition get_quick_status (p : probe) : quick_status :=
  let services := checks p in
  let container_count := count_containers (docker_stdout p) in
  let services_ok := Py.sum_bools (services_values services) in
  {| timestamp := now_iso p;
     response_time_ms := elapsed_ms p;
     services_total := 4;
     services_available := services_ok;
     services_details := services;
     containers_running := container_count;
     containers_expected := 4;
     status := status_of services_ok |}.

(** How bad a status label is: 0 for OK, 1 for PARTIAL, 2 otherwise. *)
Definition severity_rank (s : string) : Z :=
  if String.eqb s OK then 0
  else if String.eqb s PARTIAL then 1
  else 2.

End MonitoringBridge.

(** ** ai-analysis/smart_analyzer.py *)

Module LogAnalyzer.

(** *** The regular expressions of the pattern table

    The table only uses lower-case ASCII letters and [.*]; [compile]
    accepts exactly that fragment. *)
Inductive tok :=
  | Lit (c : N)
  | DotStar.

Definition is_lower_ascii (c : N) : bool := ((97 <=? c) && (c <=? 122))%N.

Fixpoint compile (p : Py.str) : option (list tok) :=
  match p with
  | [] => Some []
  | c :: r =>
      if is_lower_ascii c then
        match compile r with
        | Some ts => Some (Lit c :: ts)
        | None => None
        end
      else if (c =? 46)%N then
        match r with
        | c' :: r' =>
            if (c' =? 42)%N then
              match compile r' with
              | Some ts => Some (DotStar :: ts)
              | None => None
              end
            else None
        | [] => None
        end
      else None
  end.

(** Which code points [x] a lower-case ASCII letter [p] of a pattern
    matches under [re.IGNORECASE]: the letter, its upper case, and the
    code points whose lower case or case-equivalence class is [p]
    (U+0130 and U+0131 for i, U+212A for k, U+017F for s). *)
Definition matches_ignorecase (p x : N) : bool :=
  ((x =? p) || (x =? p - 32)
   || (p =? 105) && ((x =? 304) || (x =? 305))
   || (p =? 107) && (x =? 8490)
   || (p =? 115) && (x =? 383))%N.

(** The pattern matches a prefix of [s]; [.] matches anything but a line
    feed. *)
Fixpoint match_here (p : list tok) (s : Py.str) : bool :=
  match p with
  | [] => true
  | Lit c :: r =>
      match s with
      | x :: xs => matches_ignorecase c x && match_here r xs
      | [] => false
      end
  | DotStar :: r =>
      (fix star (s : Py.str) : bool :=
         match_here r s ||
         match s with
         | x :: xs => negb (x =? Py.newline)%N && star xs
         | [] => false
         end) s
  end.

Fixpoint search_toks (p : list tok) (s : Py.str) : bool :=
  match_here p s ||
  match s with
  | _ :: xs => search_toks p xs
  | [] => false
  end.

(** [re.search(pattern, text, re.IGNORECASE)] is not [None]. *)
Definition re_search (pattern : string) (text : Py.str) : bool :=
  match compile (Py.lit pattern) with
  | Some p => search_toks p text
  | None => false
  end.

(** [self.patterns], in insertion order. *)
Definition patterns : list (string * list string) :=
  [ ("database_errors", ["connection.*failed"; "timeout"; "deadlock"]);
    ("performance_issues", ["high.*response"; "slow"; "timeout"]);
    ("security_issues", ["unauthorized"; "forbidden"; "invalid.*token"]);
    ("application_errors", ["exception"; "error"; "failed"]) ].

Record levels := {
  INFO : Z;
  WARNING : Z;
  ERROR : Z
}.

Record analysis := {
  timestamp : string;
  total_entries : Z;
  level_counts : levels;
  detected_patterns : list string;
  alert_level : string;
  summary : string
}.

(** [len([l for l in lines if marker in l])] *)
Definition count_marked (marker : string) (lines : list Py.str) : Z :=
  Py.len (filter (fun l => Py.contains (Py.lit marker) l = true) lines).

(** The inner loop over one group: stop at the first pattern found. *)
Fixpoint any_pattern (group : list string) (logs_text : Py.str) : bool :=
  match group with
  | [] => false
  | pattern :: rest =>
      if re_search pattern logs_text then true
      else any_pattern rest logs_text
  end.

(** The outer loop: append the name of every group with a hit. *)
Definition detect (logs_text : Py.str) : list string :=
  fold_left
    (fun found (entry : string * list string) =>
       if any_pattern (snd entry) logs_text then (found ++ [fst entry])%list
       else found)
    patterns [].

(** [analyze_with_patterns]; [now] is the reading of the clock. *)
Definition analyze_with_patterns (now : string) (logs_text : Py.str)
  : analysis :=
  match Py.strip logs_text with
  | [] =>
      {| timestamp := now;
         total_entries := 0;
         level_counts := {| INFO := 0; WARNING := 0; ERROR := 0 |};
         detected_patterns := [];
         alert_level := "INFO";
         summary := "No logs available for analysis" |}
  | _ :: _ =>
      let lines := Py.split_lines (Py.strip logs_text) in
      let counts :=
        {| INFO := count_marked "INFO" lines;
           WARNING := count_marked "WARNING" lines;
           ERROR := count_marked "ERROR" lines |} in
      let found := detect logs_text in
      if ERROR counts >? 0 then
        {| timestamp := now;
           total_entries := Py.len lines;
           level_counts := counts;
           detected_patterns := found;
           alert_level := "ERROR";
           summary := "Critical errors detected" |}
      else if WARNING counts >? 0 then
        {| timestamp := now;
           total_entries := Py.len lines;
           level_counts := counts;
           detected_patterns := found;
           alert_level := "WARNING";
           summary := "Warnings present" |}
      else
        {| timestamp := now;
           total_entries := Py.len lines;
           level_counts := counts;
           detected_patterns := found;
           alert_level := "INFO";
           summary := "All systems operating normally" |}
  end.

(** *** [get_loki_logs] *)

(** The answer to one [requests.get]. *)
Inductive http_outcome :=
  | HttpRaised                               (* a [RequestException] *)
  | HttpResponse (status_code : Z) (body : option Py.json).
                                             (* [None]: the body is not JSON *)

(** The text of [str(e)] is attached by the Python runtime and is not
    modelled further: the world supplies it. *)
Definition error_entry (prefix : string) (text : Py.str) : Py.json :=
  Py.JObj [(Py.lit "error", Py.JStr (Py.lit prefix ++ text)%list)].

(** The [try] block of [get_loki_logs].  A body that is not JSON raises a
    decoding error; whether the first or the second handler catches it
    depends on the version of [requests], and both build an error record. *)
Definition get_loki_logs_body (r : http_outcome) : Py.M Py.json :=
  match r with
  | HttpRaised => Py.Raise Py.RequestException
  | HttpResponse status_code body =>
      (* response.raise_for_status() *)
      if (400 <=? status_code) && (status_code <? 600)
      then Py.Raise Py.RequestException
      else
        match body with
        | None => Py.Raise Py.JSONDecodeError
        | Some data =>
            (* the count printed after the request *)
            d ← Py.get data (Py.lit "data") (Py.JObj []);
            res ← Py.get d (Py.lit "result") (Py.JArr []);
            _ ← Py.json_len res;
            mret data
        end
  end.

Definition get_loki_logs (exn_text : Py.exn_kind -> Py.str)
    (r : http_outcome) : Py.json :=
  Py.try_except (get_loki_logs_body r)
    (fun e =>
       match e with
       | Py.RequestException => error_entry "Network error: " (exn_text e)
       | Py.JSONDecodeError => error_entry "JSON parsing error: " (exn_text e)
       | _ => error_entry "Unexpected error: " (exn_text e)
       end).

End LogAnalyzer.

(** ** diagnostics/network_analyzer.py *)

Module NetworkAnalyzer.

(** [self.target_services] as [__init__] sets it. *)
Definition target_services : list string :=
  [ "http://localhost:5000"; "http://localhost:9090";
    "http://localhost:3100"; "http://localhost:3000";
    "8.8.8.8"; "1.1.1.1" ].

Definition dns_hosts : list string :=
  [ "google.com"; "github.com"; "docker.com" ].

Record ping_result := {
  ping_target : string;
  ping_available : bool;
  avg_time : Q
}.

Record http_result := {
  url : string;
  http_available : bool;
  response_time_ms : Q
}.

Record dns_result := {
  hostname : string;
  resolved : bool;
  resolution_time_ms : Q
}.

(** The three probes catch every exception themselves and always return a
    record; what they return is decided by the network. *)
Record net := {
  ping_service : string -> ping_result;
  http_response_time : string -> http_result;
  check_dns_resolution : string -> dns_result;
  now_iso : string
}.

Record summary := {
  ping_availability : Q;
  http_availability : Q;
  dns_availability : Q;
  avg_ping_time : Q;
  avg_http_time : Q;
  avg_dns_time : Q;
  total_checks : Z
}.

Record results := {
  timestamp : string;
  ping_results : list ping_result;
  http_results : list http_result;
  dns_results : list dns_result;
  network_summary : summary
}.

(** [target.startswith('http')] *)
Definition is_http (target : string) : bool := String.prefix "http" target.

(** [statistics.mean(xs) if xs else 0] *)
Definition mean_or_zero (xs : list Q) : Q :=
  match xs with
  | [] => 0%Q
  | _ :: _ => Py.mean xs
  end.

(** [analyze_network_health] for a given [self.target_services]. *)
Definition analyze_network_health (targets : list string) (w : net)
  : Py.M results :=
  let pings :=
    map (ping_service w) (filter (fun t => is_http t = false) targets) in
  let available_pings := Py.len (filter (fun r => ping_available r = true) pings) in
  let ping_times := map avg_time (filter (fun r => ping_available r = true) pings) in
  let https :=
    map (http_response_time w) (filter (fun t => is_http t = true) targets) in
  let available_http := Py.len (filter (fun r => http_available r = true) https) in
  let http_times :=
    map response_time_ms (filter (fun r => http_available r = true) https) in
  let dnss := map (check_dns_resolution w) dns_hosts in
  let resolved_dns := Py.len (filter (fun r => resolved r = true) dnss) in
  let dns_times :=
    map resolution_time_ms (filter (fun r => resolved r = true) dnss) in
  pa ← Py.truediv available_pings
         (Py.len (filter (fun t => is_http t = false) targets));
  ha ← Py.truediv available_http
         (Py.len (filter (fun t => is_http t = true) targets));
  da ← Py.truediv resolved_dns (Py.len dns_hosts);
  mret {| timestamp := now_iso w;
          ping_results := pings;
          http_results := https;
          dns_results := dnss;
          network_summary :=
            {| ping_availability := (pa * 100)%Q;
               http_availability := (ha * 100)%Q;
               dns_availability := (da * 100)%Q;
               avg_ping_time := mean_or_zero ping_times;
               avg_http_time := mean_or_zero http_times;
               avg_dns_time := mean_or_zero dns_times;
               total_checks := Py.len targets + Py.len dns_hosts |} |}.

(** *** [generate_network_report] *)

(** [a < b] on numbers. *)
Definition below (a b : Q) : bool := negb (Qle_bool b a).

(** The recommendation list of the report. *)
Definition report_recommendations (s : summary) : list string :=
  let recommendations :=
    (if below (ping_availability s) 80
     then [ "🔧 Check network connection and firewall" ] else [])
    ++ (if below (http_availability s) 100
        then [ "🌐 Check internal services availability" ] else [])
    ++ (if below 1000 (avg_http_time s)
        then [ "⚡ Optimize application performance" ] else [])
    ++ (if below (dns_availability s) 100
        then [ "🔍 Check DNS settings" ] else []) in
  match recommendations with
  | [] => [ "✅ Network infrastructure running stable" ]
  | _ :: _ => recommendations
  end.

Definition nl : string :=
  String (Ascii.Ascii false true false true false false false false) EmptyString.

(** ['='*n] *)
Fixpoint rule (n : nat) : string :=
  match n with
  | O => ""
  | S n' => "=" +:+ rule n'
  end.

(** [generate_network_report]; [format_1f] renders [{x:.1f}], [stamp] is the
    formatted reading of the clock and [total] the rendering of an integer. *)
Definition generate_network_report (format_1f : Q -> string) (stamp : string)
    (targets : list string) (w : net) : Py.M string :=
  analysis ← analyze_network_health targets w;
  let s := network_summary analysis in
  let report :=
    nl +:+ "🌐 NETWORK REPORT - " +:+ stamp +:+ nl
    +:+ rule 50 +:+ nl +:+ nl
    +:+ "📊 SUMMARY:" +:+ nl
    +:+ "• Ping Availability: " +:+ format_1f (ping_availability s) +:+ "%" +:+ nl
    +:+ "• HTTP Availability: " +:+ format_1f (http_availability s) +:+ "%  " +:+ nl
    +:+ "• DNS Availability: " +:+ format_1f (dns_availability s) +:+ "%" +:+ nl
    +:+ "• Average Ping Time: " +:+ format_1f (avg_ping_time s) +:+ "ms" +:+ nl
    +:+ "• Average HTTP Time: " +:+ format_1f (avg_http_time s) +:+ "ms" +:+ nl
    +:+ "• Average DNS Time: " +:+ format_1f (avg_dns_time s) +:+ "ms" +:+ nl
    +:+ nl +:+ "🎯 RECOMMENDATIONS:" +:+ nl in
  let report :=
    report +:+ Py.join nl (map (fun rec => "• " +:+ rec) (report_recommendations s)) in
  mret (report +:+ nl +:+ nl +:+ "⏰ Services checked: " +:+ pretty (total_checks s)).

End NetworkAnalyzer.

(** ** Python floats *)

Module Binary64.

(** A Python [float] is an IEEE 754 binary64 number: a [spec_float] of the
    Standard Library's specification of floating-point arithmetic, with 53
    bits of precision and exponents below 1024.  The arithmetic operations
    are the ones of that specification, which round to nearest, ties to
    even. *)
Definition prec : Z := 53.
Definition emax : Z := 1024.

Definition float : Type := spec_float.

Definition zero : float := S754_zero false.

Definition add : float -> float -> float := SFadd prec emax.
Definition mul : float -> float -> float := SFmul prec emax.
Definition div : float -> float -> float := SFdiv prec emax.

Definition is_nan (x : float) : bool :=
  match x with S754_nan => true | _ => false end.

(** [math.isfinite(x)] *)
Definition is_finite (x : float) : bool :=
  match x with
  | S754_zero _ | S754_finite _ _ _ => true
  | S754_infinity _ | S754_nan => false
  end.

(** [bool(x)]: every float but the two zeros is true. *)
Definition truth (x : float) : bool :=
  match x with S754_zero _ => false | _ => true end.

(** The number a zero or a finite float stands for ([0] for the others). *)
Definition value (x : float) : Q :=
  match x with
  | S754_finite s m e =>
      let v := match e with
               | Zneg k => Zpos m # 2 ^ k
               | _ => inject_Z (Zpos m * 2 ^ e)
               end in
      if s then (- v)%Q else v
  | _ => 0%Q
  end.

(** The comparison of two floats: of the numbers they stand for, with the
    infinities at both ends; a NaN compares with nothing. *)
Definition compare (x y : float) : option comparison :=
  match x, y with
  | S754_nan, _ | _, S754_nan => None
  | S754_infinity s1, S754_infinity s2 =>
      Some match s1, s2 with
           | true, false => Lt
           | false, true => Gt
           | _, _ => Eq
           end
  | S754_infinity s, _ => Some (if s then Lt else Gt)
  | _, S754_infinity s => Some (if s then Gt else Lt)
  | _, _ => Some (value x ?= value y)%Q
  end.

(** The number of a finite float, counted in units of [2 ^ -1074], the
    smallest positive binary64 number. *)
Definition units (m : positive) (e : Z) : Z := Zpos m * 2 ^ (e + 1074).

(** [x < y], [x > y] and [x == y] *)
Definition ltb (x y : float) : bool :=
  match compare x y with Some Lt => true | _ => false end.

Definition gtb (x y : float) : bool := ltb y x.

Definition eqb (x y : float) : bool :=
  match compare x y with Some Eq => true | _ => false end.

(** [n / d] for two integers with [d > 0], as the true division of Python
    integers computes it: the quotient rounded to the nearest float, ties to
    even.  Quotient and rounding are those of the division of two mantissas
    in the specification. *)
Definition of_ratio (n : Z) (d : positive) : float :=
  match n with
  | Z0 => zero
  | Zpos p =>
      let '(mz, ez, lz) := SFdiv_core_binary prec emax (Zpos p) 0 (Zpos d) 0 in
      binary_round_aux prec emax false mz ez lz
  | Zneg p =>
      let '(mz, ez, lz) := SFdiv_core_binary prec emax (Zpos p) 0 (Zpos d) 0 in
      binary_round_aux prec emax true mz ez lz
  end.

(** The float nearest to a rational: what a decimal literal of the source
    denotes, what an integer operand of a float operation is converted to,
    and what [float(q)] is for a [Fraction]. *)
Definition of_Q (q : Q) : float := of_ratio (Qnum q) (Qden q).

(** The sum of exact rationals. *)
Definition Qsum (xs : list Q) : Q := fold_right Qplus 0%Q xs.

(** [statistics.mean(xs)] of a non-empty list of floats.  The library adds
    the samples as exact fractions and rounds the quotient once.  When a
    sample is an infinity or a NaN, the result is the float sum of those
    samples alone, divided by the length. *)
Definition mean (xs : list float) : float :=
  let n := Z.of_nat (length xs) in
  if forallb is_finite xs
  then of_Q (Qred (Qsum (map value xs) / inject_Z n))
  else div (fold_left add (List.filter (fun x => negb (is_finite x)) xs) zero)
           (of_Q (inject_Z n)).

(** [max(xs)] of a non-empty list, as the interpreter finds it: a later
    sample replaces the candidate when it is greater. *)
Definition max (xs : list float) : float :=
  match xs with
  | [] => zero
  | x :: r => fold_left (fun m y => if gtb y m then y else m) r x
  end.

End Binary64.

(** ** ai-reporter/insight_generator.py *)

Module InsightGenerator.

Definition GROWING : string := "📈 Growing load: +30% above average".
Definition DECREASE : string := "📉 Load decrease: -30% below average".

Definition Qgtb (a b : Q) : bool := negb (Qle_bool a b).
Definition Qltb (a b : Q) : bool := negb (Qle_bool b a).

(** [analyze_trends] compares the samples with thresholds, so its series are
    lists of binary64 numbers, as [float(point[1])] produces them, and its
    arithmetic is the one of [Binary64]. *)

(** The request-rate part of [analyze_trends]: what it appends to [trends]
    for the series [metrics.get('app_requests', [])]. *)
Definition request_trends (requests : list Binary64.float) : list string :=
  if 3 <=? Py.len requests then
    let recent_avg := Binary64.mean (Py.slice_last 3 requests) in
    let overall_avg := Binary64.mean requests in
    if Binary64.gtb recent_avg
         (Binary64.mul overall_avg (Binary64.of_Q (13 # 10)))
    then [GROWING]
    else if Binary64.ltb recent_avg
              (Binary64.mul overall_avg (Binary64.of_Q (7 # 10)))
    then [DECREASE]
    else []
  else [].

Definition INSTABILITY : string := "🔴 Instability: high error rate".

(** The error part: [any(errors) and max(errors) > 0.1]. *)
Definition error_trends (errors : list Binary64.float) : list string :=
  if existsb Binary64.truth errors
     && Binary64.gtb (Binary64.max errors) (Binary64.of_Q (1 # 10))
  then [INSTABILITY] else [].

(** The memory part; [format_1f] renders [{max_memory_gb:.1f}]. *)
Definition memory_trends (format_1f : Binary64.float -> string)
    (memory : list Binary64.float) : list string :=
  match memory with
  | [] => []
  | _ :: _ =>
      let max_memory_gb :=
        Binary64.div (Binary64.max memory)
          (Binary64.of_Q (inject_Z (1024 ^ 3))) in
      if Binary64.gtb max_memory_gb (Binary64.of_Q (1 # 2))
      then ["💾 High memory usage: up to " +:+ format_1f max_memory_gb +:+ "GB"]
      else []
  end.

(** The three series [analyze_trends] reads from [metrics]; an absent key
    is the empty list. *)
Record samples := {
  requests : list Binary64.float;
  errors : list Binary64.float;
  memory : list Binary64.float
}.

Definition analyze_trends (format_1f : Binary64.float -> string) (m : samples)
  : list string :=
  (request_trends (requests m) ++ error_trends (errors m)
   ++ memory_trends format_1f (memory m))%list.

(** *** [generate_detailed_health_report] *)

(** The figures of the report are idealised to exact rationals. *)

(** [max(xs)] of a non-empty list. *)
Definition Qmax_list (xs : list Q) : Q :=
  match xs with
  | [] => 0%Q
  | x :: r => fold_left (fun m y => if Qltb m y then y else m) r x
  end.

Record metrics := {
  app_requests : list Q;
  app_errors : list Q;
  app_memory : list Q
}.

(** The four series of [get_container_metrics]. *)
Record container_metrics := {
  series : metrics;
  app_cpu : list Q
}.

Record health_report := {
  status : string;
  uptime_percentage : Q;
  total_requests : Z;
  total_errors : Z;
  error_rate : Q;
  avg_rpm : Q;
  peak_rpm : Q;
  avg_memory_mb : Q;
  max_memory_mb : Q;
  avg_cpu_percent : Q;
  availability : string
}.

(** [sum(xs)] *)
Definition Qsum (xs : list Q) : Q := fold_right Qplus 0%Q xs.

(** [int(x)]: the integer part, rounded towards zero. *)
Definition int_of (x : Q) : Z := Z.quot (Qnum x) (Zpos (Qden x)).

(** [min(a, b)] *)
Definition Qmin2 (a b : Q) : Q := if Qltb b a then b else a.

(** The error rate in percent, before rounding. *)
Definition raw_error_rate (m : container_metrics) : Q :=
  let requests := app_requests (series m) in
  let errors := app_errors (series m) in
  let total_requests :=
    match requests with [] => 0%Q | _ :: _ => (Qsum requests * 3600)%Q end in
  let total_errors :=
    match errors with [] => 0%Q | _ :: _ => (Qsum errors * 3600)%Q end in
  if Qeq_bool total_requests 0 then 0%Q
  else (total_errors / total_requests * 100)%Q.

(** [generate_detailed_health_report]; [round] is Python's [round(x, n)]. *)
Definition generate_detailed_health_report (round : Q -> nat -> Q)
    (m : container_metrics) : health_report :=
  let requests := app_requests (series m) in
  let errors := app_errors (series m) in
  let memory := app_memory (series m) in
  let cpu := app_cpu m in
  let total_requests :=
    match requests with [] => 0%Q | _ :: _ => (Qsum requests * 3600)%Q end in
  let total_errors :=
    match errors with [] => 0%Q | _ :: _ => (Qsum errors * 3600)%Q end in
  let error_rate := raw_error_rate m in
  let avg_rpm :=
    match requests with [] => 0%Q | _ :: _ => (Py.mean requests * 60)%Q end in
  let peak_rpm :=
    match requests with [] => 0%Q | _ :: _ => (Qmax_list requests * 60)%Q end in
  let avg_memory_mb :=
    match memory with
    | [] => 0%Q
    | _ :: _ => (Py.mean memory / inject_Z (1024 * 1024))%Q
    end in
  let max_memory_mb :=
    match memory with
    | [] => 0%Q
    | _ :: _ => (Qmax_list memory / inject_Z (1024 * 1024))%Q
    end in
  let avg_cpu_percent :=
    match cpu with [] => 0%Q | _ :: _ => (Py.mean cpu * 100)%Q end in
  {| status :=
       if Qgtb error_rate 10 then "🔴 CRITICAL"
       else if Qgtb error_rate 5 then "🟡 WARNING"
       else "🟢 NORMAL";
     uptime_percentage := (100 - Qmin2 error_rate 100)%Q;
     total_requests := int_of total_requests;
     total_errors := int_of total_errors;
     error_rate := round error_rate 2%nat;
     avg_rpm := round avg_rpm 1%nat;
     peak_rpm := round peak_rpm 1%nat;
     avg_memory_mb := round avg_memory_mb 1%nat;
     max_memory_mb := round max_memory_mb 1%nat;
     avg_cpu_percent := round avg_cpu_percent 1%nat;
     availability :=
       if Qltb error_rate 1 then "HIGH"
       else if Qltb error_rate 5 then "MEDIUM"
       else "LOW" |}.


End InsightGenerator.

(** ** diagnostics/master_analyzer.py *)

Module MasterAnalyzer.

(** *** [analyze_system_health] *)

Record health_data := {
  health_timestamp : string;
  health_score : Z;
  health_level : string;
  quick_status : MonitoringBridge.quick_status;
  system_metrics_available : bool;
  container_metrics_available : bool
}.

Record health_world := {
  bridge_probe : MonitoringBridge.probe;
  system_metrics_output : bool;      (* ['output' in system_metrics] *)
  container_metrics_output : bool;   (* ['output' in container_metrics] *)
  health_now : string
}.

Definition score_of (qs : MonitoringBridge.quick_status) : Z :=
  let s0 := 100 in
  let s1 :=
    if String.eqb (MonitoringBridge.status qs) MonitoringBridge.OK
    then s0 else s0 - 30 in
  let s2 :=
    if MonitoringBridge.services_available qs <? MonitoringBridge.services_total qs
    then s1 - 20 * (MonitoringBridge.services_total qs
                    - MonitoringBridge.services_available qs)
    else s1 in
  if MonitoringBridge.containers_running qs <? MonitoringBridge.containers_expected qs
  then s2 - 15 else s2.

Definition level_of (health_score : Z) : string :=
  if health_score >=? 90 then "EXCELLENT"
  else if health_score >=? 70 then "GOOD"
  else if health_score >=? 50 then "WARNING"
  else "CRITICAL".

Definition analyze_system_health (w : health_world) : health_data :=
  let qs := MonitoringBridge.get_quick_status (bridge_probe w) in
  let health_score := score_of qs in
  {| health_timestamp := health_now w;
     health_score := health_score;
     health_level := level_of health_score;
     quick_status := qs;
     system_metrics_available := system_metrics_output w;
     container_metrics_available := container_metrics_output w |}.

(** *** [analyze_performance] *)

Record performance_data := {
  performance_timestamp : string;
  response_time_ms : Q;
  services_availability : Q;
  containers_running : Z;
  generation_time : Q;
  performance_level : string
}.

Record performance_world := {
  report_probe : MonitoringBridge.probe;   (* the bridge is asked again *)
  generation_time_seconds : Q;
  performance_now : string
}.

Definition performance_level_of (response_time_ms : Q) : string :=
  if InsightGenerator.Qgtb response_time_ms 1000 then "SLOW"
  else if InsightGenerator.Qgtb response_time_ms 500 then "MODERATE"
  else "FAST".

Definition analyze_performance (w : performance_world) : performance_data :=
  let detailed_report := MonitoringBridge.get_quick_status (report_probe w) in
  {| performance_timestamp := performance_now w;
     response_time_ms := MonitoringBridge.response_time_ms detailed_report;
     services_availability :=
       (inject_Z (MonitoringBridge.services_available detailed_report)
        / inject_Z (MonitoringBridge.services_total detailed_report) * 100)%Q;
     containers_running := MonitoringBridge.containers_running detailed_report;
     generation_time := generation_time_seconds w;
     performance_level :=
       performance_level_of (MonitoringBridge.response_time_ms detailed_report) |}.

(** *** [analyze_logs_patterns] *)

Inductive error_value :=
  | LokiError (v : Py.json)           (* [logs_data['error']] *)
  | AnalysisFailed (text : Py.str).   (* ["Log analysis failed: " + str(e)] *)

(** A dictionary read with [.get]: an absent key is [None]. *)
Record logs_data := {
  logs_timestamp : string;
  log_analysis : option LogAnalyzer.analysis;
  logs_error : option error_value;
  entries_analyzed : option Z;
  alert_level : option string;
  detected_patterns : option (list string);
  query_used : option string
}.

(** The answer to one of the alternative queries. *)
Inductive alt_outcome :=
  | AltRaised
  | AltResponse (status_code : Z) (body : option Py.json).

Record logs_world := {
  import_ok : bool;   (* [from smart_analyzer import LogAnalyzer] succeeds *)
  primary : LogAnalyzer.http_outcome;
  alternative : string -> alt_outcome;
  exn_text : Py.exn_kind -> Py.str;
  analysis_now : string;
  logs_now : string
}.

(** The double-quote character of the query literals. *)
Definition dq : string :=
  String (Ascii.Ascii false true false false false true false false) EmptyString.

Definition alternative_queries : list string :=
  [ "{job=" +:+ dq +:+ "containers" +:+ dq +:+ "}";
    "{container=" +:+ dq +:+ "devops_app" +:+ dq +:+ "}";
    "{app=" +:+ dq +:+ "devops" +:+ dq +:+ "}";
    "{service!=" +:+ dq +:+ dq +:+ "}";
    "{job=~" +:+ dq +:+ ".+" +:+ dq +:+ "}" ].

(** The loops that fill [log_entries] append in place, so what was
    appended before an exception stays in the list: each loop returns the
    list and the exception, if one was raised. *)
Fixpoint append_values (values : list Py.json) (log_entries : list Py.json)
  : list Py.json * option Py.exn_kind :=
  match values with
  | [] => (log_entries, None)
  | value :: rest =>
      match Py.subscript value 1 with
      | Py.Ret text => append_values rest (log_entries ++ [text])%list
      | Py.Raise e => (log_entries, Some e)
      end
  end.

Fixpoint append_results (results : list Py.json) (log_entries : list Py.json)
  : list Py.json * option Py.exn_kind :=
  match results with
  | [] => (log_entries, None)
  | result :: rest =>
      match (vs ← Py.get result (Py.lit "values") (Py.JArr []); Py.iter vs) with
      | Py.Ret values =>
          match append_values values log_entries with
          | (log_entries', None) => append_results rest log_entries'
          | (log_entries', Some e) => (log_entries', Some e)
          end
      | Py.Raise e => (log_entries, Some e)
      end
  end.

(** [for result in data.get("data", {}).get("result", []): ...] *)
Definition collect (data : Py.json) (log_entries : list Py.json)
  : list Py.json * option Py.exn_kind :=
  match (d ← Py.get data (Py.lit "data") (Py.JObj []);
         r ← Py.get d (Py.lit "result") (Py.JArr []);
         Py.iter r) with
  | Py.Ret results => append_results results log_entries
  | Py.Raise e => (log_entries, Some e)
  end.

(** The inner [try: ... except: pass] over the alternative queries. *)
Fixpoint try_alternatives (w : logs_world) (queries : list string)
    (log_entries : list Py.json) : list Py.json :=
  match queries with
  | [] => log_entries
  | query :: rest =>
      match alternative w query with
      | AltRaised => log_entries
      | AltResponse status_code body =>
          if status_code =? 200 then
            match body with
            | None => log_entries
            | Some data =>
                match collect data log_entries with
                | (log_entries', Some _) => log_entries'
                | (log_entries', None) =>
                    match log_entries' with
                    | _ :: _ => log_entries'
                    | [] => try_alternatives w rest log_entries'
                    end
                end
            end
          else try_alternatives w rest log_entries
      end
  end.

(** The body of the outer [try]. *)
Definition analyze_logs_body (w : logs_world) : Py.M logs_data :=
  _ ← (if import_ok w then mret tt else Py.Raise Py.ImportError);
  let logs_data := LogAnalyzer.get_loki_logs (exn_text w) (primary w) in
  has_error ← Py.contains_key (Py.lit "error") logs_data;
  if negb has_error then
    log_entries ← match collect logs_data [] with
                  | (log_entries, None) => mret log_entries
                  | (_, Some e) => Py.Raise e
                  end;
    let log_entries :=
      match log_entries with
      | [] => try_alternatives w alternative_queries log_entries
      | _ :: _ => log_entries
      end in
    logs_text ← Py.join_lines (Py.slice_to 50 log_entries);
    let analysis := LogAnalyzer.analyze_with_patterns (analysis_now w) logs_text in
    mret {| logs_timestamp := logs_now w;
            log_analysis := Some analysis;
            logs_error := None;
            entries_analyzed := Some (Py.len log_entries);
            alert_level := Some (LogAnalyzer.alert_level analysis);
            detected_patterns := Some (LogAnalyzer.detected_patterns analysis);
            query_used :=
              Some (match log_entries with
                    | _ :: _ => "alternative"
                    | [] => "original"
                    end) |}
  else
    err ← Py.subscript_key logs_data (Py.lit "error");
    mret {| logs_timestamp := logs_now w;
            log_analysis := None;
            logs_error := Some (LokiError err);
            entries_analyzed := Some 0;
            alert_level := Some "UNKNOWN";
            detected_patterns := None;
            query_used := None |}.

Definition analyze_logs_patterns (w : logs_world) : logs_data :=
  Py.try_except (analyze_logs_body w)
    (fun e =>
       {| logs_timestamp := logs_now w;
          log_analysis := None;
          logs_error := Some (AnalysisFailed (exn_text w e));
          entries_analyzed := Some 0;
          alert_level := Some "ERROR";
          detected_patterns := None;
          query_used := None |}).

(** *** [_get_static_insights] *)

Inductive ai_insights :=
  | AiOff                                      (* [{'ai_available': False}] *)
  | AiAnswer (timestamp insights model_used : string)
  | Static (timestamp insights : string).

(** [insights] is only ever appended to; each commented block of the source
    is one function giving the lines it appends. *)

(** [# System health analysis] *)
Definition health_insights (health : health_data) : list string :=
  if String.eqb (health_level health) "EXCELLENT" then
    [ "✅ System in excellent condition: all services available, containers running";
      "📊 Consider configuring auto-scaling to maintain performance" ]
  else if String.eqb (health_level health) "GOOD" then
    [ "⚠️ System stable, but recommend checking logs for hidden issues";
      "🔧 Consider optimizing resource consumption" ]
  else
    [ "🚨 Immediate attention required! Critical system issues";
      "📋 Check Docker containers and service configurations" ].

(** [# Performance analysis] *)
Definition performance_insights (performance : performance_data) : list string :=
  if String.eqb (performance_level performance) "FAST" then
    [ "⚡ Performance optimal, response time normal" ]
  else if String.eqb (performance_level performance) "SLOW" then
    [ "🐌 Performance degraded, recommend code and configuration optimization";
      "💾 Check memory and CPU usage" ]
  else [].

(** [# Logs analysis] *)
Definition logs_insights (logs : logs_data) : list string :=
  let entries_analyzed := default 0 (entries_analyzed logs) in
  if entries_analyzed >? 10 then
    [ "📝 System generating stable log stream (" +:+ pretty entries_analyzed
      +:+ " entries)" ]
  else if entries_analyzed >? 0 then
    [ "📝 Low log activity, system running stable" ]
  else
    [ "🔧 Configure log collection for complete monitoring" ].

(** [# Detected patterns] *)
Definition patterns_insights (logs : logs_data) : list string :=
  match detected_patterns logs with
  | Some ((_ :: _) as patterns) =>
      ((if Py.mem "application_errors" patterns
        then ["🚨 Application errors detected - check code and dependencies"]
        else [])
       ++ (if Py.mem "performance_issues" patterns
           then ["⚡ Performance issues identified - optimize queries"]
           else [])
       ++ (if Py.mem "security_issues" patterns
           then ["🔒 Security issues detected - check authentication"]
           else []))%list
  | _ => []
  end.

Definition static_insight_lines (health : health_data)
    (performance : performance_data) (logs : logs_data) : list string :=
  (health_insights health ++ performance_insights performance
   ++ logs_insights logs ++ patterns_insights logs)%list.

Definition _get_static_insights (now : string) (health : health_data)
    (performance : performance_data) (logs : logs_data) : ai_insights :=
  Static now (Py.join " • " (static_insight_lines health performance logs)).

(** *** [analyze_network] and [_get_network_status] *)

Inductive network_data :=
  | NetworkFailed (timestamp : string) (text : Py.str)   (* has an ['error'] key *)
  | NetworkResults (r : NetworkAnalyzer.results).

Record network_world := {
  network_import_ok : bool;
  targets : list string;
  network : NetworkAnalyzer.net;
  network_exn_text : Py.exn_kind -> Py.str;
  network_now : string
}.

Definition analyze_network (w : network_world) : network_data :=
  Py.try_except
    (_ ← (if network_import_ok w then mret tt else Py.Raise Py.ImportError);
     r ← NetworkAnalyzer.analyze_network_health (targets w) (network w);
     mret (NetworkResults r))
    (fun e => NetworkFailed (network_now w) (network_exn_text w e)).

Definition _get_network_status (network_data : network_data) : string :=
  match network_data with
  | NetworkFailed _ _ => "UNKNOWN"
  | NetworkResults r =>
      let availability :=
        NetworkAnalyzer.http_availability (NetworkAnalyzer.network_summary r) in
      if Qle_bool 95 availability then "EXCELLENT"
      else if Qle_bool 80 availability then "GOOD"
      else if Qle_bool 60 availability then "WARNING"
      else "CRITICAL"
  end.

(** *** [_calculate_overall_status] *)

Definition status_weights : gmap string Z :=
  <["CRITICAL" := 4]> (<["ERROR" := 3]> (<["WARNING" := 2]>
    (<["GOOD" := 1]> (<["EXCELLENT" := 0]> (<["UNKNOWN" := 1]> ∅))))).

(** [status_weights.get(level, dflt)] *)
Definition weight (level : string) (dflt : Z) : Z :=
  default dflt (status_weights !! level).

Definition health_weight (health : health_data) : Z :=
  weight (health_level health) 2.

Definition perf_weight (performance : performance_data) : Z :=
  if String.eqb (performance_level performance) "SLOW" then 2 else 0.

Definition logs_weight (logs : logs_data) : Z :=
  weight (default "INFO" (alert_level logs)) 1.

Definition network_weight (network : network_data) : Z :=
  weight (_get_network_status network) 1.

Definition total_weight (health : health_data) (performance : performance_data)
    (logs : logs_data) (network : network_data) : Z :=
  health_weight health + perf_weight performance + logs_weight logs
  + network_weight network.

Definition CRITICAL : string := "🔴 CRITICAL".
Definition WARNING : string := "🟡 WARNING".
Definition NORMAL : string := "🟢 NORMAL".

Definition _calculate_overall_status (health : health_data)
    (performance : performance_data) (logs : logs_data)
    (network : network_data) : string :=
  let total_weight := total_weight health performance logs network in
  if total_weight >=? 6 then CRITICAL
  else if total_weight >=? 4 then WARNING
  else NORMAL.

(** *** [_generate_recommendations] *)

(** [recommendations] is only ever appended to; one function per commented
    block of the source. *)

(** [# System health recommendations] *)
Definition health_recommendations (health : health_data) : list string :=
  let health_score := health_score health in
  if health_score =? 100 then
    [ "🎯 Maintain current configuration - system perfect" ]
  else if health_score >=? 90 then
    [ "📈 Consider business metrics monitoring for proactive management" ]
  else if health_score >=? 70 then
    [ "🔧 Conduct preventive system inspection" ]
  else [].

(** [# Performance recommendations] *)
Definition performance_recommendations (performance : performance_data)
  : list string :=
  if String.eqb (performance_level performance) "FAST" then
    [ "⚡ Performance optimal - maintain current settings" ]
  else if String.eqb (performance_level performance) "SLOW" then
    [ "🐌 Optimize database settings and caching" ]
  else [].

(** [# Logs recommendations] *)
Definition logs_recommendations (logs : logs_data) : list string :=
  let entries_analyzed := default 0 (entries_analyzed logs) in
  if entries_analyzed >? 0 then
    let log_level := default "INFO" (alert_level logs) in
    ((if String.eqb log_level "ERROR" then
        [ "🚨 Urgently investigate errors in logs" ]
      else if String.eqb log_level "WARNING" then
        [ "⚠️ Attention: warnings present in logs" ]
      else
        [ "📝 Logs clean - excellent system operation" ])
     ++ (if entries_analyzed >? 50
         then [ "📊 Consider log rotation to save space" ]
         else []))%list
  else
    [ "🔧 Configure Loki for application log collection" ].

(** [# Patterns recommendations] *)
Definition patterns_recommendations (logs : logs_data) : list string :=
  match detected_patterns logs with
  | Some ((_ :: _) as patterns) =>
      ((if Py.mem "database_errors" patterns
        then [ "🗄️ Check database connections" ] else [])
       ++ (if Py.mem "performance_issues" patterns
           then [ "⚡ Analyze slow queries" ] else []))%list
  | _ => []
  end.

(** [# If everything excellent] *)
Definition all_clear (health : health_data) (performance : performance_data)
    (logs : logs_data) : list string :=
  if (health_score health =? 100)
     && String.eqb (performance_level performance) "FAST"
     && match alert_level logs with
        | Some level => String.eqb level "INFO"
        | None => true
        end
     && (default 0 (entries_analyzed logs) >? 0)
  then [ "🏆 System operating perfectly! Recommend documenting configuration" ]
  else [].

Definition _generate_recommendations (health : health_data)
    (performance : performance_data) (logs : logs_data) : list string :=
  (health_recommendations health ++ performance_recommendations performance
   ++ logs_recommendations logs ++ patterns_recommendations logs
   ++ all_clear health performance logs)%list.

(** *** [generate_ai_insights] and [generate_master_report] *)

(** Which [return] of [generate_ai_insights] is reached. *)
Inductive ai_path :=
  | Generated (text model_used : string)
  | Fallback.

Definition generate_ai_insights (use_ai : bool) (path : ai_path)
    (now : string) (health : health_data) (performance : performance_data)
    (logs : logs_data) : ai_insights :=
  if use_ai then
    match path with
    | Generated text model_used => AiAnswer now text model_used
    | Fallback => _get_static_insights now health performance logs
    end
  else AiOff.

Record report_summary := {
  summary_health : string;
  summary_performance : string;
  summary_logs_alert : string;
  summary_network : string;
  overall_status : string
}.

Record report_details := {
  health_analysis : health_data;
  performance_analysis : performance_data;
  logs_analysis : logs_data;
  network_analysis : network_data;
  details_ai_insights : ai_insights
}.

Record master_report := {
  report_id : string;
  report_timestamp : string;
  summary : report_summary;
  details : report_details;
  recommendations : list string
}.

(** The dictionary [generate_master_report] builds from the analyzer
    outputs; [stamp] and [now] are the two readings of the clock. *)
Definition build_report (stamp now : string) (health_data : health_data)
    (performance_data : performance_data) (logs_data : logs_data)
    (network_data : network_data) (ai_insights : ai_insights)
  : master_report :=
  {| report_id := "report_" +:+ stamp;
     report_timestamp := now;
     summary :=
       {| summary_health := health_level health_data;
          summary_performance := performance_level performance_data;
          summary_logs_alert := default "UNKNOWN" (alert_level logs_data);
          summary_network := _get_network_status network_data;
          overall_status :=
            _calculate_overall_status health_data performance_data
              logs_data network_data |};
     details :=
       {| health_analysis := health_data;
          performance_analysis := performance_data;
          logs_analysis := logs_data;
          network_analysis := network_data;
          details_ai_insights := ai_insights |};
     recommendations :=
       _generate_recommendations health_data performance_data logs_data |}.

Record world := {
  use_ai : bool;
  health_w : health_world;
  performance_w : performance_world;
  logs_w : logs_world;
  network_w : network_world;
  ai_w : ai_path;
  insights_now : string;
  report_stamp : string;
  report_now : string
}.

Definition generate_master_report (w : world) : master_report :=
  let health_data := analyze_system_health (health_w w) in
  let performance_data := analyze_performance (performance_w w) in
  let logs_data := analyze_logs_patterns (logs_w w) in
  let network_data := analyze_network (network_w w) in
  let ai_insights :=
    generate_ai_insights (use_ai w) (ai_w w) (insights_now w)
      health_data performance_data logs_data in
  build_report (report_stamp w) (report_now w) health_data performance_data
    logs_data network_data ai_insights.

End MasterAnalyzer.

(** ** Concrete runs used in the examples below *)

Module Scenario.

Definition all_up : MonitoringBridge.services :=
  {| MonitoringBridge.app := true; MonitoringBridge.prometheus := true;
     MonitoringBridge.loki := true; MonitoringBridge.grafana := true |}.

(** Loki and Grafana do not answer; [docker ps] lists two containers. *)
Definition two_down : MonitoringBridge.probe :=
  {| MonitoringBridge.checks :=
       {| MonitoringBridge.app := true; MonitoringBridge.prometheus := true;
          MonitoringBridge.loki := false; MonitoringBridge.grafana := false |};
     MonitoringBridge.docker_stdout :=
       Some (Py.lit "3f2a9c1e77b0" ++ Py.newline :: Py.lit "a81d04c25e9f"
             ++ [Py.newline])%list;
     MonitoringBridge.now_iso := "2025-01-01T12:00:00.000001";
     MonitoringBridge.elapsed_ms := 12 |}.

Definition healthy : MonitoringBridge.probe :=
  {| MonitoringBridge.checks := all_up;
     MonitoringBridge.docker_stdout :=
       Some (Py.lit "3f2a9c1e77b0" ++ Py.newline :: Py.lit "a81d04c25e9f"
             ++ Py.newline :: Py.lit "0c55d2e81a34"
             ++ Py.newline :: Py.lit "9b7e61f3d2c8" ++ [Py.newline])%list;
     MonitoringBridge.now_iso := "2025-01-01T12:00:00.000002";
     MonitoringBridge.elapsed_ms := 12 |}.

(** Prometheus does not answer; all four containers run. *)
Definition one_down : MonitoringBridge.probe :=
  {| MonitoringBridge.checks :=
       {| MonitoringBridge.app := true; MonitoringBridge.prometheus := false;
          MonitoringBridge.loki := true; MonitoringBridge.grafana := true |};
     MonitoringBridge.docker_stdout := MonitoringBridge.docker_stdout healthy;
     MonitoringBridge.now_iso := "2025-01-01T12:00:00.000002";
     MonitoringBridge.elapsed_ms := 12 |}.

(** A Loki answer with one stream holding the given lines. *)
Definition loki_payload (lines : list Py.str) : Py.json :=
  Py.JObj
    [ (Py.lit "status", Py.JStr (Py.lit "success"));
      (Py.lit "data",
       Py.JObj
         [ (Py.lit "resultType", Py.JStr (Py.lit "streams"));
           (Py.lit "result",
            Py.JArr
              [ Py.JObj
                  [ (Py.lit "stream", Py.JObj []);
                    (Py.lit "values",
                     Py.JArr
                       (map (fun l =>
                               Py.JArr [Py.JStr (Py.lit "1735732800000000000");
                                        Py.JStr l])
                          lines)) ] ]) ]) ].

Definition no_text (e : Py.exn_kind) : Py.str := [].

(** Loki answers the first query with one clean line. *)
Definition quiet_logs : MasterAnalyzer.logs_world :=
  {| MasterAnalyzer.import_ok := true;
     MasterAnalyzer.primary :=
       LogAnalyzer.HttpResponse 200
         (Some (loki_payload [Py.lit "INFO request served"]));
     MasterAnalyzer.alternative := fun _ => MasterAnalyzer.AltRaised;
     MasterAnalyzer.exn_text := no_text;
     MasterAnalyzer.analysis_now := "2025-01-01T12:00:01.000001";
     MasterAnalyzer.logs_now := "2025-01-01T12:00:01.000002" |}.

(** Nothing listens on the Loki port. *)
Definition loki_unreachable : MasterAnalyzer.logs_world :=
  {| MasterAnalyzer.import_ok := true;
     MasterAnalyzer.primary := LogAnalyzer.HttpRaised;
     MasterAnalyzer.alternative := fun _ => MasterAnalyzer.AltRaised;
     MasterAnalyzer.exn_text := no_text;
     MasterAnalyzer.analysis_now := "2025-01-01T12:00:01.000001";
     MasterAnalyzer.logs_now := "2025-01-01T12:00:01.000002" |}.

(** Loki answers, but one entry of a stream lacks its text. *)
Definition malformed_logs : MasterAnalyzer.logs_world :=
  {| MasterAnalyzer.import_ok := true;
     MasterAnalyzer.primary :=
       LogAnalyzer.HttpResponse 200
         (Some
            (Py.JObj
               [ (Py.lit "status", Py.JStr (Py.lit "success"));
                 (Py.lit "data",
                  Py.JObj
                    [ (Py.lit "result",
                       Py.JArr
                         [ Py.JObj
                             [ (Py.lit "values",
                                Py.JArr
                                  [ Py.JArr
                                      [ Py.JStr (Py.lit "1735732800000000000") ] ])
                             ] ]) ]) ]));
     MasterAnalyzer.alternative := fun _ => MasterAnalyzer.AltRaised;
     MasterAnalyzer.exn_text := no_text;
     MasterAnalyzer.analysis_now := "2025-01-01T12:00:01.000001";
     MasterAnalyzer.logs_now := "2025-01-01T12:00:01.000002" |}.

(** Every network probe succeeds. *)
Definition net_up : NetworkAnalyzer.net :=
  {| NetworkAnalyzer.ping_service := fun t =>
       {| NetworkAnalyzer.ping_target := t;
          NetworkAnalyzer.ping_available := true;
          NetworkAnalyzer.avg_time := 9 |};
     NetworkAnalyzer.http_response_time := fun t =>
       {| NetworkAnalyzer.url := t;
          NetworkAnalyzer.http_available := true;
          NetworkAnalyzer.response_time_ms := 20 |};
     NetworkAnalyzer.check_dns_resolution := fun t =>
       {| NetworkAnalyzer.hostname := t;
          NetworkAnalyzer.resolved := true;
          NetworkAnalyzer.resolution_time_ms := 3 |};
     NetworkAnalyzer.now_iso := "2025-01-01T12:00:02.000001" |}.

Definition network_up : MasterAnalyzer.network_world :=
  {| MasterAnalyzer.network_import_ok := true;
     MasterAnalyzer.targets := NetworkAnalyzer.target_services;
     MasterAnalyzer.network := net_up;
     MasterAnalyzer.network_exn_text := no_text;
     MasterAnalyzer.network_now := "2025-01-01T12:00:02.000002" |}.

Definition run (p : MonitoringBridge.probe) (l : MasterAnalyzer.logs_world)
    (ai : bool) (path : MasterAnalyzer.ai_path) (stamp : string)
  : MasterAnalyzer.world :=
  {| MasterAnalyzer.use_ai := ai;
     MasterAnalyzer.health_w :=
       {| MasterAnalyzer.bridge_probe := p;
          MasterAnalyzer.system_metrics_output := true;
          MasterAnalyzer.container_metrics_output := true;
          MasterAnalyzer.health_now := "2025-01-01T12:00:00.000003" |};
     MasterAnalyzer.performance_w :=
       {| MasterAnalyzer.report_probe := healthy;
          MasterAnalyzer.generation_time_seconds := 1 # 50;
          MasterAnalyzer.performance_now := "2025-01-01T12:00:00.500000" |};
     MasterAnalyzer.logs_w := l;
     MasterAnalyzer.network_w := network_up;
     MasterAnalyzer.ai_w := path;
     MasterAnalyzer.insights_now := "2025-01-01T12:00:03.000001";
     MasterAnalyzer.report_stamp := stamp;
     MasterAnalyzer.report_now := "2025-01-01T12:00:03.000002" |}.

(** Two of four services down, two of four containers running, everything
    else at its best. *)
Definition two_down_run : MasterAnalyzer.world :=
  run two_down quiet_logs false MasterAnalyzer.Fallback "20250101_120003".

(** A configuration without a host to ping. *)
Definition http_only : MasterAnalyzer.network_world :=
  {| MasterAnalyzer.network_import_ok := true;
     MasterAnalyzer.targets := ["http://localhost:5000"];
     MasterAnalyzer.network := net_up;
     MasterAnalyzer.network_exn_text := no_text;
     MasterAnalyzer.network_now := "2025-01-01T12:00:02.000002" |}.

(** A request-rate series whose last three samples average exactly 1.3
    times the average of the whole window (13 against 10). *)
Definition boundary_series : list Q := [1; 13; 13; 13]%Q.

Definition boundary_metrics : InsightGenerator.samples :=
  {| InsightGenerator.requests := map Binary64.of_Q boundary_series;
     InsightGenerator.errors := [Binary64.zero];
     InsightGenerator.memory := [Binary64.zero] |}.

(** Two series of rates with one decimal, written as in the source text:
    each sample is the float nearest to the decimal. *)
Definition just_above : list Binary64.float :=
  map Binary64.of_Q [92 # 10; 51 # 10; 10; 398 # 10; 9 # 10]%Q.

Definition just_below : list Binary64.float :=
  map Binary64.of_Q [94 # 10; 264 # 10; 55 # 10; 233 # 10; 156 # 10; 378 # 10]%Q.

(** Four hourly samples with traffic and one hour with errors. *)
Definition busy : InsightGenerator.container_metrics :=
  {| InsightGenerator.series :=
       {| InsightGenerator.app_requests := boundary_series;
          InsightGenerator.app_errors := [0; 1; 0; 0]%Q;
          InsightGenerator.app_memory := [0%Q] |};
     InsightGenerator.app_cpu := [(1 # 10)%Q] |}.

End Scenario.

(** ** Catalogues used to state orderings *)

Module Catalogue.

(** Every entry [_generate_recommendations] can append, in the order of the
    blocks of the source. *)
Definition recommendations : list string :=
  [ "🎯 Maintain current configuration - system perfect";
    "📈 Consider business metrics monitoring for proactive management";
    "🔧 Conduct preventive system inspection";
    "⚡ Performance optimal - maintain current settings";
    "🐌 Optimize database settings and caching";
    "🚨 Urgently investigate errors in logs";
    "⚠️ Attention: warnings present in logs";
    "📝 Logs clean - excellent system operation";
    "📊 Consider log rotation to save space";
    "🔧 Configure Loki for application log collection";
    "🗄️ Check database connections";
    "⚡ Analyze slow queries";
    "🏆 System operating perfectly! Recommend documenting configuration" ].

Definition ALL_CLEAR : string :=
  "🏆 System operating perfectly! Recommend documenting configuration".

Definition STABLE : string := "✅ Network infrastructure running stable".


(** The names of the pattern groups, in the order of [self.patterns]. *)
Definition groups : list string := map fst LogAnalyzer.patterns.

(** The upper-case form of an ASCII letter; other code points are kept. *)
Definition ascii_upper (ch : N) : N :=
  if ((97 <=? ch) && (ch <=? 122))%N then (ch - 32)%N else ch.

(** The literals of a compiled pattern are lower-case ASCII letters. *)
Definition lower_lits (ts : list LogAnalyzer.tok) : Prop :=
  Forall (fun t => match t with
                   | LogAnalyzer.Lit c => LogAnalyzer.is_lower_ascii c = true
                   | LogAnalyzer.DotStar => True
                   end) ts.

(** A log entry of one line: no line feed, and a first and a last character
    that are not white space. *)
Definition tidy_line (l : Py.str) : Prop :=
  (exists h t, l = h :: t /\ Py.isspace h = false)
  /\ (exists h t, rev l = h :: t /\ Py.isspace h = false)
  /\ Forall (fun ch => (ch =? Py.newline)%N = false) l.

End Catalogue.

(** * Properties *)

(** ** Quick status *)

Lemma sum_bools_services (s : MonitoringBridge.services) :
  0 <= Py.sum_bools (MonitoringBridge.services_values s) <= 4.
Proof. destruct s as [[] [] [] []]; vm_compute; split; discriminate. Qed.

Lemma status_of_cases (a : Z) :
  0 <= a <= 4 -> a = 0 \/ a = 1 \/ a = 2 \/ a = 3 \/ a = 4.
Proof. lia. Qed.

(** C1. The status label of [get_quick_status] is [status_of] of the number of
    reachable services, which lies between 0 and the total 4.  For
    0 <= a <= b <= 4: the label is OK exactly when a = 4, PARTIAL exactly
    when at least half but not all services are reachable, CRITICAL exactly
    when fewer than half are; and the label for b is at most as severe as
    the label for a. *)
Theorem C1_quick_status_severity (a b : Z) :
  0 <= a <= b -> b <= 4 ->
  (forall p : MonitoringBridge.probe,
      let q := MonitoringBridge.get_quick_status p in
      MonitoringBridge.services_total q = 4
      /\ 0 <= MonitoringBridge.services_available q <= MonitoringBridge.services_total q
      /\ MonitoringBridge.status q
         = MonitoringBridge.status_of (MonitoringBridge.services_available q))
  /\ (MonitoringBridge.status_of a = MonitoringBridge.OK <-> a = 4)
  /\ (MonitoringBridge.status_of a = MonitoringBridge.PARTIAL
      <-> 4 <= 2 * a /\ a <> 4)
  /\ (MonitoringBridge.status_of a = MonitoringBridge.CRITICAL <-> 2 * a < 4)
  /\ MonitoringBridge.severity_rank (MonitoringBridge.status_of b)
     <= MonitoringBridge.severity_rank (MonitoringBridge.status_of a).
Proof.
  intros Ha Hb. split.
  { intros p q. subst q. cbn. repeat split; try reflexivity;
      apply sum_bools_services. }
  assert (Ha' : 0 <= a <= 4) by lia.
  assert (Hb' : 0 <= b <= 4) by lia.
  destruct (status_of_cases a Ha') as [->|[->|[->|[->| ->]]]];
    destruct (status_of_cases b Hb') as [->|[->|[->|[->| ->]]]]; try lia;
    clear; repeat split; intros;
    first [ reflexivity | lia
          | match goal with
            | H : _ = _ |- _ => vm_compute in H; discriminate H
            end
          | vm_compute; discriminate ].
Qed.

Lemma C1_quick_status_severity_witness :
  MonitoringBridge.status_of 2 = MonitoringBridge.PARTIAL
  /\ MonitoringBridge.severity_rank (MonitoringBridge.status_of 3)
     <= MonitoringBridge.severity_rank (MonitoringBridge.status_of 2).
Proof.
  destruct (C1_quick_status_severity 2 3) as (_ & _ & Hp & _ & Hm);
    [lia | lia |].
  split; [apply Hp; lia | exact Hm].
Defined.

(** ** Aggregation *)

Lemma weight_range (level : string) (dflt : Z) :
  0 <= dflt <= 4 -> 0 <= MasterAnalyzer.weight level dflt <= 4.
Proof.
  intros Hd. unfold MasterAnalyzer.weight.
  destruct (MasterAnalyzer.status_weights !! level) as [v|] eqn:E; cbn; [|lia].
  unfold MasterAnalyzer.status_weights in E.
  repeat (apply lookup_insert_Some in E as [[_ <-]|[_ E]]; [lia|]).
  rewrite lookup_empty in E. discriminate.
Qed.

Lemma perf_weight_range (p : MasterAnalyzer.performance_data) :
  0 <= MasterAnalyzer.perf_weight p <= 2.
Proof. unfold MasterAnalyzer.perf_weight. destruct (String.eqb _ _); lia. Qed.

Lemma two_down_health (w : MasterAnalyzer.health_world) :
  Py.sum_bools (MonitoringBridge.services_values
                  (MonitoringBridge.checks (MasterAnalyzer.bridge_probe w))) = 2 ->
  MonitoringBridge.count_containers
    (MonitoringBridge.docker_stdout (MasterAnalyzer.bridge_probe w)) < 4 ->
  MonitoringBridge.status
    (MasterAnalyzer.quick_status (MasterAnalyzer.analyze_system_health w))
  = MonitoringBridge.PARTIAL
  /\ MasterAnalyzer.health_score (MasterAnalyzer.analyze_system_health w) = 15.
Proof.
  intros Hs Hc.
  unfold MasterAnalyzer.analyze_system_health, MasterAnalyzer.score_of,
    MonitoringBridge.get_quick_status.
  cbn [MasterAnalyzer.quick_status MasterAnalyzer.health_score
       MonitoringBridge.status MonitoringBridge.services_available
       MonitoringBridge.services_total MonitoringBridge.containers_running
       MonitoringBridge.containers_expected].
  rewrite Hs.
  change (MonitoringBridge.status_of 2) with MonitoringBridge.PARTIAL.
  split; [reflexivity|].
  change (String.eqb MonitoringBridge.PARTIAL MonitoringBridge.OK) with false.
  apply Z.ltb_lt in Hc. rewrite Hc. reflexivity.
Qed.

(** C2 (as amended).  When exactly two of the four service checks fail and
    fewer than four containers run, the quick status is PARTIAL, the health
    score is 15 and the health level CRITICAL (weight 4); whatever the
    performance, log and network outputs are, the overall status is never
    NORMAL, and it is CRITICAL exactly when those three contribute a weight of
    at least 2. *)
Theorem C2_two_down_overall (w : MasterAnalyzer.health_world)
    (performance : MasterAnalyzer.performance_data)
    (logs : MasterAnalyzer.logs_data) (network : MasterAnalyzer.network_data) :
  Py.sum_bools (MonitoringBridge.services_values
                  (MonitoringBridge.checks (MasterAnalyzer.bridge_probe w))) = 2 ->
  MonitoringBridge.count_containers
    (MonitoringBridge.docker_stdout (MasterAnalyzer.bridge_probe w)) < 4 ->
  let health := MasterAnalyzer.analyze_system_health w in
  let overall :=
    MasterAnalyzer._calculate_overall_status health performance logs network in
  MonitoringBridge.status (MasterAnalyzer.quick_status health)
  = MonitoringBridge.PARTIAL
  /\ MasterAnalyzer.health_score health = 15
  /\ MasterAnalyzer.health_level health = "CRITICAL"
  /\ MasterAnalyzer.health_weight health = 4
  /\ (overall = MasterAnalyzer.WARNING \/ overall = MasterAnalyzer.CRITICAL)
  /\ overall <> MasterAnalyzer.NORMAL
  /\ (overall = MasterAnalyzer.CRITICAL
      <-> 2 <= MasterAnalyzer.perf_weight performance
              + MasterAnalyzer.logs_weight logs
              + MasterAnalyzer.network_weight network).
Proof.
  intros Hs Hc health overall.
  destruct (two_down_health w Hs Hc) as [Hst Hsc].
  assert (Hlv : MasterAnalyzer.health_level health = "CRITICAL").
  { subst health. unfold MasterAnalyzer.analyze_system_health in *.
    cbn [MasterAnalyzer.health_level MasterAnalyzer.health_score] in *.
    rewrite Hsc. reflexivity. }
  assert (Hw : MasterAnalyzer.health_weight health = 4).
  { unfold MasterAnalyzer.health_weight. rewrite Hlv. reflexivity. }
  pose proof (perf_weight_range performance) as Hp.
  assert (Hl : 0 <= MasterAnalyzer.logs_weight logs <= 4)
    by (apply weight_range; lia).
  assert (Hn : 0 <= MasterAnalyzer.network_weight network <= 4)
    by (apply weight_range; lia).
  repeat split; try assumption; subst overall;
    unfold MasterAnalyzer._calculate_overall_status, MasterAnalyzer.total_weight;
    rewrite Hw;
    repeat match goal with
           | |- context [?a >=? ?b] => destruct (Z.geb_spec a b)
           end;
    try lia; try discriminate; try (intros; lia); try (intros; discriminate);
    auto.
Qed.

Lemma C2_two_down_overall_witness :
  MonitoringBridge.status
    (MasterAnalyzer.quick_status
       (MasterAnalyzer.analyze_system_health
          (MasterAnalyzer.health_w Scenario.two_down_run)))
  = MonitoringBridge.PARTIAL.
Proof.
  refine (proj1 (C2_two_down_overall
                   (MasterAnalyzer.health_w Scenario.two_down_run)
                   (MasterAnalyzer.analyze_performance
                      (MasterAnalyzer.performance_w Scenario.two_down_run))
                   (MasterAnalyzer.analyze_logs_patterns
                      (MasterAnalyzer.logs_w Scenario.two_down_run))
                   (MasterAnalyzer.analyze_network
                      (MasterAnalyzer.network_w Scenario.two_down_run))
                   _ _)).
  - reflexivity.
  - vm_compute. reflexivity.
Defined.

(** C2 as stated fails: in the run [Scenario.two_down_run] two of the four
    checks fail and two of four containers run, yet the quick status is
    PARTIAL and the overall status WARNING. *)
Lemma C2_counterexample :
  let w := Scenario.two_down_run in
  let r := MasterAnalyzer.generate_master_report w in
  let q := MasterAnalyzer.quick_status
             (MasterAnalyzer.health_analysis (MasterAnalyzer.details r)) in
  MonitoringBridge.services_total q - MonitoringBridge.services_available q = 2
  /\ MonitoringBridge.containers_running q < MonitoringBridge.containers_expected q
  /\ MonitoringBridge.status q = MonitoringBridge.PARTIAL
  /\ MonitoringBridge.status q <> MonitoringBridge.CRITICAL
  /\ MasterAnalyzer.overall_status (MasterAnalyzer.summary r)
     = MasterAnalyzer.WARNING
  /\ MasterAnalyzer.overall_status (MasterAnalyzer.summary r)
     <> MasterAnalyzer.CRITICAL.
Proof. vm_compute. repeat split; discriminate. Qed.

(** C3. Two runs whose four analyzer outputs (health, performance, logs,
    network) agree end in the same overall status and the same recommendation
    list, in the same order, whatever the two runs' insight outputs, clock
    readings and AI settings are; and in one report, replacing the insight
    output changes neither. *)
Theorem C3_scoring_deterministic (w1 w2 : MasterAnalyzer.world) :
  MasterAnalyzer.analyze_system_health (MasterAnalyzer.health_w w1)
  = MasterAnalyzer.analyze_system_health (MasterAnalyzer.health_w w2) ->
  MasterAnalyzer.analyze_performance (MasterAnalyzer.performance_w w1)
  = MasterAnalyzer.analyze_performance (MasterAnalyzer.performance_w w2) ->
  MasterAnalyzer.analyze_logs_patterns (MasterAnalyzer.logs_w w1)
  = MasterAnalyzer.analyze_logs_patterns (MasterAnalyzer.logs_w w2) ->
  MasterAnalyzer.analyze_network (MasterAnalyzer.network_w w1)
  = MasterAnalyzer.analyze_network (MasterAnalyzer.network_w w2) ->
  let r1 := MasterAnalyzer.generate_master_report w1 in
  let r2 := MasterAnalyzer.generate_master_report w2 in
  MasterAnalyzer.overall_status (MasterAnalyzer.summary r1)
  = MasterAnalyzer.overall_status (MasterAnalyzer.summary r2)
  /\ MasterAnalyzer.recommendations r1 = MasterAnalyzer.recommendations r2
  /\ forall (stamp now : string) (ai : MasterAnalyzer.ai_insights),
       let r := MasterAnalyzer.build_report stamp now
                  (MasterAnalyzer.health_analysis (MasterAnalyzer.details r1))
                  (MasterAnalyzer.performance_analysis (MasterAnalyzer.details r1))
                  (MasterAnalyzer.logs_analysis (MasterAnalyzer.details r1))
                  (MasterAnalyzer.network_analysis (MasterAnalyzer.details r1))
                  ai in
       MasterAnalyzer.overall_status (MasterAnalyzer.summary r)
       = MasterAnalyzer.overall_status (MasterAnalyzer.summary r1)
       /\ MasterAnalyzer.recommendations r = MasterAnalyzer.recommendations r1.
Proof.
  intros Hh Hp Hl Hn r1 r2. subst r1 r2.
  unfold MasterAnalyzer.generate_master_report, MasterAnalyzer.build_report.
  cbn [MasterAnalyzer.summary MasterAnalyzer.overall_status
       MasterAnalyzer.recommendations MasterAnalyzer.details
       MasterAnalyzer.health_analysis MasterAnalyzer.performance_analysis
       MasterAnalyzer.logs_analysis MasterAnalyzer.network_analysis].
  rewrite Hh, Hp, Hl, Hn. repeat split.
Qed.

Lemma C3_scoring_deterministic_witness :
  let r1 := MasterAnalyzer.generate_master_report Scenario.two_down_run in
  let r2 := MasterAnalyzer.generate_master_report
              (Scenario.run Scenario.two_down Scenario.quiet_logs true
                 (MasterAnalyzer.Generated "Restart Loki." "tinyllama:latest")
                 "20250101_130000") in
  MasterAnalyzer.overall_status (MasterAnalyzer.summary r1)
  = MasterAnalyzer.overall_status (MasterAnalyzer.summary r2)
  /\ MasterAnalyzer.recommendations r1 = MasterAnalyzer.recommendations r2
  /\ MasterAnalyzer.details_ai_insights (MasterAnalyzer.details r1)
     <> MasterAnalyzer.details_ai_insights (MasterAnalyzer.details r2).
Proof.
  pose proof (C3_scoring_deterministic Scenario.two_down_run
                (Scenario.run Scenario.two_down Scenario.quiet_logs true
                   (MasterAnalyzer.Generated "Restart Loki." "tinyllama:latest")
                   "20250101_130000")
                eq_refl eq_refl eq_refl eq_refl) as (H1 & H2 & _).
  split; [exact H1|]. split; [exact H2|]. vm_compute. discriminate.
Defined.

(** ** Fallback insights and recommendations *)





Lemma logs_recommendations_head (logs : MasterAnalyzer.logs_data) :
  exists entry rest,
    MasterAnalyzer.logs_recommendations logs = entry :: rest
    /\ In entry
         [ "🚨 Urgently investigate errors in logs";
           "⚠️ Attention: warnings present in logs";
           "📝 Logs clean - excellent system operation";
           "🔧 Configure Loki for application log collection" ].
Proof.
  unfold MasterAnalyzer.logs_recommendations. cbv zeta.
  destruct (_ >? 0).
  - destruct (String.eqb _ "ERROR"); [|destruct (String.eqb _ "WARNING")];
      do 2 eexists; (split; [reflexivity | cbn [In]; tauto]).
  - do 2 eexists. split; [reflexivity | cbn [In]; tauto].
Qed.

(** C10. For every health, performance and log output the recommendation
    list is not empty: the log branch contributes one of its four entries
    (three for observed entries, one for none) in every case. *)
Theorem C10_recommendations_nonempty (health : MasterAnalyzer.health_data)
    (performance : MasterAnalyzer.performance_data)
    (logs : MasterAnalyzer.logs_data) :
  let recommendations :=
    MasterAnalyzer._generate_recommendations health performance logs in
  recommendations <> []
  /\ (1 <= length recommendations)%nat
  /\ exists entry,
       In entry recommendations
       /\ In entry (MasterAnalyzer.logs_recommendations logs)
       /\ In entry
            [ "🚨 Urgently investigate errors in logs";
              "⚠️ Attention: warnings present in logs";
              "📝 Logs clean - excellent system operation";
              "🔧 Configure Loki for application log collection" ].
Proof.
  intros recommendations.
  destruct (logs_recommendations_head logs) as (entry & rest & Hl & Hin).
  assert (Hrec : In entry recommendations).
  { subst recommendations. unfold MasterAnalyzer._generate_recommendations.
    rewrite Hl, !in_app_iff. right. right. left. left. reflexivity. }
  split; [|split].
  - intros E. rewrite E in Hrec. exact Hrec.
  - destruct recommendations; [destruct Hrec | cbn; lia].
  - exists entry. rewrite Hl. cbn [In]. tauto.
Qed.

(** ** Trend detection *)

Lemma Qgtb_lt (a b : Q) : InsightGenerator.Qgtb a b = true <-> (b < a)%Q.
Proof.
  unfold InsightGenerator.Qgtb. rewrite negb_true_iff.
  destruct (Qle_bool a b) eqn:E.
  - apply Qle_bool_iff in E. split; [discriminate|].
    intros H. exfalso. exact (Qlt_not_le _ _ H E).
  - split; [intros _|reflexivity]. apply Qnot_le_lt. intros H.
    apply Qle_bool_iff in H. congruence.
Qed.

Lemma Qltb_lt (a b : Q) : InsightGenerator.Qltb a b = true <-> (a < b)%Q.
Proof. unfold InsightGenerator.Qltb. apply (Qgtb_lt b a). Qed.

Lemma sum_nonneg (l : list Q) :
  Forall (fun q => (0 <= q)%Q) l -> (0 <= fold_right Qplus 0 l)%Q.
Proof.
  induction 1 as [|q l Hq _ IH]; cbn [fold_right]; lra.
Qed.

Lemma mean_nonneg (l : list Q) :
  Forall (fun q => (0 <= q)%Q) l -> (0 <= Py.mean l)%Q.
Proof.
  intros H. unfold Py.mean, Qdiv. apply Qmult_le_0_compat.
  - apply sum_nonneg, H.
  - apply Qinv_le_0_compat. unfold Py.len.
    change 0%Q with (inject_Z 0). rewrite <- Zle_Qle. lia.
Qed.

(** ** Comparison of floats *)

Lemma Qcompare_ltb (a b : Q) :
  match (a ?= b)%Q with Lt => true | _ => false end = true <-> (a < b)%Q.
Proof.
  rewrite Qlt_alt. destruct (a ?= b)%Q; split; congruence.
Qed.

Lemma Qcompare_eqb (a b : Q) :
  match (a ?= b)%Q with Eq => true | _ => false end = true <-> (a == b)%Q.
Proof.
  rewrite Qeq_alt. destruct (a ?= b)%Q; split; congruence.
Qed.

(** Case analysis on the floats of a goal about comparisons; what remains
    are the goals about the numbers of zeros and finite floats. *)
Ltac float_cases :=
  unfold Binary64.gtb, Binary64.ltb, Binary64.eqb, Binary64.compare;
  repeat match goal with
         | x : Binary64.float |- _ => destruct x as [[]|[]| |? ? ?]
         end;
  cbv beta iota;
  rewrite ?Qcompare_ltb, ?Qcompare_eqb;
  try discriminate; try reflexivity; try tauto.

(** On zeros and finite floats [<] is the order of the numbers. *)
Lemma ltb_finite (x y : Binary64.float) :
  Binary64.is_finite x = true -> Binary64.is_finite y = true ->
  Binary64.ltb x y = true <-> (Binary64.value x < Binary64.value y)%Q.
Proof. float_cases. Qed.

Lemma ltb_trans (x y z : Binary64.float) :
  Binary64.ltb x y = true -> Binary64.ltb y z = true ->
  Binary64.ltb x z = true.
Proof. float_cases. all: apply Qlt_trans. Qed.

(** [t < y] and not [m < y] give [t < m], unless [m] is a NaN. *)
Lemma ltb_le_trans (t y m : Binary64.float) :
  Binary64.is_nan m = false ->
  Binary64.ltb t y = true -> Binary64.ltb m y = false ->
  Binary64.ltb t m = true.
Proof.
  float_cases.
  all: intros _ H1 H2; apply not_true_iff_false in H2;
    rewrite Qcompare_ltb in H2; apply Qnot_lt_le in H2;
    eapply Qlt_le_trans; eassumption.
Qed.

Lemma ltb_nan_l (x : Binary64.float) : Binary64.ltb S754_nan x = false.
Proof. destruct x; reflexivity. Qed.

Lemma ltb_nan_r (x : Binary64.float) : Binary64.ltb x S754_nan = false.
Proof. destruct x; reflexivity. Qed.

Lemma compare_antisym (x y : Binary64.float) :
  Binary64.compare y x = option_map CompOpp (Binary64.compare x y).
Proof.
  unfold Binary64.compare.
  destruct x as [?|[]| |? ? ?], y as [?|[]| |? ? ?]; cbv beta iota;
    try reflexivity; cbn [option_map]; f_equal; symmetry;
    apply Qcompare_antisym.
Qed.

(** Equal floats are on neither side of each other. *)
Lemma eqb_not_ltb (x y : Binary64.float) :
  Binary64.eqb x y = true ->
  Binary64.ltb x y = false /\ Binary64.ltb y x = false.
Proof.
  unfold Binary64.eqb, Binary64.ltb. rewrite (compare_antisym x y).
  destruct (Binary64.compare x y) as [[]|]; cbn; intros H;
    try discriminate H; split; reflexivity.
Qed.

(** *** Agreement with the comparison of the specification *)

Lemma digits2_pos_bounds (m : positive) :
  2 ^ (Zpos (digits2_pos m) - 1) <= Zpos m < 2 ^ Zpos (digits2_pos m).
Proof.
  induction m as [m IH|m IH|]; cbn [digits2_pos].
  - rewrite Pos2Z.inj_succ.
    replace (Z.succ (Zpos (digits2_pos m)) - 1)
      with (Z.succ (Zpos (digits2_pos m) - 1)) by lia.
    rewrite !Z.pow_succ_r by lia. lia.
  - rewrite Pos2Z.inj_succ.
    replace (Z.succ (Zpos (digits2_pos m)) - 1)
      with (Z.succ (Zpos (digits2_pos m) - 1)) by lia.
    rewrite !Z.pow_succ_r by lia. lia.
  - cbn. lia.
Qed.

(** What [valid_binary] says of a finite float. *)
Lemma bounded_bounds (m : positive) (e : Z) :
  bounded Binary64.prec Binary64.emax m e = true ->
  -1074 <= e <= 971
  /\ Zpos m < 2 ^ 53
  /\ (-1074 < e -> 2 ^ 52 <= Zpos m).
Proof.
  unfold bounded, canonical_mantissa, fexp, emin, Binary64.prec, Binary64.emax.
  intros H. apply andb_true_iff in H as [H1 H2].
  apply Z.eqb_eq in H1. apply Z.leb_le in H2.
  pose proof (digits2_pos_bounds m) as [Lo Hi].
  set (d := Zpos (digits2_pos m)) in *.
  assert (Hd : 0 < d) by (subst d; lia).
  split; [lia|]. split.
  - apply Z.lt_le_trans with (1 := Hi).
    apply Z.pow_le_mono_r; lia.
  - intros He. assert (d = 53) as Ed by lia.
    rewrite Ed in Lo. exact Lo.
Qed.

Lemma value_units (s : bool) (m : positive) (e : Z) :
  -1074 <= e ->
  (Binary64.value (S754_finite s m e)
   == (if s then - Binary64.units m e else Binary64.units m e) # 2 ^ 1074)%Q.
Proof.
  intros He. unfold Binary64.value, Binary64.units.
  assert (P : Zpos (2 ^ 1074) = 2 ^ 1074) by (rewrite Pos2Z.inj_pow; reflexivity).
  assert (E : (match e with
               | Zneg k => Zpos m # 2 ^ k
               | _ => inject_Z (Zpos m * 2 ^ e)
               end == (Zpos m * 2 ^ (e + 1074)) # 2 ^ 1074)%Q).
  { unfold Qeq. destruct e as [|k|k]; cbn [Qnum Qden inject_Z].
    - rewrite P. rewrite Z.pow_0_r, Z.add_0_l. lia.
    - rewrite P. rewrite Z.pow_add_r by lia. lia.
    - rewrite P, Pos2Z.inj_pow.
      replace (2 ^ 1074) with (2 ^ (Zneg k + 1074) * 2 ^ Zpos k) at 1.
      + lia.
      + rewrite <- Z.pow_add_r by lia. f_equal. lia. }
  destruct s.
  - rewrite E. reflexivity.
  - exact E.
Qed.

Lemma units_pos (m : positive) (e : Z) : -1074 <= e -> 0 < Binary64.units m e.
Proof.
  intros He. unfold Binary64.units. apply Z.mul_pos_pos; [lia|].
  apply Z.pow_pos_nonneg; lia.
Qed.

Lemma units_lt (m1 m2 : positive) (e1 e2 : Z) :
  bounded Binary64.prec Binary64.emax m1 e1 = true ->
  bounded Binary64.prec Binary64.emax m2 e2 = true ->
  e1 < e2 -> Binary64.units m1 e1 < Binary64.units m2 e2.
Proof.
  intros B1 B2 He.
  destruct (bounded_bounds _ _ B1) as (R1 & U1 & _).
  destruct (bounded_bounds _ _ B2) as (R2 & _ & L2).
  specialize (L2 ltac:(lia)). unfold Binary64.units.
  assert (P1 : 0 < 2 ^ (e1 + 1074)) by (apply Z.pow_pos_nonneg; lia).
  assert (S : 2 * 2 ^ (e1 + 1074) <= 2 ^ (e2 + 1074)).
  { rewrite <- Z.pow_succ_r by lia. apply Z.pow_le_mono_r; lia. }
  apply Z.lt_le_trans with (2 ^ 53 * 2 ^ (e1 + 1074)).
  - apply Z.mul_lt_mono_pos_r; assumption.
  - apply Z.le_trans with (2 ^ 52 * 2 ^ (e2 + 1074)).
    + replace (2 ^ 53) with (2 ^ 52 * 2) by reflexivity.
      rewrite <- Z.mul_assoc. apply Z.mul_le_mono_nonneg_l; lia.
    + apply Z.mul_le_mono_nonneg_r; lia.
Qed.

Lemma units_compare (m1 m2 : positive) (e1 e2 : Z) :
  bounded Binary64.prec Binary64.emax m1 e1 = true ->
  bounded Binary64.prec Binary64.emax m2 e2 = true ->
  (Binary64.units m1 e1 ?= Binary64.units m2 e2)
  = match e1 ?= e2 with
    | Lt => Lt
    | Gt => Gt
    | Eq => Pos.compare_cont Eq m1 m2
    end.
Proof.
  intros B1 B2. destruct (Z.compare_spec e1 e2) as [->|H|H].
  - destruct (bounded_bounds _ _ B2) as (R & _ & _). unfold Binary64.units.
    symmetry. change (Pos.compare_cont Eq m1 m2) with (Zpos m1 ?= Zpos m2).
    apply Zmult_compare_compat_r. apply Z.lt_gt, Z.pow_pos_nonneg; lia.
  - apply Z.compare_lt_iff. apply units_lt; assumption.
  - apply Z.compare_gt_iff. apply units_lt; assumption.
Qed.

Lemma Qcompare_same_den (a b : Z) (d : positive) :
  (a # d ?= b # d)%Q = (a ?= b).
Proof.
  unfold Qcompare. cbn [Qnum Qden].
  symmetry. apply Zmult_compare_compat_r. lia.
Qed.

(** On valid floats, the comparison of [Binary64] is the comparison of the
    Standard Library's specification. *)
Lemma compare_SFcompare (x y : Binary64.float) :
  valid_binary Binary64.prec Binary64.emax x = true ->
  valid_binary Binary64.prec Binary64.emax y = true ->
  Binary64.compare x y = SFcompare x y.
Proof.
  destruct x as [sx|sx| |sx mx ex], y as [sy|sy| |sy my ey];
    cbn [valid_binary]; intros Vx Vy;
    try reflexivity;
    try (destruct sx, sy; reflexivity).
  - destruct (bounded_bounds _ _ Vy) as (R & _ & _).
    pose proof (units_pos my ey ltac:(lia)) as P.
    unfold Binary64.compare. cbv beta iota.
    rewrite (value_units sy my ey) by lia.
    change (Binary64.value (S754_zero sx)) with (0 # 1)%Q.
    unfold SFcompare, Qcompare. cbn [Qnum Qden]. f_equal.
    destruct sy; [apply Z.compare_gt_iff | apply Z.compare_lt_iff]; lia.
  - destruct (bounded_bounds _ _ Vx) as (R & _ & _).
    pose proof (units_pos mx ex ltac:(lia)) as P.
    unfold Binary64.compare. cbv beta iota.
    rewrite (value_units sx mx ex) by lia.
    change (Binary64.value (S754_zero sy)) with (0 # 1)%Q.
    unfold SFcompare, Qcompare. cbn [Qnum Qden]. f_equal.
    destruct sx; [apply Z.compare_lt_iff | apply Z.compare_gt_iff]; lia.
  - destruct (bounded_bounds _ _ Vx) as (Rx & _ & _).
    destruct (bounded_bounds _ _ Vy) as (Ry & _ & _).
    pose proof (units_pos mx ex ltac:(lia)) as Px.
    pose proof (units_pos my ey ltac:(lia)) as Py.
    unfold Binary64.compare. cbv beta iota.
    rewrite (value_units sx mx ex), (value_units sy my ey) by lia.
    rewrite Qcompare_same_den. unfold SFcompare. f_equal.
    destruct sx, sy.
    + rewrite Z.compare_opp, (units_compare my mx ey ex Vy Vx).
      rewrite (Z.compare_antisym ex ey).
      destruct (ex ?= ey); cbn [CompOpp]; try reflexivity.
      apply (Pos.compare_antisym mx my).
    + apply Z.compare_lt_iff. lia.
    + apply Z.compare_gt_iff. lia.
    + apply units_compare; assumption.
Qed.

(** ** [max] of floats *)

(** A NaN in front stays: nothing is greater than it. *)
Lemma fold_max_nan (r : list Binary64.float) :
  fold_left (fun m y => if Binary64.gtb y m then y else m) r S754_nan
  = S754_nan.
Proof.
  induction r as [|y r IH]; cbn [fold_left]; [reflexivity|].
  unfold Binary64.gtb at 2. rewrite ltb_nan_l. exact IH.
Qed.

Lemma fold_max_above (t : Binary64.float) (r : list Binary64.float) :
  Forall (fun e => Binary64.is_nan e = false) r ->
  forall m,
    Binary64.is_nan m = false ->
    Binary64.ltb t
      (fold_left (fun m y => if Binary64.gtb y m then y else m) r m) = true
    <-> Binary64.ltb t m = true \/ exists e, In e r /\ Binary64.ltb t e = true.
Proof.
  induction 1 as [|y r Hy _ IH]; intros m Hm; cbn [fold_left].
  - split; [intros H; left; exact H|].
    intros [H|(e & [] & _)]. exact H.
  - unfold Binary64.gtb at 2.
    destruct (Binary64.ltb m y) eqn:E.
    + rewrite (IH y Hy). split.
      * intros [H|(e & He & H)].
        -- right. exists y. split; [left; reflexivity|exact H].
        -- right. exists e. split; [right; exact He|exact H].
      * intros [H|(e & [->|He] & H)].
        -- left. exact (ltb_trans _ _ _ H E).
        -- left. exact H.
        -- right. exists e. split; assumption.
    + rewrite (IH m Hm). split.
      * intros [H|(e & He & H)].
        -- left. exact H.
        -- right. exists e. split; [right; exact He|exact H].
      * intros [H|(e & [->|He] & H)].
        -- left. exact H.
        -- left. exact (ltb_le_trans _ _ _ Hm H E).
        -- right. exists e. split; assumption.
Qed.

(** Without a NaN, the maximum is above a bound exactly when a sample is. *)
Lemma max_above (t : Binary64.float) (xs : list Binary64.float) :
  xs <> [] ->
  Forall (fun e => Binary64.is_nan e = false) xs ->
  Binary64.ltb t (Binary64.max xs) = true
  <-> exists e, In e xs /\ Binary64.ltb t e = true.
Proof.
  destruct xs as [|x r]; intros Hne H; [contradiction|].
  inversion H as [|? ? Hx Hr]; subst. unfold Binary64.max.
  rewrite (fold_max_above t r Hr x Hx). split.
  - intros [H1|(e & He & H1)].
    + exists x. split; [left; reflexivity|exact H1].
    + exists e. split; [right; exact He|exact H1].
  - intros (e & [->|He] & H1); [left; exact H1|].
    right. exists e. split; assumption.
Qed.

(** ** Trend detection *)

Lemma growing_only_from_requests (format_1f : Binary64.float -> string)
    (m : InsightGenerator.samples) :
  In InsightGenerator.GROWING (InsightGenerator.analyze_trends format_1f m)
  <-> In InsightGenerator.GROWING
        (InsightGenerator.request_trends (InsightGenerator.requests m)).
Proof.
  unfold InsightGenerator.analyze_trends. rewrite !in_app_iff.
  split; [|tauto]. intros [H|[H|H]]; [exact H| |]; exfalso.
  - unfold InsightGenerator.error_trends in H.
    destruct (_ && _); cbn in H; [destruct H as [H|[]]; discriminate H | exact H].
  - unfold InsightGenerator.memory_trends in H.
    destruct (InsightGenerator.memory m); [exact H|].
    destruct (Binary64.gtb _ _); cbn in H;
      [destruct H as [H|[]]; discriminate H | exact H].
Qed.

Lemma decrease_only_from_requests (format_1f : Binary64.float -> string)
    (m : InsightGenerator.samples) :
  In InsightGenerator.DECREASE (InsightGenerator.analyze_trends format_1f m)
  <-> In InsightGenerator.DECREASE
        (InsightGenerator.request_trends (InsightGenerator.requests m)).
Proof.
  unfold InsightGenerator.analyze_trends. rewrite !in_app_iff.
  split; [|tauto]. intros [H|[H|H]]; [exact H| |]; exfalso.
  - unfold InsightGenerator.error_trends in H.
    destruct (_ && _); cbn in H; [destruct H as [H|[]]; discriminate H | exact H].
  - unfold InsightGenerator.memory_trends in H.
    destruct (InsightGenerator.memory m); [exact H|].
    destruct (Binary64.gtb _ _); cbn in H;
      [destruct H as [H|[]]; discriminate H | exact H].
Qed.

Lemma request_trends_spec (requests : list Binary64.float) :
  (3 <= length requests)%nat ->
  let recent := Binary64.mean (Py.slice_last 3 requests) in
  let overall := Binary64.mean requests in
  let upper := Binary64.mul overall (Binary64.of_Q (13 # 10)) in
  let lower := Binary64.mul overall (Binary64.of_Q (7 # 10)) in
  (In InsightGenerator.GROWING (InsightGenerator.request_trends requests)
   <-> Binary64.gtb recent upper = true)
  /\ (In InsightGenerator.DECREASE (InsightGenerator.request_trends requests)
      <-> Binary64.gtb recent upper = false
          /\ Binary64.ltb recent lower = true).
Proof.
  intros Hlen recent overall upper lower.
  unfold InsightGenerator.request_trends.
  destruct (Z.leb_spec 3 (Py.len requests)) as [_|Hlt];
    [|unfold Py.len in Hlt; lia].
  fold recent overall. fold upper lower.
  destruct (Binary64.gtb recent upper);
    [|destruct (Binary64.ltb recent lower)]; cbn [In].
  - split; split; try tauto.
    + intros [H|[]]. discriminate H.
    + intros [H _]. discriminate H.
  - split; split; try tauto.
    + intros [H|[]]. discriminate H.
    + intros H. discriminate H.
  - split; split; try tauto.
    + intros H. discriminate H.
    + intros [_ H]. discriminate H.
Qed.

(** The constants of [analyze_trends] as floats: the literals [1.3], [0.7],
    [0.1] and [0.5], and the integer [1024**3] as a float operand. *)
Lemma trend_constants :
  Binary64.of_Q (13 # 10) = S754_finite false 5854679515581645 (-52)
  /\ Binary64.of_Q (7 # 10) = S754_finite false 6305039478318694 (-53)
  /\ Binary64.of_Q (1 # 10) = S754_finite false 7205759403792794 (-56)
  /\ Binary64.of_Q (1 # 2) = S754_finite false 4503599627370496 (-53)
  /\ Binary64.of_Q (inject_Z (1024 ^ 3))
     = S754_finite false 4503599627370496 (-22).
Proof. repeat split; vm_compute; reflexivity. Qed.

(** The mean of zeros and finite floats is their exact mean, rounded once. *)
Lemma mean_of_finite (xs : list Binary64.float) :
  Forall (fun x => Binary64.is_finite x = true) xs ->
  Binary64.mean xs
  = Binary64.of_Q
      (Qred (Binary64.Qsum (map Binary64.value xs)
             / inject_Z (Z.of_nat (length xs)))).
Proof.
  intros H. unfold Binary64.mean.
  replace (forallb Binary64.is_finite xs) with true; [reflexivity|].
  symmetry. apply forallb_forall. intros x Hx.
  rewrite List.Forall_forall in H. exact (H x Hx).
Qed.

Lemma slice_last_Forall {A} (P : A -> Prop) (n : nat) (l : list A) :
  Forall P l -> Forall P (Py.slice_last n l).
Proof.
  intros H. unfold Py.slice_last. apply Forall_drop. exact H.
Qed.

(** C4 (as amended).  The trend test works on binary64 numbers.  For a
    request-rate series with at least three samples, let [recent] be the mean
    of the last three samples and [overall] the mean of the window, as
    [statistics.mean] returns them (for zeros and finite samples: the exact
    mean, rounded once), and let [upper] and [lower] be the binary64 products
    of [overall] with the constants 1.3 and 0.7.  Growth is reported exactly
    when [recent > upper]; decline is reported exactly when growth is not and
    [recent < lower]; the two are never reported together.  When [recent]
    equals [upper] no growth is reported, and when it equals [lower] no
    decline.  When the three floats are finite, these are the strict
    comparisons of the numbers they stand for. *)
Theorem C4_trend_strict_thresholds (format_1f : Binary64.float -> string)
    (m : InsightGenerator.samples) :
  (3 <= length (InsightGenerator.requests m))%nat ->
  let trends := InsightGenerator.analyze_trends format_1f m in
  let recent :=
    Binary64.mean (Py.slice_last 3 (InsightGenerator.requests m)) in
  let overall := Binary64.mean (InsightGenerator.requests m) in
  let upper := Binary64.mul overall (Binary64.of_Q (13 # 10)) in
  let lower := Binary64.mul overall (Binary64.of_Q (7 # 10)) in
  (In InsightGenerator.GROWING trends <-> Binary64.gtb recent upper = true)
  /\ (In InsightGenerator.DECREASE trends
      <-> Binary64.gtb recent upper = false
          /\ Binary64.ltb recent lower = true)
  /\ ~ (In InsightGenerator.GROWING trends
        /\ In InsightGenerator.DECREASE trends)
  /\ (Binary64.eqb recent upper = true ->
      ~ In InsightGenerator.GROWING trends)
  /\ (Binary64.eqb recent lower = true ->
      ~ In InsightGenerator.DECREASE trends)
  /\ (Forall (fun x => Binary64.is_finite x = true)
        (InsightGenerator.requests m) ->
      recent
      = Binary64.of_Q
          (Qred (Binary64.Qsum
                   (map Binary64.value
                      (Py.slice_last 3 (InsightGenerator.requests m)))
                 / inject_Z
                     (Z.of_nat
                        (length
                           (Py.slice_last 3 (InsightGenerator.requests m))))))
      /\ overall
         = Binary64.of_Q
             (Qred (Binary64.Qsum
                      (map Binary64.value (InsightGenerator.requests m))
                    / inject_Z
                        (Z.of_nat (length (InsightGenerator.requests m))))))
  /\ (Binary64.is_finite recent = true ->
      Binary64.is_finite upper = true ->
      Binary64.is_finite lower = true ->
      (In InsightGenerator.GROWING trends
       <-> (Binary64.value upper < Binary64.value recent)%Q)
      /\ (In InsightGenerator.DECREASE trends
          <-> ~ (Binary64.value upper < Binary64.value recent)%Q
              /\ (Binary64.value recent < Binary64.value lower)%Q)).
Proof.
  intros Hlen trends recent overall upper lower.
  destruct (request_trends_spec _ Hlen) as [Hg Hd].
  fold recent overall in Hg, Hd. fold upper lower in Hg, Hd.
  pose proof (growing_only_from_requests format_1f m) as Hg'.
  pose proof (decrease_only_from_requests format_1f m) as Hd'.
  fold trends in Hg', Hd'.
  split; [|split; [|split; [|split; [|split; [|split]]]]].
  - rewrite Hg'. exact Hg.
  - rewrite Hd'. exact Hd.
  - intros [H1 H2]. apply Hg', Hg in H1. apply Hd', Hd in H2.
    destruct H2 as [H2 _]. congruence.
  - intros E H. apply Hg', Hg in H.
    destruct (eqb_not_ltb _ _ E) as [_ E2].
    unfold Binary64.gtb in H. congruence.
  - intros E H. apply Hd', Hd in H. destruct H as [_ H].
    destruct (eqb_not_ltb _ _ E) as [E1 _]. congruence.
  - intros Hfin. split.
    + apply mean_of_finite, slice_last_Forall, Hfin.
    + apply mean_of_finite, Hfin.
  - intros Fr Fu Fl.
    pose proof (ltb_finite upper recent Fu Fr) as Lu.
    pose proof (ltb_finite recent lower Fr Fl) as Ll.
    split.
    + rewrite Hg', Hg. exact Lu.
    + rewrite Hd', Hd, <- Lu, <- Ll. unfold Binary64.gtb.
      rewrite not_true_iff_false. tauto.
Qed.

Lemma C4_trend_strict_thresholds_witness :
  ~ In InsightGenerator.GROWING
      (InsightGenerator.analyze_trends (fun _ => "0.0") Scenario.boundary_metrics).
Proof.
  refine (proj1 (proj2 (proj2 (proj2
            (C4_trend_strict_thresholds (fun _ => "0.0")
               Scenario.boundary_metrics _)))) _).
  - vm_compute. lia.
  - vm_compute. reflexivity.
Defined.

(** C4 as stated fails: the samples 1, 13, 13, 13 are binary64 numbers, the
    mean of the last three is the float 13 and the mean of the window the
    float 10, so the recent mean is 1.3 times the window mean; the binary64
    product of 10 and the constant 1.3 is 13, and nothing is reported. *)
Lemma C4_counterexample :
  let requests := InsightGenerator.requests Scenario.boundary_metrics in
  (3 <= length requests)%nat
  /\ Forall2 Qeq (map Binary64.value requests) [1; 13; 13; 13]%Q
  /\ (Binary64.value (Binary64.mean (Py.slice_last 3 requests)) == 13)%Q
  /\ (Binary64.value (Binary64.mean requests) == 10)%Q
  /\ ((13 # 10) * Binary64.value (Binary64.mean requests)
      <= Binary64.value (Binary64.mean (Py.slice_last 3 requests)))%Q
  /\ (Binary64.value
        (Binary64.mul (Binary64.mean requests) (Binary64.of_Q (13 # 10)))
      == 13)%Q
  /\ InsightGenerator.request_trends requests = []
  /\ ~ In InsightGenerator.GROWING
         (InsightGenerator.analyze_trends (fun _ => "0.0")
            Scenario.boundary_metrics).
Proof.
  cbv zeta. repeat split; try (vm_compute; reflexivity).
  - vm_compute. lia.
  - repeat constructor; vm_compute; reflexivity.
  - vm_compute. discriminate.
  - vm_compute. intros [].
Qed.

(** Which side of the boundary a series falls on is decided by the rounded
    numbers, not by the exact means.  In the first series the exact mean of
    the last three samples is above 1.3 times the exact mean of the window
    and no growth is reported; in the second it is below and growth is
    reported. *)
Lemma rounding_decides_growth :
  let exact_mean (xs : list Binary64.float) :=
    (Binary64.Qsum (map Binary64.value xs)
     / inject_Z (Z.of_nat (length xs)))%Q in
  ((13 # 10) * exact_mean Scenario.just_above
   < exact_mean (Py.slice_last 3 Scenario.just_above))%Q
  /\ InsightGenerator.request_trends Scenario.just_above = []
  /\ (exact_mean (Py.slice_last 3 Scenario.just_below)
      < (13 # 10) * exact_mean Scenario.just_below)%Q
  /\ InsightGenerator.request_trends Scenario.just_below
     = [InsightGenerator.GROWING].
Proof.
  cbv zeta. repeat split; vm_compute; reflexivity.
Qed.

(** ** Log pattern analysis *)

Lemma lstrip_blank (s : Py.str) :
  Forall (fun c => Py.isspace c = true) s -> Py.lstrip s = [].
Proof.
  induction 1 as [|c s Hc _ IH]; cbn [Py.lstrip]; [reflexivity|].
  rewrite Hc. exact IH.
Qed.

Lemma strip_blank (s : Py.str) :
  Forall (fun c => Py.isspace c = true) s -> Py.strip s = [].
Proof. intros H. unfold Py.strip. rewrite (lstrip_blank s H). reflexivity. Qed.

(** [lstrip] stops at the latest in front of a piece that starts with a
    character that is not white space. *)
Lemma lstrip_keeps (pre post : Py.str) (h : N) (t : Py.str) :
  Py.isspace h = false ->
  exists pre', Py.lstrip (pre ++ (h :: t) ++ post) = pre' ++ (h :: t) ++ post.
Proof.
  intros Hh. induction pre as [|c pre IH].
  - exists []. cbn. rewrite Hh. reflexivity.
  - cbn [app Py.lstrip]. destruct (Py.isspace c).
    + exact IH.
    + exists (c :: pre). reflexivity.
Qed.

Lemma strip_keeps (pre post piece : Py.str) (h h' : N) (t t' : Py.str) :
  piece = h :: t -> rev piece = h' :: t' ->
  Py.isspace h = false -> Py.isspace h' = false ->
  exists pre' post', Py.strip (pre ++ piece ++ post) = pre' ++ piece ++ post'.
Proof.
  intros E E' Hh Hh'. unfold Py.strip, Py.rstrip.
  destruct (lstrip_keeps pre post h t Hh) as [pre' Hl].
  rewrite E, Hl, <- E, !rev_app_distr, E', <- app_assoc.
  destruct (lstrip_keeps (rev post) (rev pre') h' t' Hh') as [post' Hr].
  rewrite Hr, <- E', !rev_app_distr, !rev_involutive, <- app_assoc.
  exists pre', (rev post'). reflexivity.
Qed.

Lemma split_lines_nonempty (s : Py.str) :
  exists l ls, Py.split_lines s = l :: ls.
Proof.
  induction s as [|c s (l & ls & IH)]; cbn [Py.split_lines]; [eauto|].
  destruct (c =? Py.newline)%N; [eauto|]. rewrite IH. eauto.
Qed.

(** A piece without a line feed stays inside the first line. *)
Lemma split_lines_head (piece rest : Py.str) :
  Forall (fun c => (c =? Py.newline)%N = false) piece ->
  exists rest' ls, Py.split_lines (piece ++ rest) = (piece ++ rest') :: ls.
Proof.
  induction 1 as [|c piece Hc _ (rest' & ls & IH)].
  - destruct (split_lines_nonempty rest) as (l & ls & E).
    exists l, ls. exact E.
  - cbn [app Py.split_lines]. rewrite Hc, IH. exists rest', ls. reflexivity.
Qed.

(** A piece without a line feed lies inside one of the lines. *)
Lemma split_lines_keeps (pre piece post : Py.str) :
  Forall (fun c => (c =? Py.newline)%N = false) piece ->
  exists line pre' post',
    In line (Py.split_lines (pre ++ piece ++ post))
    /\ line = pre' ++ piece ++ post'.
Proof.
  intros Hp. induction pre as [|c pre (line & pre' & post' & Hin & E)].
  - destruct (split_lines_head piece post Hp) as (rest' & ls & Hs).
    exists (piece ++ rest'), [], rest'. cbn [app]. rewrite Hs.
    split; [left|]; reflexivity.
  - cbn [app Py.split_lines]. destruct (c =? Py.newline)%N.
    + exists line, pre', post'. split; [right; exact Hin | exact E].
    + destruct (Py.split_lines (pre ++ piece ++ post)) as [|l ls];
        [destruct Hin|].
      destruct Hin as [<- | Hin].
      * exists (c :: l), (c :: pre'), post'. rewrite E.
        split; [left|]; reflexivity.
      * exists line, pre', post'. split; [right; exact Hin | exact E].
Qed.

Lemma startswith_app (p s : Py.str) : Py.startswith p (p ++ s) = true.
Proof.
  induction p as [|c p IH]; [reflexivity|].
  cbn [app Py.startswith]. rewrite N.eqb_refl. exact IH.
Qed.

Lemma contains_unfold (needle hay : Py.str) :
  Py.contains needle hay
  = Py.startswith needle hay
    || match hay with
       | [] => false
       | _ :: r => Py.contains needle r
       end.
Proof. destruct hay; reflexivity. Qed.

Lemma contains_app (needle pre post : Py.str) :
  Py.contains needle (pre ++ needle ++ post) = true.
Proof.
  induction pre as [|c pre IH].
  - cbn [app]. rewrite contains_unfold, startswith_app. reflexivity.
  - cbn [app Py.contains]. rewrite IH. apply orb_true_r.
Qed.

Lemma count_marked_pos (marker : string) (lines : list Py.str) (line : Py.str) :
  In line lines -> Py.contains (Py.lit marker) line = true ->
  0 < LogAnalyzer.count_marked marker lines.
Proof.
  intros Hin Hc. unfold LogAnalyzer.count_marked, Py.len.
  assert (Hf : line ∈ filter (fun l => Py.contains (Py.lit marker) l = true) lines).
  { apply list_elem_of_filter. split; [exact Hc|]. apply list_elem_of_In, Hin. }
  destruct (filter _ lines); [inversion Hf | cbn [length]; lia].
Qed.

Lemma match_here_star (p : list LogAnalyzer.tok) (s : Py.str) :
  LogAnalyzer.match_here (LogAnalyzer.DotStar :: p) s
  = LogAnalyzer.match_here p s
    || match s with
       | x :: xs =>
           negb (x =? Py.newline)%N
           && LogAnalyzer.match_here (LogAnalyzer.DotStar :: p) xs
       | [] => false
       end.
Proof. destruct s; reflexivity. Qed.

Lemma match_here_app (p : list LogAnalyzer.tok) (s t : Py.str) :
  LogAnalyzer.match_here p s = true -> LogAnalyzer.match_here p (s ++ t) = true.
Proof.
  revert s. induction p as [|[c|] p IH]; intros s H; [reflexivity| |].
  - destruct s as [|x s]; [discriminate H|].
    cbn [app LogAnalyzer.match_here] in *.
    apply andb_true_iff in H as [H1 H2]. rewrite H1, (IH _ H2). reflexivity.
  - induction s as [|x s IHs]; rewrite match_here_star in H |- *.
    + apply orb_true_iff in H as [H|H]; [|discriminate H].
      rewrite (IH [] H). reflexivity.
    + apply orb_true_iff in H as [H|H].
      * rewrite (IH _ H). reflexivity.
      * apply andb_true_iff in H as [H1 H2]. cbn [app].
        rewrite H1, (IHs H2). apply orb_true_r.
Qed.

Lemma search_toks_unfold (p : list LogAnalyzer.tok) (s : Py.str) :
  LogAnalyzer.search_toks p s
  = LogAnalyzer.match_here p s
    || match s with
       | _ :: xs => LogAnalyzer.search_toks p xs
       | [] => false
       end.
Proof. destruct s; reflexivity. Qed.

Lemma search_toks_app (p : list LogAnalyzer.tok) (pre s post : Py.str) :
  LogAnalyzer.match_here p s = true ->
  LogAnalyzer.search_toks p (pre ++ s ++ post) = true.
Proof.
  intros H. induction pre as [|c pre IH].
  - cbn [app]. rewrite search_toks_unfold, (match_here_app p s post H).
    reflexivity.
  - cbn [app LogAnalyzer.search_toks]. rewrite IH. apply orb_true_r.
Qed.

Lemma re_search_inside (pattern : string) (p : list LogAnalyzer.tok)
    (pre s post : Py.str) :
  LogAnalyzer.compile (Py.lit pattern) = Some p ->
  LogAnalyzer.match_here p s = true ->
  LogAnalyzer.re_search pattern (pre ++ s ++ post) = true.
Proof.
  intros Hc Hm. unfold LogAnalyzer.re_search. rewrite Hc.
  apply search_toks_app, Hm.
Qed.

Lemma detect_fold_in (table : list (string * list string)) (text : Py.str)
    (found : list string) (name : string) (group : list string) :
  In name found
  \/ (In (name, group) table /\ LogAnalyzer.any_pattern group text = true) ->
  In name
    (fold_left
       (fun found (entry : string * list string) =>
          if LogAnalyzer.any_pattern (snd entry) text
          then found ++ [fst entry] else found)
       table found).
Proof.
  revert found. induction table as [|entry table IH]; intros found H.
  - cbn [fold_left]. destruct H as [H|[[] _]]. exact H.
  - cbn [fold_left]. apply IH. destruct H as [H|[[->|H] Ha]].
    + left. destruct (LogAnalyzer.any_pattern (snd entry) text); [|exact H].
      apply in_app_iff. left. exact H.
    + left. cbn [snd fst]. rewrite Ha. apply in_app_iff. right. left. reflexivity.
    + right. split; assumption.
Qed.

Lemma detect_in (text : Py.str) (name : string) (group : list string) :
  In (name, group) LogAnalyzer.patterns ->
  LogAnalyzer.any_pattern group text = true ->
  In name (LogAnalyzer.detect text).
Proof.
  intros Hin Ha. unfold LogAnalyzer.detect. apply detect_fold_in with group.
  right. split; assumption.
Qed.

(** The fields of the result other than the time stamp. *)
Lemma analysis_fields (now : string) (logs_text : Py.str) :
  let r := LogAnalyzer.analyze_with_patterns now logs_text in
  let lines := Py.split_lines (Py.strip logs_text) in
  LogAnalyzer.timestamp r = now
  /\ (Py.strip logs_text = [] ->
      LogAnalyzer.total_entries r = 0
      /\ LogAnalyzer.level_counts r
         = {| LogAnalyzer.INFO := 0; LogAnalyzer.WARNING := 0;
              LogAnalyzer.ERROR := 0 |}
      /\ LogAnalyzer.detected_patterns r = []
      /\ LogAnalyzer.alert_level r = "INFO")
  /\ (Py.strip logs_text <> [] ->
      LogAnalyzer.total_entries r = Py.len lines
      /\ LogAnalyzer.level_counts r
         = {| LogAnalyzer.INFO := LogAnalyzer.count_marked "INFO" lines;
              LogAnalyzer.WARNING := LogAnalyzer.count_marked "WARNING" lines;
              LogAnalyzer.ERROR := LogAnalyzer.count_marked "ERROR" lines |}
      /\ LogAnalyzer.detected_patterns r = LogAnalyzer.detect logs_text
      /\ LogAnalyzer.alert_level r
         = if LogAnalyzer.count_marked "ERROR" lines >? 0 then "ERROR"
           else if LogAnalyzer.count_marked "WARNING" lines >? 0 then "WARNING"
           else "INFO").
Proof.
  intros r lines. subst r lines. unfold LogAnalyzer.analyze_with_patterns.
  destruct (Py.strip logs_text) as [|c s] eqn:E.
  - repeat split; intros; congruence.
  - cbn [LogAnalyzer.ERROR LogAnalyzer.WARNING].
    destruct (_ >? 0); [|destruct (_ >? 0)];
      (split; [reflexivity|]; split; [intros; congruence|]; intros _;
       repeat split).
Qed.

(** C8. Whatever surrounds it, a log text in which "ERROR: connection failed"
    occurs yields a detected-pattern list that holds both [database_errors]
    and [application_errors], and the alert level ERROR. *)
Theorem C8_error_line_detected (now : string) (before after : Py.str) :
  let r := LogAnalyzer.analyze_with_patterns now
             (before ++ Py.lit "ERROR: connection failed" ++ after) in
  In "database_errors" (LogAnalyzer.detected_patterns r)
  /\ In "application_errors" (LogAnalyzer.detected_patterns r)
  /\ LogAnalyzer.alert_level r = "ERROR"
  /\ 0 < LogAnalyzer.ERROR (LogAnalyzer.level_counts r).
Proof.
  set (line := Py.lit "ERROR: connection failed").
  set (text := before ++ line ++ after). intros r.
  destruct (strip_keeps before after line 69%N 100%N
              (Py.lit "RROR: connection failed")
              (rev (Py.lit "ERROR: connection faile")))
    as (pre' & post' & Hs); try reflexivity.
  fold text in Hs.
  assert (Hne : Py.strip text <> []).
  { rewrite Hs. intros E. apply (f_equal length) in E.
    rewrite !length_app in E. cbn in E. lia. }
  destruct (analysis_fields now text) as (_ & _ & Hf).
  destruct (Hf Hne) as (_ & Hlv & Hdet & Hal). fold r in Hlv, Hdet, Hal.
  assert (Hcount :
    0 < LogAnalyzer.count_marked "ERROR" (Py.split_lines (Py.strip text))).
  { rewrite Hs.
    destruct (split_lines_keeps pre' line post') as (l & a & b & Hin & ->).
    { subst line. repeat constructor. }
    apply (count_marked_pos "ERROR" _ _ Hin).
    change line with (Py.lit "ERROR" ++ Py.lit ": connection failed").
    rewrite <- app_assoc. apply contains_app. }
  assert (Hdb : LogAnalyzer.re_search "connection.*failed" text = true).
  { subst text. change line with (Py.lit "ERROR: " ++ Py.lit "connection failed").
    rewrite <- (app_assoc (Py.lit "ERROR: ")), (app_assoc before).
    eapply re_search_inside; reflexivity. }
  assert (Herr : LogAnalyzer.re_search "error" text = true).
  { subst text. change line with (Py.lit "ERROR" ++ Py.lit ": connection failed").
    rewrite <- (app_assoc (Py.lit "ERROR")).
    eapply re_search_inside; reflexivity. }
  rewrite Hdet, Hal, Hlv. cbn [LogAnalyzer.ERROR].
  apply Z.gtb_lt in Hcount as Hgt. rewrite Hgt.
  split; [|split; [|split; [reflexivity | exact Hcount]]].
  - apply detect_in with ["connection.*failed"; "timeout"; "deadlock"].
    + left. reflexivity.
    + cbn [LogAnalyzer.any_pattern]. rewrite Hdb. reflexivity.
  - apply detect_in with ["exception"; "error"; "failed"].
    + do 3 right. left. reflexivity.
    + cbn [LogAnalyzer.any_pattern]. rewrite Herr.
      destruct (LogAnalyzer.re_search "exception" text); reflexivity.
Qed.

(** C5 (as amended).  Analyzing the same text at two moments gives records
    that agree in every field but the time stamp, which is the reading of
    the clock at each call (so the records are equal when the readings are);
    and a text that is empty or only white space gives 0 entries, all level
    counts 0, no detected pattern and the alert level INFO.  The function is
    total: it never raises. *)
Theorem C5_analysis_repeatable (now1 now2 : string) (logs_text blank : Py.str) :
  Forall (fun c => Py.isspace c = true) blank ->
  let r1 := LogAnalyzer.analyze_with_patterns now1 logs_text in
  let r2 := LogAnalyzer.analyze_with_patterns now2 logs_text in
  let r0 := LogAnalyzer.analyze_with_patterns now1 blank in
  (LogAnalyzer.total_entries r1 = LogAnalyzer.total_entries r2
   /\ LogAnalyzer.level_counts r1 = LogAnalyzer.level_counts r2
   /\ LogAnalyzer.detected_patterns r1 = LogAnalyzer.detected_patterns r2
   /\ LogAnalyzer.alert_level r1 = LogAnalyzer.alert_level r2
   /\ LogAnalyzer.summary r1 = LogAnalyzer.summary r2)
  /\ (LogAnalyzer.timestamp r1 = now1 /\ LogAnalyzer.timestamp r2 = now2)
  /\ (now1 = now2 -> r1 = r2)
  /\ (LogAnalyzer.total_entries r0 = 0
      /\ LogAnalyzer.level_counts r0
         = {| LogAnalyzer.INFO := 0; LogAnalyzer.WARNING := 0;
              LogAnalyzer.ERROR := 0 |}
      /\ LogAnalyzer.detected_patterns r0 = []
      /\ LogAnalyzer.alert_level r0 = "INFO").
Proof.
  intros Hb r1 r2 r0. split; [|split; [|split]].
  - subst r1 r2. unfold LogAnalyzer.analyze_with_patterns.
    destruct (Py.strip logs_text); [repeat split|].
    destruct (_ >? 0); [|destruct (_ >? 0)]; repeat split.
  - split; apply analysis_fields.
  - intros ->. reflexivity.
  - apply analysis_fields, strip_blank, Hb.
Qed.

Lemma C5_analysis_repeatable_witness :
  LogAnalyzer.alert_level
    (LogAnalyzer.analyze_with_patterns "2025-01-01T12:00:00.000001"
       [32; 9; 10; 32]%N) = "INFO".
Proof.
  refine (proj2 (proj2 (proj2 (proj2 (proj2 (proj2
            (C5_analysis_repeatable "2025-01-01T12:00:00.000001"
               "2025-01-01T12:00:00.000002"
               (Py.lit "INFO request served") [32; 9; 10; 32]%N _))))))).
  repeat constructor.
Defined.

(** C5 as stated fails on the time stamp: two analyses of one text at two
    readings of the clock are different records. *)
Lemma C5_counterexample :
  LogAnalyzer.analyze_with_patterns "2025-01-01T12:00:00.000001"
    (Py.lit "INFO request served")
  <> LogAnalyzer.analyze_with_patterns "2025-01-01T12:00:00.000002"
       (Py.lit "INFO request served").
Proof. vm_compute. discriminate. Qed.

(** ** Network summary *)

Lemma truediv_len {A} (a : Z) (l : list A) :
  Py.truediv a (Py.len l)
  = match l with
    | [] => Py.Raise Py.ZeroDivisionError
    | _ :: _ => Py.Ret (inject_Z a / inject_Z (Py.len l))%Q
    end.
Proof.
  unfold Py.truediv, Py.len. destruct l as [|x l]; [reflexivity|].
  destruct (Z.eqb_spec (Z.of_nat (length (x :: l))) 0) as [E|_];
    [cbn [length] in E; lia | reflexivity].
Qed.

(** C6 (as amended).  With the built-in targets (two hosts to ping, four
    HTTP endpoints, three DNS names) the summary is computed for every
    outcome of the probes, each availability being the number of successes
    divided by 2, 4 and 3, times 100.  For an arbitrary target list the
    computation returns exactly when the list holds both a host to ping and
    an HTTP endpoint; when one of the two categories is empty it raises
    [ZeroDivisionError], no constant is substituted, and [analyze_network]
    turns the failure into an error record whose network status is
    UNKNOWN. *)
Theorem C6_network_summary_division (nw : MasterAnalyzer.network_world) :
  let targets := MasterAnalyzer.targets nw in
  let w := MasterAnalyzer.network nw in
  let pingable := filter (fun t => NetworkAnalyzer.is_http t = false) targets in
  let endpoints := filter (fun t => NetworkAnalyzer.is_http t = true) targets in
  (exists r,
      NetworkAnalyzer.analyze_network_health NetworkAnalyzer.target_services w
      = Py.Ret r
      /\ NetworkAnalyzer.ping_availability (NetworkAnalyzer.network_summary r)
         = (inject_Z (Py.len (filter (fun p => NetworkAnalyzer.ping_available p = true)
                                (NetworkAnalyzer.ping_results r)))
            / inject_Z 2 * 100)%Q
      /\ NetworkAnalyzer.http_availability (NetworkAnalyzer.network_summary r)
         = (inject_Z (Py.len (filter (fun p => NetworkAnalyzer.http_available p = true)
                                (NetworkAnalyzer.http_results r)))
            / inject_Z 4 * 100)%Q
      /\ NetworkAnalyzer.dns_availability (NetworkAnalyzer.network_summary r)
         = (inject_Z (Py.len (filter (fun p => NetworkAnalyzer.resolved p = true)
                                (NetworkAnalyzer.dns_results r)))
            / inject_Z 3 * 100)%Q)
  /\ (NetworkAnalyzer.analyze_network_health targets w
      = Py.Raise Py.ZeroDivisionError
      <-> pingable = [] \/ endpoints = [])
  /\ ((exists r, NetworkAnalyzer.analyze_network_health targets w = Py.Ret r)
      <-> pingable <> [] /\ endpoints <> [])
  /\ (pingable = [] \/ endpoints = [] ->
      MasterAnalyzer._get_network_status (MasterAnalyzer.analyze_network nw)
      = "UNKNOWN").
Proof.
  intros targets w pingable endpoints.
  assert (Hcases :
    NetworkAnalyzer.analyze_network_health targets w
    = match pingable, endpoints with
      | [], _ | _, [] => Py.Raise Py.ZeroDivisionError
      | _ :: _, _ :: _ =>
          NetworkAnalyzer.analyze_network_health targets w
      end
    /\ (pingable <> [] -> endpoints <> [] ->
        exists r, NetworkAnalyzer.analyze_network_health targets w = Py.Ret r)).
  { unfold NetworkAnalyzer.analyze_network_health.
    fold pingable endpoints. rewrite !truediv_len.
    destruct pingable as [|p ps]; [split; [reflexivity | congruence]|].
    destruct endpoints as [|e es]; [split; [reflexivity | congruence]|].
    split; [reflexivity|]. intros _ _. eexists. reflexivity. }
  destruct Hcases as [Hc Hret].
  split; [|split; [|split]].
  - eexists. split; [reflexivity|]. repeat split.
  - split.
    + intros H. destruct pingable as [|p ps]; [left; reflexivity|].
      destruct endpoints as [|e es]; [right; reflexivity|].
      destruct Hret as [r Hr]; [discriminate | discriminate |]. congruence.
    + intros [E|E]; rewrite Hc, E; [reflexivity|].
      destruct pingable; reflexivity.
  - split.
    + intros [r Hr]. rewrite Hc in Hr.
      destruct pingable as [|p ps]; [discriminate Hr|].
      destruct endpoints as [|e es]; [discriminate Hr|].
      split; discriminate.
    + intros [H1 H2]. apply Hret; assumption.
  - intros H.
    assert (Hz : NetworkAnalyzer.analyze_network_health targets w
                 = Py.Raise Py.ZeroDivisionError).
    { rewrite Hc. destruct H as [E|E]; rewrite E; [reflexivity|].
      destruct pingable; reflexivity. }
    unfold MasterAnalyzer.analyze_network. fold targets w. rewrite Hz.
    destruct (MasterAnalyzer.network_import_ok nw); reflexivity.
Qed.

Lemma C6_network_summary_division_witness :
  MasterAnalyzer._get_network_status
    (MasterAnalyzer.analyze_network Scenario.http_only) = "UNKNOWN".
Proof.
  refine (proj2 (proj2 (proj2
            (C6_network_summary_division Scenario.http_only))) _).
  left. reflexivity.
Defined.

(** C6 as stated fails: for a target list without a host to ping the
    summary is not computed, the division raises. *)
Lemma C6_counterexample :
  filter (fun t => NetworkAnalyzer.is_http t = false)
    (MasterAnalyzer.targets Scenario.http_only) = []
  /\ NetworkAnalyzer.analyze_network_health
       (MasterAnalyzer.targets Scenario.http_only)
       (MasterAnalyzer.network Scenario.http_only)
     = Py.Raise Py.ZeroDivisionError
  /\ ~ exists r,
        NetworkAnalyzer.analyze_network_health
          (MasterAnalyzer.targets Scenario.http_only)
          (MasterAnalyzer.network Scenario.http_only)
        = Py.Ret r.
Proof.
  split; [reflexivity|]. split; [reflexivity|].
  intros [r Hr]. vm_compute in Hr. discriminate Hr.
Qed.

(** ** Failures of the log step *)

(** A failure inside [get_loki_logs] comes back as an error record and ends
    in the UNKNOWN result. *)
Lemma loki_failure_unknown (w : MasterAnalyzer.logs_world) (e : Py.exn_kind) :
  MasterAnalyzer.import_ok w = true ->
  LogAnalyzer.get_loki_logs_body (MasterAnalyzer.primary w) = Py.Raise e ->
  MasterAnalyzer.alert_level (MasterAnalyzer.analyze_logs_patterns w)
  = Some "UNKNOWN"
  /\ MasterAnalyzer.entries_analyzed (MasterAnalyzer.analyze_logs_patterns w)
     = Some 0.
Proof.
  intros Hi Hb.
  unfold MasterAnalyzer.analyze_logs_patterns, MasterAnalyzer.analyze_logs_body,
    LogAnalyzer.get_loki_logs.
  rewrite Hi, Hb. destruct e; split; reflexivity.
Qed.

(** C9 (as amended).  When an exception reaches the handler of
    [analyze_logs_patterns] (the import fails, or the answer of Loki is
    malformed inside a stream), the result has the alert level ERROR and no
    entries, and the aggregator gives it the weight 3, the weight of logs
    with error lines, two more than the weight of clean logs.  A failure of
    the retrieval itself (no answer, an HTTP error status, a body that is
    not JSON) is caught inside [get_loki_logs]: the result then has the
    alert level UNKNOWN and the weight 1, the weight of clean logs. *)
Theorem C9_log_failure_weight (w w' : MasterAnalyzer.logs_world)
    (e e' : Py.exn_kind) (genuine clean : MasterAnalyzer.logs_data)
    (health : MasterAnalyzer.health_data)
    (performance : MasterAnalyzer.performance_data)
    (network : MasterAnalyzer.network_data) :
  MasterAnalyzer.analyze_logs_body w = Py.Raise e ->
  MasterAnalyzer.import_ok w' = true ->
  LogAnalyzer.get_loki_logs_body (MasterAnalyzer.primary w') = Py.Raise e' ->
  MasterAnalyzer.alert_level genuine = Some "ERROR" ->
  MasterAnalyzer.alert_level clean = Some "INFO" ->
  let failed := MasterAnalyzer.analyze_logs_patterns w in
  let unreachable := MasterAnalyzer.analyze_logs_patterns w' in
  (MasterAnalyzer.alert_level failed = Some "ERROR"
   /\ MasterAnalyzer.entries_analyzed failed = Some 0
   /\ MasterAnalyzer.logs_weight failed = 3
   /\ MasterAnalyzer.logs_weight failed = MasterAnalyzer.logs_weight genuine
   /\ MasterAnalyzer.total_weight health performance failed network
      = MasterAnalyzer.total_weight health performance clean network + 2)
  /\ (MasterAnalyzer.alert_level unreachable = Some "UNKNOWN"
      /\ MasterAnalyzer.entries_analyzed unreachable = Some 0
      /\ MasterAnalyzer.logs_weight unreachable = 1
      /\ MasterAnalyzer.total_weight health performance unreachable network
         = MasterAnalyzer.total_weight health performance clean network
      /\ MasterAnalyzer._calculate_overall_status health performance
           unreachable network
         = MasterAnalyzer._calculate_overall_status health performance
             clean network).
Proof.
  intros Hraise Hi Hb Hg Hc failed unreachable.
  assert (Hf : MasterAnalyzer.alert_level failed = Some "ERROR"
               /\ MasterAnalyzer.entries_analyzed failed = Some 0).
  { subst failed. unfold MasterAnalyzer.analyze_logs_patterns.
    rewrite Hraise. split; reflexivity. }
  destruct Hf as [Hfa Hfe].
  destruct (loki_failure_unknown w' e' Hi Hb) as [Hua Hue].
  fold unreachable in Hua, Hue.
  assert (Hwf : MasterAnalyzer.logs_weight failed = 3)
    by (unfold MasterAnalyzer.logs_weight; rewrite Hfa; reflexivity).
  assert (Hwg : MasterAnalyzer.logs_weight genuine = 3)
    by (unfold MasterAnalyzer.logs_weight; rewrite Hg; reflexivity).
  assert (Hwc : MasterAnalyzer.logs_weight clean = 1)
    by (unfold MasterAnalyzer.logs_weight; rewrite Hc; reflexivity).
  assert (Hwu : MasterAnalyzer.logs_weight unreachable = 1)
    by (unfold MasterAnalyzer.logs_weight; rewrite Hua; reflexivity).
  unfold MasterAnalyzer._calculate_overall_status, MasterAnalyzer.total_weight.
  rewrite Hwf, Hwg, Hwc, Hwu.
  repeat split; try assumption; lia.
Qed.

Lemma C9_log_failure_weight_witness :
  MasterAnalyzer.alert_level
    (MasterAnalyzer.analyze_logs_patterns Scenario.malformed_logs)
  = Some "ERROR"
  /\ MasterAnalyzer.alert_level
       (MasterAnalyzer.analyze_logs_patterns Scenario.loki_unreachable)
     = Some "UNKNOWN".
Proof.
  pose (r := MasterAnalyzer.generate_master_report Scenario.two_down_run).
  destruct (C9_log_failure_weight Scenario.malformed_logs
              Scenario.loki_unreachable Py.IndexError Py.RequestException
              (MasterAnalyzer.analyze_logs_patterns Scenario.malformed_logs)
              (MasterAnalyzer.analyze_logs_patterns Scenario.quiet_logs)
              (MasterAnalyzer.health_analysis (MasterAnalyzer.details r))
              (MasterAnalyzer.performance_analysis (MasterAnalyzer.details r))
              (MasterAnalyzer.network_analysis (MasterAnalyzer.details r)))
    as [(H1 & _) (H2 & _)]; try reflexivity.
  split; [exact H1 | exact H2].
Defined.

(** C9 as stated fails: with nothing listening on the Loki port the request
    raises inside [get_loki_logs], the result has the alert level UNKNOWN,
    not ERROR, and weighs 1, as much as the clean logs of
    [Scenario.quiet_logs]. *)
Lemma C9_counterexample :
  let unreachable := MasterAnalyzer.analyze_logs_patterns Scenario.loki_unreachable in
  let clean := MasterAnalyzer.analyze_logs_patterns Scenario.quiet_logs in
  LogAnalyzer.get_loki_logs_body (MasterAnalyzer.primary Scenario.loki_unreachable)
  = Py.Raise Py.RequestException
  /\ MasterAnalyzer.alert_level unreachable = Some "UNKNOWN"
  /\ MasterAnalyzer.alert_level unreachable <> Some "ERROR"
  /\ MasterAnalyzer.logs_weight unreachable = 1
  /\ MasterAnalyzer.logs_weight unreachable <> 3
  /\ MasterAnalyzer.alert_level clean = Some "INFO"
  /\ MasterAnalyzer.logs_weight unreachable = MasterAnalyzer.logs_weight clean.
Proof. vm_compute. repeat split; discriminate. Qed.

(** * Further properties of the analyzers *)

(** ** Health score *)

Lemma count_containers_nonneg (out : option Py.str) :
  0 <= MonitoringBridge.count_containers out.
Proof.
  unfold MonitoringBridge.count_containers, Py.len. destruct out; lia.
Qed.

(** X1. The health score is 100, minus 30 and 20 per unreachable service
    when a service is unreachable, minus 15 when fewer than four containers
    run; it lies between -25 and 100.  The level is EXCELLENT exactly when
    all four services answer and four containers run, GOOD exactly when all
    four answer and containers are missing, WARNING exactly when three answer
    and four containers run, and CRITICAL in every other case. *)
Theorem X1_health_level_table (w : MasterAnalyzer.health_world) :
  let h := MasterAnalyzer.analyze_system_health w in
  let a := MonitoringBridge.services_available (MasterAnalyzer.quick_status h) in
  let c := MonitoringBridge.containers_running (MasterAnalyzer.quick_status h) in
  MasterAnalyzer.health_score h
  = 100 - (if a =? 4 then 0 else 30 + 20 * (4 - a)) - (if c <? 4 then 15 else 0)
  /\ -25 <= MasterAnalyzer.health_score h <= 100
  /\ (MasterAnalyzer.health_level h = "EXCELLENT" <-> a = 4 /\ 4 <= c)
  /\ (MasterAnalyzer.health_level h = "GOOD" <-> a = 4 /\ c < 4)
  /\ (MasterAnalyzer.health_level h = "WARNING" <-> a = 3 /\ 4 <= c)
  /\ (MasterAnalyzer.health_level h = "CRITICAL" <-> a <= 2 \/ (a = 3 /\ c < 4)).
Proof.
  destruct w as [[[a1 a2 a3 a4] out now el] sm cm hn].
  unfold MasterAnalyzer.analyze_system_health, MasterAnalyzer.score_of,
    MonitoringBridge.get_quick_status.
  cbn [MasterAnalyzer.bridge_probe MonitoringBridge.checks
       MonitoringBridge.docker_stdout MasterAnalyzer.quick_status
       MasterAnalyzer.health_score MasterAnalyzer.health_level
       MonitoringBridge.status MonitoringBridge.services_available
       MonitoringBridge.services_total MonitoringBridge.containers_running
       MonitoringBridge.containers_expected].
  set (c := MonitoringBridge.count_containers out).
  destruct (Z.ltb_spec c 4) as [Hc|Hc];
    destruct a1, a2, a3, a4; cbv -[Z.le Z.lt c];
    (split; [reflexivity|]); (split; [lia|]);
    repeat split; intros; try discriminate; try lia.
Qed.

Lemma count_containers_blank (out : Py.str) :
  Forall (fun ch => Py.isspace ch = true) out ->
  MonitoringBridge.count_containers (Some out) = 0.
Proof.
  intros H. unfold MonitoringBridge.count_containers.
  rewrite (strip_blank out H). reflexivity.
Qed.

(** X2. When [docker ps] fails, or prints nothing but white space, the number
    of running containers is 0; the health score is then at most 85 and the
    level is never EXCELLENT, whatever the service checks say. *)
Theorem X2_no_container_listing (w : MasterAnalyzer.health_world) :
  match MonitoringBridge.docker_stdout (MasterAnalyzer.bridge_probe w) with
  | None => True
  | Some out => Forall (fun ch => Py.isspace ch = true) out
  end ->
  let h := MasterAnalyzer.analyze_system_health w in
  MonitoringBridge.containers_running (MasterAnalyzer.quick_status h) = 0
  /\ MasterAnalyzer.health_score h <= 85
  /\ MasterAnalyzer.health_level h <> "EXCELLENT".
Proof.
  intros Hout.
  assert (Hc : MonitoringBridge.count_containers
                 (MonitoringBridge.docker_stdout (MasterAnalyzer.bridge_probe w)) = 0).
  { destruct (MonitoringBridge.docker_stdout _) as [out|];
      [apply count_containers_blank, Hout | reflexivity]. }
  destruct w as [[[a1 a2 a3 a4] out now el] sm cm hn].
  unfold MasterAnalyzer.analyze_system_health, MasterAnalyzer.score_of,
    MonitoringBridge.get_quick_status.
  cbn [MasterAnalyzer.bridge_probe MonitoringBridge.checks
       MonitoringBridge.docker_stdout MasterAnalyzer.quick_status
       MasterAnalyzer.health_score MasterAnalyzer.health_level
       MonitoringBridge.status MonitoringBridge.services_available
       MonitoringBridge.services_total MonitoringBridge.containers_running
       MonitoringBridge.containers_expected] in *.
  rewrite Hc.
  destruct a1, a2, a3, a4; vm_compute; repeat split; discriminate.
Qed.

Lemma X2_no_container_listing_witness :
  MasterAnalyzer.health_level
    (MasterAnalyzer.analyze_system_health
       {| MasterAnalyzer.bridge_probe :=
            {| MonitoringBridge.checks := Scenario.all_up;
               MonitoringBridge.docker_stdout := Some [10; 32]%N;
               MonitoringBridge.now_iso := "2025-01-01T12:00:00.000001";
               MonitoringBridge.elapsed_ms := 12 |};
          MasterAnalyzer.system_metrics_output := true;
          MasterAnalyzer.container_metrics_output := true;
          MasterAnalyzer.health_now := "2025-01-01T12:00:00.000003" |})
  <> "EXCELLENT".
Proof.
  refine (proj2 (proj2 (X2_no_container_listing _ _))).
  cbn. repeat constructor.
Defined.

(** ** Overall status *)

Lemma clean_logs_weight (l : MasterAnalyzer.logs_data) :
  MasterAnalyzer.alert_level l = None
  \/ MasterAnalyzer.alert_level l = Some "INFO"
  \/ MasterAnalyzer.alert_level l = Some "UNKNOWN" ->
  MasterAnalyzer.logs_weight l = 1.
Proof.
  unfold MasterAnalyzer.logs_weight.
  intros [-> | [-> | ->]]; reflexivity.
Qed.

Lemma not_slow_weight (p : MasterAnalyzer.performance_data) :
  MasterAnalyzer.performance_level p <> "SLOW" -> MasterAnalyzer.perf_weight p = 0.
Proof.
  intros H. unfold MasterAnalyzer.perf_weight.
  destruct (String.eqb_spec (MasterAnalyzer.performance_level p) "SLOW");
    [contradiction | reflexivity].
Qed.

(** X3. No analyzer alone makes the overall status CRITICAL: when three of
    the four signals are clean (health EXCELLENT, performance not SLOW, log
    alert level INFO, UNKNOWN or absent, network status EXCELLENT), the total
    weight is at most 5 and the overall status is NORMAL or WARNING, whatever
    the fourth signal is. *)
Theorem X3_single_signal_not_critical (health : MasterAnalyzer.health_data)
    (performance : MasterAnalyzer.performance_data)
    (logs : MasterAnalyzer.logs_data) (network : MasterAnalyzer.network_data) :
  let clean_health := MasterAnalyzer.health_level health = "EXCELLENT" in
  let clean_performance := MasterAnalyzer.performance_level performance <> "SLOW" in
  let clean_logs :=
    MasterAnalyzer.alert_level logs = None
    \/ MasterAnalyzer.alert_level logs = Some "INFO"
    \/ MasterAnalyzer.alert_level logs = Some "UNKNOWN" in
  let clean_network := MasterAnalyzer._get_network_status network = "EXCELLENT" in
  (clean_health /\ clean_performance /\ clean_logs)
  \/ (clean_health /\ clean_performance /\ clean_network)
  \/ (clean_health /\ clean_logs /\ clean_network)
  \/ (clean_performance /\ clean_logs /\ clean_network) ->
  MasterAnalyzer.total_weight health performance logs network <= 5
  /\ MasterAnalyzer._calculate_overall_status health performance logs network
     <> MasterAnalyzer.CRITICAL.
Proof.
  intros clean_health clean_performance clean_logs clean_network Hclean.
  assert (Hh : 0 <= MasterAnalyzer.health_weight health <= 4)
    by (apply weight_range; lia).
  pose proof (perf_weight_range performance) as Hp.
  assert (Hl : 0 <= MasterAnalyzer.logs_weight logs <= 4)
    by (apply weight_range; lia).
  assert (Hn : 0 <= MasterAnalyzer.network_weight network <= 4)
    by (apply weight_range; lia).
  assert (Hh0 : clean_health -> MasterAnalyzer.health_weight health = 0).
  { intros E. unfold MasterAnalyzer.health_weight. rewrite E. reflexivity. }
  assert (Hn0 : clean_network -> MasterAnalyzer.network_weight network = 0).
  { intros E. unfold MasterAnalyzer.network_weight. rewrite E. reflexivity. }
  pose proof (not_slow_weight performance) as Hp0.
  pose proof (clean_logs_weight logs) as Hl1.
  assert (Ht : MasterAnalyzer.total_weight health performance logs network <= 5).
  { unfold MasterAnalyzer.total_weight.
    destruct Hclean as [(A & B & C)|[(A & B & C)|[(A & B & C)|(A & B & C)]]];
      repeat match goal with
             | H : clean_health |- _ => apply Hh0 in H
             | H : clean_network |- _ => apply Hn0 in H
             | H : clean_performance |- _ => apply Hp0 in H
             | H : clean_logs |- _ => apply Hl1 in H
             end; lia. }
  split; [exact Ht|].
  unfold MasterAnalyzer._calculate_overall_status.
  destruct (Z.geb_spec (MasterAnalyzer.total_weight health performance logs network) 6);
    [lia|].
  destruct (_ >=? 4); discriminate.
Qed.

Lemma X3_single_signal_not_critical_witness :
  let r := MasterAnalyzer.generate_master_report Scenario.two_down_run in
  MasterAnalyzer.overall_status (MasterAnalyzer.summary r)
  <> MasterAnalyzer.CRITICAL.
Proof.
  refine (proj2 (X3_single_signal_not_critical _ _ _ _ _)).
  do 3 right. split; [|split].
  - vm_compute. discriminate.
  - right. left. reflexivity.
  - reflexivity.
Defined.

(** X4. One unreachable service is not enough for a warning: when exactly
    three of the four service checks succeed, at least four containers run,
    the performance is not SLOW, the log alert level is INFO, UNKNOWN or
    absent and the network status is EXCELLENT, the health level is WARNING
    but the overall status is NORMAL. *)
Theorem X4_one_service_down_normal (w : MasterAnalyzer.health_world)
    (performance : MasterAnalyzer.performance_data)
    (logs : MasterAnalyzer.logs_data) (network : MasterAnalyzer.network_data) :
  Py.sum_bools (MonitoringBridge.services_values
                  (MonitoringBridge.checks (MasterAnalyzer.bridge_probe w))) = 3 ->
  4 <= MonitoringBridge.count_containers
         (MonitoringBridge.docker_stdout (MasterAnalyzer.bridge_probe w)) ->
  MasterAnalyzer.performance_level performance <> "SLOW" ->
  MasterAnalyzer.alert_level logs = None
  \/ MasterAnalyzer.alert_level logs = Some "INFO"
  \/ MasterAnalyzer.alert_level logs = Some "UNKNOWN" ->
  MasterAnalyzer._get_network_status network = "EXCELLENT" ->
  let health := MasterAnalyzer.analyze_system_health w in
  MasterAnalyzer.health_score health = 50
  /\ MasterAnalyzer.health_level health = "WARNING"
  /\ MasterAnalyzer.total_weight health performance logs network = 3
  /\ MasterAnalyzer._calculate_overall_status health performance logs network
     = MasterAnalyzer.NORMAL.
Proof.
  intros Hs Hc Hp Hl Hn health.
  assert (Hscore : MasterAnalyzer.health_score health = 50).
  { subst health.
    unfold MasterAnalyzer.analyze_system_health, MasterAnalyzer.score_of,
      MonitoringBridge.get_quick_status.
    cbn [MasterAnalyzer.quick_status MasterAnalyzer.health_score
         MonitoringBridge.status MonitoringBridge.services_available
         MonitoringBridge.services_total MonitoringBridge.containers_running
         MonitoringBridge.containers_expected].
    rewrite Hs.
    change (MonitoringBridge.status_of 3) with MonitoringBridge.PARTIAL.
    change (String.eqb MonitoringBridge.PARTIAL MonitoringBridge.OK) with false.
    destruct (Z.ltb_spec (MonitoringBridge.count_containers
                            (MonitoringBridge.docker_stdout
                               (MasterAnalyzer.bridge_probe w))) 4);
      [lia | reflexivity]. }
  assert (Hlevel : MasterAnalyzer.health_level health = "WARNING").
  { subst health. unfold MasterAnalyzer.analyze_system_health in *.
    cbn [MasterAnalyzer.health_level MasterAnalyzer.health_score] in *.
    rewrite Hscore. reflexivity. }
  assert (Ht : MasterAnalyzer.total_weight health performance logs network = 3).
  { unfold MasterAnalyzer.total_weight, MasterAnalyzer.health_weight,
      MasterAnalyzer.network_weight.
    rewrite Hlevel, Hn, (not_slow_weight performance Hp),
      (clean_logs_weight logs Hl). reflexivity. }
  repeat split; try assumption.
  unfold MasterAnalyzer._calculate_overall_status. rewrite Ht. reflexivity.
Qed.

Lemma X4_one_service_down_normal_witness :
  let r := MasterAnalyzer.generate_master_report
             (Scenario.run Scenario.one_down Scenario.quiet_logs false
                MasterAnalyzer.Fallback "20250101_120003") in
  MasterAnalyzer.summary_health (MasterAnalyzer.summary r) = "WARNING"
  /\ MasterAnalyzer.overall_status (MasterAnalyzer.summary r)
     = MasterAnalyzer.NORMAL.
Proof.
  pose (w := Scenario.run Scenario.one_down Scenario.quiet_logs false
               MasterAnalyzer.Fallback "20250101_120003").
  destruct (X4_one_service_down_normal (MasterAnalyzer.health_w w)
              (MasterAnalyzer.analyze_performance (MasterAnalyzer.performance_w w))
              (MasterAnalyzer.analyze_logs_patterns (MasterAnalyzer.logs_w w))
              (MasterAnalyzer.analyze_network (MasterAnalyzer.network_w w)))
    as (_ & Hl & _ & Ho).
  - reflexivity.
  - vm_compute. discriminate.
  - vm_compute. discriminate.
  - right. left. reflexivity.
  - reflexivity.
  - split; [exact Hl | exact Ho].
Defined.

(** ** Network status *)

Lemma builtin_network_result (w : NetworkAnalyzer.net) :
  exists r,
    NetworkAnalyzer.analyze_network_health NetworkAnalyzer.target_services w
    = Py.Ret r
    /\ NetworkAnalyzer.http_availability (NetworkAnalyzer.network_summary r)
       = (inject_Z
            (Py.len
               (filter (fun u => NetworkAnalyzer.http_available
                                   (NetworkAnalyzer.http_response_time w u) = true)
                  [ "http://localhost:5000"; "http://localhost:9090";
                    "http://localhost:3100"; "http://localhost:3000" ]))
          / inject_Z 4 * 100)%Q.
Proof.
  eexists. split; [reflexivity|].
  cbn [NetworkAnalyzer.network_summary NetworkAnalyzer.http_availability].
  do 3 f_equal.
  change (filter (fun t => NetworkAnalyzer.is_http t = true)
            NetworkAnalyzer.target_services)
    with [ "http://localhost:5000"; "http://localhost:9090";
           "http://localhost:3100"; "http://localhost:3000" ].
  generalize [ "http://localhost:5000"; "http://localhost:9090";
               "http://localhost:3100"; "http://localhost:3000" ].
  intros l. unfold Py.len. f_equal.
  induction l as [|u l IH]; [reflexivity|].
  cbn [map]. rewrite !filter_cons. cbn beta.
  destruct (decide (NetworkAnalyzer.http_available
                      (NetworkAnalyzer.http_response_time w u) = true));
    cbn [length]; rewrite IH; reflexivity.
Qed.

(** X5. With the built-in targets the network status depends on the four
    HTTP endpoints only: it is EXCELLENT exactly when all four answer,
    WARNING exactly when three answer and CRITICAL exactly when at most two
    answer; it is never GOOD, and never UNKNOWN once the analyzer is
    imported.  Hosts to ping and DNS names do not enter. *)
Theorem X5_builtin_network_status (nw : MasterAnalyzer.network_world) :
  MasterAnalyzer.network_import_ok nw = true ->
  MasterAnalyzer.targets nw = NetworkAnalyzer.target_services ->
  let answered :=
    Py.len
      (filter (fun u => NetworkAnalyzer.http_available
                          (NetworkAnalyzer.http_response_time
                             (MasterAnalyzer.network nw) u) = true)
         [ "http://localhost:5000"; "http://localhost:9090";
           "http://localhost:3100"; "http://localhost:3000" ]) in
  let status := MasterAnalyzer._get_network_status (MasterAnalyzer.analyze_network nw) in
  (status = "EXCELLENT" <-> answered = 4)
  /\ (status = "WARNING" <-> answered = 3)
  /\ (status = "CRITICAL" <-> answered <= 2)
  /\ status <> "GOOD"
  /\ status <> "UNKNOWN".
Proof.
  intros Hi Ht answered status.
  destruct (builtin_network_result (MasterAnalyzer.network nw)) as (r & Hr & Hh).
  fold answered in Hh.
  assert (Hs : status
               = if Qle_bool 95 (inject_Z answered / inject_Z 4 * 100) then "EXCELLENT"
                 else if Qle_bool 80 (inject_Z answered / inject_Z 4 * 100) then "GOOD"
                 else if Qle_bool 60 (inject_Z answered / inject_Z 4 * 100) then "WARNING"
                 else "CRITICAL").
  { subst status. unfold MasterAnalyzer.analyze_network.
    rewrite Hi, Ht, Hr. cbn [mbind M_bind Py.bind mret M_ret Py.try_except].
    unfold MasterAnalyzer._get_network_status. rewrite Hh. reflexivity. }
  assert (Hk : 0 <= answered <= 4).
  { subst answered. unfold Py.len.
    pose proof (length_filter
                  (fun u => NetworkAnalyzer.http_available
                              (NetworkAnalyzer.http_response_time
                                 (MasterAnalyzer.network nw) u) = true)
                  [ "http://localhost:5000"; "http://localhost:9090";
                    "http://localhost:3100"; "http://localhost:3000" ]) as Hle.
    cbn [length] in Hle. lia. }
  rewrite Hs. clearbody answered. clear -Hk.
  destruct (status_of_cases answered Hk) as [->|[->|[->|[->| ->]]]];
    vm_compute; repeat split; intros; try discriminate; try lia;
    try (exfalso; auto; fail).
Qed.

Lemma X5_builtin_network_status_witness :
  MasterAnalyzer._get_network_status
    (MasterAnalyzer.analyze_network Scenario.network_up) <> "GOOD".
Proof.
  refine (proj1 (proj2 (proj2 (proj2
            (X5_builtin_network_status Scenario.network_up _ _)))));
    reflexivity.
Defined.

(** ** The log step *)

Lemma analysis_alert_cases (now : string) (logs_text : Py.str) :
  LogAnalyzer.alert_level (LogAnalyzer.analyze_with_patterns now logs_text) = "INFO"
  \/ LogAnalyzer.alert_level (LogAnalyzer.analyze_with_patterns now logs_text) = "WARNING"
  \/ LogAnalyzer.alert_level (LogAnalyzer.analyze_with_patterns now logs_text) = "ERROR".
Proof.
  unfold LogAnalyzer.analyze_with_patterns.
  destruct (Py.strip logs_text); [left; reflexivity|].
  destruct (_ >? 0); [right; right; reflexivity|].
  destruct (_ >? 0); [right; left; reflexivity | left; reflexivity].
Qed.

(** The three shapes of the result of [analyze_logs_patterns]. *)
Lemma logs_result_shapes (w : MasterAnalyzer.logs_world) :
  let l := MasterAnalyzer.analyze_logs_patterns w in
  (exists analysis (entries : list Py.json),
      MasterAnalyzer.log_analysis l = Some analysis
      /\ MasterAnalyzer.logs_error l = None
      /\ MasterAnalyzer.entries_analyzed l = Some (Py.len entries)
      /\ MasterAnalyzer.alert_level l = Some (LogAnalyzer.alert_level analysis)
      /\ MasterAnalyzer.detected_patterns l
         = Some (LogAnalyzer.detected_patterns analysis)
      /\ MasterAnalyzer.query_used l
         = Some (match entries with [] => "original" | _ :: _ => "alternative" end)
      /\ exists text, analysis
                      = LogAnalyzer.analyze_with_patterns
                          (MasterAnalyzer.analysis_now w) text)
  \/ (exists v,
         MasterAnalyzer.log_analysis l = None
         /\ MasterAnalyzer.logs_error l = Some (MasterAnalyzer.LokiError v)
         /\ MasterAnalyzer.entries_analyzed l = Some 0
         /\ MasterAnalyzer.alert_level l = Some "UNKNOWN"
         /\ MasterAnalyzer.detected_patterns l = None
         /\ MasterAnalyzer.query_used l = None)
  \/ (exists text,
         MasterAnalyzer.log_analysis l = None
         /\ MasterAnalyzer.logs_error l = Some (MasterAnalyzer.AnalysisFailed text)
         /\ MasterAnalyzer.entries_analyzed l = Some 0
         /\ MasterAnalyzer.alert_level l = Some "ERROR"
         /\ MasterAnalyzer.detected_patterns l = None
         /\ MasterAnalyzer.query_used l = None).
Proof.
  intros l. subst l.
  unfold MasterAnalyzer.analyze_logs_patterns, MasterAnalyzer.analyze_logs_body.
  unfold mbind, M_bind, mret, M_ret.
  destruct (MasterAnalyzer.import_ok w); cbn [Py.bind Py.try_except];
    [|right; right; eexists; repeat split].
  destruct (Py.contains_key _ _) as [has_error|e]; cbn [Py.bind Py.try_except];
    [|right; right; eexists; repeat split].
  destruct has_error; cbn [negb].
  - destruct (Py.subscript_key _ _) as [v|e]; cbn [Py.bind Py.try_except];
      [right; left | right; right]; eexists; repeat split.
  - destruct (MasterAnalyzer.collect _ _) as [entries [e|]];
      cbn [Py.bind Py.try_except]; [right; right; eexists; repeat split|].
    set (log_entries :=
           match entries with
           | [] => MasterAnalyzer.try_alternatives w
                     MasterAnalyzer.alternative_queries entries
           | _ :: _ => entries
           end).
    destruct (Py.join_lines _) as [text|e]; cbn [Py.bind Py.try_except];
      [|right; right; eexists; repeat split].
    left. eexists. exists log_entries. repeat split. eexists. reflexivity.
Qed.

(** X6. Every result of [analyze_logs_patterns] carries an alert level among
    INFO, WARNING, ERROR and UNKNOWN and a count of entries that is not
    negative, so the defaults of the aggregator are never used for it and
    its weight is 1, 2 or 3; it has a list of detected patterns exactly when
    it has no error entry, and an error entry comes with 0 entries. *)
Theorem X6_logs_result_shape (w : MasterAnalyzer.logs_world) :
  let l := MasterAnalyzer.analyze_logs_patterns w in
  (MasterAnalyzer.alert_level l = Some "INFO"
   \/ MasterAnalyzer.alert_level l = Some "WARNING"
   \/ MasterAnalyzer.alert_level l = Some "ERROR"
   \/ MasterAnalyzer.alert_level l = Some "UNKNOWN")
  /\ (exists n, MasterAnalyzer.entries_analyzed l = Some n /\ 0 <= n)
  /\ 1 <= MasterAnalyzer.logs_weight l <= 3
  /\ (MasterAnalyzer.logs_error l = None
      <-> is_Some (MasterAnalyzer.detected_patterns l))
  /\ (is_Some (MasterAnalyzer.logs_error l) ->
      MasterAnalyzer.entries_analyzed l = Some 0).
Proof.
  intros l.
  destruct (logs_result_shapes w)
    as [(analysis & entries & Ha & He & Hn & Hl & Hd & _ & text & ->)
       |[(v & Ha & He & Hn & Hl & Hd & _)|(text & Ha & He & Hn & Hl & Hd & _)]];
    fold l in Ha, He, Hn, Hl, Hd; unfold MasterAnalyzer.logs_weight;
    rewrite He, Hn, Hl, Hd.
  - destruct (analysis_alert_cases (MasterAnalyzer.analysis_now w) text)
      as [E|[E|E]]; rewrite E;
      (split; [tauto|]); (split; [eexists; split; [reflexivity | unfold Py.len; lia]|]);
      (split; [vm_compute; split; discriminate|]);
      (split; [split; [eauto | reflexivity] | intros [x Hx]; discriminate Hx]).
  - split; [tauto|]. split; [eexists; split; [reflexivity | lia]|].
    split; [vm_compute; split; discriminate|].
    split; [split; [discriminate | intros [x Hx]; discriminate Hx] | reflexivity].
  - split; [tauto|]. split; [eexists; split; [reflexivity | lia]|].
    split; [vm_compute; split; discriminate|].
    split; [split; [discriminate | intros [x Hx]; discriminate Hx] | reflexivity].
Qed.

(** ** Recommendations *)

Lemma health_recommendations_sub (h : MasterAnalyzer.health_data) :
  MasterAnalyzer.health_recommendations h
  `sublist_of` take 3 Catalogue.recommendations
  /\ (length (MasterAnalyzer.health_recommendations h) <= 1)%nat.
Proof.
  unfold MasterAnalyzer.health_recommendations. cbv zeta.
  destruct (_ =? 100); [|destruct (_ >=? 90); [|destruct (_ >=? 70)]];
    (split; [cbn; repeat constructor | cbn; lia]).
Qed.

Lemma performance_recommendations_sub (p : MasterAnalyzer.performance_data) :
  MasterAnalyzer.performance_recommendations p
  `sublist_of` take 2 (drop 3 Catalogue.recommendations)
  /\ (length (MasterAnalyzer.performance_recommendations p) <= 1)%nat.
Proof.
  unfold MasterAnalyzer.performance_recommendations.
  destruct (String.eqb _ "FAST"); [|destruct (String.eqb _ "SLOW")];
    (split; [cbn; repeat constructor | cbn; lia]).
Qed.

Lemma logs_recommendations_sub (l : MasterAnalyzer.logs_data) :
  MasterAnalyzer.logs_recommendations l
  `sublist_of` take 5 (drop 5 Catalogue.recommendations)
  /\ (length (MasterAnalyzer.logs_recommendations l) <= 2)%nat.
Proof.
  unfold MasterAnalyzer.logs_recommendations. cbv zeta.
  destruct (_ >? 0); [|split; [cbn; repeat constructor | cbn; lia]].
  destruct (String.eqb _ "ERROR"); [|destruct (String.eqb _ "WARNING")];
    destruct (_ >? 50); (split; [cbn; repeat constructor | cbn; lia]).
Qed.

Lemma patterns_recommendations_sub (l : MasterAnalyzer.logs_data) :
  MasterAnalyzer.patterns_recommendations l
  `sublist_of` take 2 (drop 10 Catalogue.recommendations)
  /\ (length (MasterAnalyzer.patterns_recommendations l) <= 2)%nat.
Proof.
  unfold MasterAnalyzer.patterns_recommendations.
  destruct (MasterAnalyzer.detected_patterns l) as [[|x patterns]|];
    try (split; [cbn; repeat constructor | cbn; lia]).
  destruct (Py.mem "database_errors" _); destruct (Py.mem "performance_issues" _);
    (split; [cbn; repeat constructor | cbn; lia]).
Qed.

Lemma all_clear_sub (h : MasterAnalyzer.health_data)
    (p : MasterAnalyzer.performance_data) (l : MasterAnalyzer.logs_data) :
  MasterAnalyzer.all_clear h p l `sublist_of` drop 12 Catalogue.recommendations
  /\ (length (MasterAnalyzer.all_clear h p l) <= 1)%nat.
Proof.
  unfold MasterAnalyzer.all_clear.
  destruct (_ && _); (split; [cbn; repeat constructor | cbn; lia]).
Qed.

(** X7. The recommendation list is a subsequence of the thirteen entries of
    the source taken in the order of its blocks (health, performance, logs,
    patterns, all clear): it never repeats an entry, never reorders two, and
    holds at most seven. *)
Theorem X7_recommendations_ordered (health : MasterAnalyzer.health_data)
    (performance : MasterAnalyzer.performance_data)
    (logs : MasterAnalyzer.logs_data) :
  let recommendations :=
    MasterAnalyzer._generate_recommendations health performance logs in
  recommendations `sublist_of` Catalogue.recommendations
  /\ NoDup recommendations
  /\ (length recommendations <= 7)%nat.
Proof.
  intros recommendations.
  destruct (health_recommendations_sub health) as [S1 L1].
  destruct (performance_recommendations_sub performance) as [S2 L2].
  destruct (logs_recommendations_sub logs) as [S3 L3].
  destruct (patterns_recommendations_sub logs) as [S4 L4].
  destruct (all_clear_sub health performance logs) as [S5 L5].
  assert (Hsub : recommendations `sublist_of` Catalogue.recommendations).
  { subst recommendations. unfold MasterAnalyzer._generate_recommendations.
    change Catalogue.recommendations
      with (take 3 Catalogue.recommendations
            ++ take 2 (drop 3 Catalogue.recommendations)
            ++ take 5 (drop 5 Catalogue.recommendations)
            ++ take 2 (drop 10 Catalogue.recommendations)
            ++ drop 12 Catalogue.recommendations).
    repeat apply sublist_app; assumption. }
  split; [exact Hsub|]. split.
  - eapply sublist_NoDup; [|exact Hsub].
    apply (bool_decide_unpack _). vm_compute. reflexivity.
  - subst recommendations. unfold MasterAnalyzer._generate_recommendations.
    rewrite !length_app. lia.
Qed.

Lemma not_in_sub (x : string) (l k : list string) :
  l `sublist_of` k -> x ∉ k -> ~ In x l.
Proof.
  intros Hs Hk Hin. apply Hk. apply sublist_submseteq in Hs.
  apply list_elem_of_In in Hin. exact (elem_of_submseteq _ _ _ Hin Hs).
Qed.

(** X8. The all-clear entry is in the recommendation list exactly when the
    health score is 100, the performance is FAST, the log alert level is INFO
    or absent and at least one log entry was analysed; it is then the last
    entry, after the entries for a perfect system, optimal performance and
    clean logs.  With no analysed entry it never appears. *)
Theorem X8_all_clear (health : MasterAnalyzer.health_data)
    (performance : MasterAnalyzer.performance_data)
    (logs : MasterAnalyzer.logs_data) :
  let recommendations :=
    MasterAnalyzer._generate_recommendations health performance logs in
  (In Catalogue.ALL_CLEAR recommendations
   <-> MasterAnalyzer.health_score health = 100
       /\ MasterAnalyzer.performance_level performance = "FAST"
       /\ (MasterAnalyzer.alert_level logs = None
           \/ MasterAnalyzer.alert_level logs = Some "INFO")
       /\ 0 < default 0 (MasterAnalyzer.entries_analyzed logs))
  /\ (In Catalogue.ALL_CLEAR recommendations ->
      last recommendations = Some Catalogue.ALL_CLEAR
      /\ head recommendations
         = Some "🎯 Maintain current configuration - system perfect"
      /\ In "⚡ Performance optimal - maintain current settings" recommendations
      /\ In "📝 Logs clean - excellent system operation" recommendations).
Proof.
  intros recommendations.
  destruct (health_recommendations_sub health) as [S1 _].
  destruct (performance_recommendations_sub performance) as [S2 _].
  destruct (logs_recommendations_sub logs) as [S3 _].
  destruct (patterns_recommendations_sub logs) as [S4 _].
  assert (Hcond :
    In Catalogue.ALL_CLEAR (MasterAnalyzer.all_clear health performance logs)
    <-> MasterAnalyzer.health_score health = 100
        /\ MasterAnalyzer.performance_level performance = "FAST"
        /\ (MasterAnalyzer.alert_level logs = None
            \/ MasterAnalyzer.alert_level logs = Some "INFO")
        /\ 0 < default 0 (MasterAnalyzer.entries_analyzed logs)).
  { unfold MasterAnalyzer.all_clear.
    destruct (Z.eqb_spec (MasterAnalyzer.health_score health) 100) as [Hs|Hs];
      [|cbn; split; [intros [] | tauto]].
    destruct (String.eqb_spec (MasterAnalyzer.performance_level performance) "FAST")
      as [Hp|Hp]; [|cbn; split; [intros [] | tauto]].
    destruct (Z.gtb_spec (default 0 (MasterAnalyzer.entries_analyzed logs)) 0)
      as [Hn|Hn]; [|rewrite andb_false_r; cbn; split; [intros [] | lia]].
    destruct (MasterAnalyzer.alert_level logs) as [level|].
    - destruct (String.eqb_spec level "INFO") as [->|Hl]; cbn.
      + split; [intros _; repeat split; auto; lia | intros _; left; reflexivity].
      + split; [intros [] | intros (_ & _ & [H|H] & _); congruence].
    - cbn. split; [intros _; repeat split; auto; lia | intros _; left; reflexivity]. }
  assert (Hin :
    In Catalogue.ALL_CLEAR recommendations
    <-> In Catalogue.ALL_CLEAR (MasterAnalyzer.all_clear health performance logs)).
  { subst recommendations. unfold MasterAnalyzer._generate_recommendations.
    rewrite !in_app_iff. split; [|tauto].
    intros [H|[H|[H|[H|H]]]]; [exfalso| exfalso| exfalso| exfalso| exact H].
    - revert H. apply (not_in_sub _ _ _ S1). vm_compute.
      intros H. repeat (apply elem_of_cons in H as [H|H]; [discriminate H|]).
      inversion H.
    - revert H. apply (not_in_sub _ _ _ S2). vm_compute.
      intros H. repeat (apply elem_of_cons in H as [H|H]; [discriminate H|]).
      inversion H.
    - revert H. apply (not_in_sub _ _ _ S3). vm_compute.
      intros H. repeat (apply elem_of_cons in H as [H|H]; [discriminate H|]).
      inversion H.
    - revert H. apply (not_in_sub _ _ _ S4). vm_compute.
      intros H. repeat (apply elem_of_cons in H as [H|H]; [discriminate H|]).
      inversion H. }
  split; [rewrite Hin; exact Hcond|].
  intros H. apply Hin in H. pose proof (proj1 Hcond H) as (Hs & Hp & Hl & Hn).
  subst recommendations. unfold MasterAnalyzer._generate_recommendations.
  assert (E5 : MasterAnalyzer.all_clear health performance logs
               = [Catalogue.ALL_CLEAR]).
  { unfold MasterAnalyzer.all_clear in *. destruct (_ && _); [reflexivity | destruct H]. }
  assert (E1 : MasterAnalyzer.health_recommendations health
               = ["🎯 Maintain current configuration - system perfect"]).
  { unfold MasterAnalyzer.health_recommendations. rewrite Hs. reflexivity. }
  assert (E2 : MasterAnalyzer.performance_recommendations performance
               = ["⚡ Performance optimal - maintain current settings"]).
  { unfold MasterAnalyzer.performance_recommendations. rewrite Hp. reflexivity. }
  assert (E3 : In "📝 Logs clean - excellent system operation"
                 (MasterAnalyzer.logs_recommendations logs)).
  { unfold MasterAnalyzer.logs_recommendations. cbv zeta.
    apply Z.gtb_lt in Hn. rewrite Hn.
    destruct Hl as [-> | ->]; cbn; left; reflexivity. }
  rewrite E1, E2, E5. repeat split.
  - rewrite !app_assoc. apply last_snoc.
  - rewrite !in_app_iff. right. left. left. reflexivity.
  - rewrite !in_app_iff. right. right. left. exact E3.
Qed.

(** ** Counts and alert level of the log analysis *)

Lemma split_lines_length (s : Py.str) :
  Py.len (Py.split_lines s)
  = 1 + Py.len (filter (fun ch => ch = Py.newline) s).
Proof.
  unfold Py.len. induction s as [|ch s IH]; [reflexivity|].
  cbn [Py.split_lines]. rewrite filter_cons.
  destruct (N.eqb_spec ch Py.newline) as [E|E].
  - destruct (decide (ch = Py.newline)); [|contradiction].
    cbn [length]. lia.
  - destruct (decide (ch = Py.newline)); [contradiction|].
    destruct (Py.split_lines s) as [|l ls]; cbn [length] in *; lia.
Qed.

Lemma count_marked_range (marker : string) (lines : list Py.str) :
  0 <= LogAnalyzer.count_marked marker lines <= Py.len lines.
Proof.
  unfold LogAnalyzer.count_marked, Py.len.
  pose proof (length_filter
                (fun l => Py.contains (Py.lit marker) l = true) lines).
  lia.
Qed.

(** X9. In every result of the log analysis the three level counts lie
    between 0 and the number of entries; the number of entries is 0 for a
    text that is empty after [strip], and otherwise one more than the number
    of line feeds of the stripped text. *)
Theorem X9_level_counts_bounded (now : string) (logs_text : Py.str) :
  let r := LogAnalyzer.analyze_with_patterns now logs_text in
  let total := LogAnalyzer.total_entries r in
  0 <= LogAnalyzer.INFO (LogAnalyzer.level_counts r) <= total
  /\ 0 <= LogAnalyzer.WARNING (LogAnalyzer.level_counts r) <= total
  /\ 0 <= LogAnalyzer.ERROR (LogAnalyzer.level_counts r) <= total
  /\ total
     = match Py.strip logs_text with
       | [] => 0
       | _ :: _ =>
           1 + Py.len (filter (fun ch => ch = Py.newline) (Py.strip logs_text))
       end.
Proof.
  intros r total.
  destruct (analysis_fields now logs_text) as (_ & Hblank & Hfull).
  fold r in Hblank, Hfull.
  destruct (Py.strip logs_text) as [|ch s] eqn:E.
  - destruct (Hblank eq_refl) as (Ht & Hl & _). subst total.
    rewrite Hl, Ht. cbn. lia.
  - destruct Hfull as (Ht & Hl & _); [discriminate|]. subst total.
    rewrite Hl, Ht. cbn [LogAnalyzer.INFO LogAnalyzer.WARNING LogAnalyzer.ERROR].
    pose proof (count_marked_range "INFO" (Py.split_lines (ch :: s))).
    pose proof (count_marked_range "WARNING" (Py.split_lines (ch :: s))).
    pose proof (count_marked_range "ERROR" (Py.split_lines (ch :: s))).
    rewrite <- split_lines_length. lia.
Qed.

Lemma startswith_iff (p s : Py.str) :
  Py.startswith p s = true <-> exists t, s = p ++ t.
Proof.
  revert s. induction p as [|a p IH]; intros s.
  - split; [intros _; exists s; reflexivity | reflexivity].
  - destruct s as [|b s]; cbn [Py.startswith].
    + split; [discriminate | intros [t Ht]; discriminate Ht].
    + rewrite andb_true_iff, N.eqb_eq, IH. split.
      * intros [-> [t ->]]. exists t. reflexivity.
      * intros [t Ht]. injection Ht as -> ->. split; [reflexivity | eauto].
Qed.

Lemma contains_iff (needle hay : Py.str) :
  Py.contains needle hay = true <-> exists pre post, hay = pre ++ needle ++ post.
Proof.
  induction hay as [|ch hay IH].
  - cbn [Py.contains]. rewrite orb_false_r, startswith_iff. split.
    + intros [t Ht]. exists [], t. exact Ht.
    + intros (pre & post & E). destruct pre; [eauto|discriminate E].
  - rewrite contains_unfold, orb_true_iff, startswith_iff, IH. split.
    + intros [[t Ht] | (pre & post & ->)].
      * exists [], t. exact Ht.
      * exists (ch :: pre), post. reflexivity.
    + intros (pre & post & E). destruct pre as [|c pre].
      * left. eauto.
      * injection E as -> ->. right. eauto.
Qed.

Lemma lstrip_suffix (s : Py.str) : exists a, s = a ++ Py.lstrip s.
Proof.
  induction s as [|ch s [a IH]]; [exists []; reflexivity|].
  cbn [Py.lstrip]. destruct (Py.isspace ch).
  - exists (ch :: a). cbn [app]. f_equal. exact IH.
  - exists []. reflexivity.
Qed.

Lemma strip_inside (s : Py.str) : exists a b, s = a ++ Py.strip s ++ b.
Proof.
  destruct (lstrip_suffix s) as [a Ha].
  destruct (lstrip_suffix (rev (Py.lstrip s))) as [b Hb].
  exists a, (rev b). unfold Py.strip, Py.rstrip.
  rewrite <- rev_app_distr, <- Hb, rev_involutive. exact Ha.
Qed.

Lemma split_lines_first (s l : Py.str) (ls : list Py.str) :
  Py.split_lines s = l :: ls -> exists b, s = l ++ b.
Proof.
  revert l ls. induction s as [|ch s IH]; intros l ls E.
  - injection E as <- _. exists []. reflexivity.
  - cbn [Py.split_lines] in E. destruct (ch =? Py.newline)%N.
    + injection E as <- _. exists (ch :: s). reflexivity.
    + destruct (Py.split_lines s) as [|l' ls'] eqn:E'.
      * injection E as <- _. exists s. reflexivity.
      * injection E as <- _. destruct (IH _ _ eq_refl) as [b ->].
        exists b. reflexivity.
Qed.

Lemma split_lines_inside (s line : Py.str) :
  In line (Py.split_lines s) -> exists a b, s = a ++ line ++ b.
Proof.
  revert line. induction s as [|ch s IH]; intros line Hin.
  - destruct Hin as [<-|[]]. exists [], []. reflexivity.
  - cbn [Py.split_lines] in Hin. destruct (ch =? Py.newline)%N.
    + destruct Hin as [<-|Hin].
      * exists [], (ch :: s). reflexivity.
      * destruct (IH _ Hin) as (a & b & ->). exists (ch :: a), b. reflexivity.
    + destruct (Py.split_lines s) as [|l ls] eqn:E.
      * destruct Hin as [<-|[]]. exists [], s. reflexivity.
      * destruct Hin as [<-|Hin].
        -- destruct (split_lines_first s l ls E) as [b ->].
           exists [], b. reflexivity.
        -- destruct (IH _ (or_intror Hin)) as (a & b & ->).
           exists (ch :: a), b. reflexivity.
Qed.

Lemma marker_count_iff (marker : string) (text : Py.str)
    (h h' : N) (t t' : Py.str) :
  Py.lit marker = h :: t -> rev (Py.lit marker) = h' :: t' ->
  Py.isspace h = false -> Py.isspace h' = false ->
  Forall (fun ch => (ch =? Py.newline)%N = false) (Py.lit marker) ->
  (LogAnalyzer.count_marked marker (Py.split_lines (Py.strip text)) >? 0) = true
  <-> Py.contains (Py.lit marker) text = true.
Proof.
  intros E E' Hh Hh' Hnl. rewrite Z.gtb_gt. split.
  - intros Hpos. unfold LogAnalyzer.count_marked, Py.len in Hpos.
    destruct (filter _ _) as [|line ls] eqn:Ef; [cbn in Hpos; lia|].
    assert (Hin : line ∈ filter (fun l => Py.contains (Py.lit marker) l = true)
                           (Py.split_lines (Py.strip text)))
      by (rewrite Ef; left).
    apply list_elem_of_filter in Hin as [Hc Hin].
    apply list_elem_of_In in Hin.
    apply contains_iff in Hc as (p & q & ->).
    destruct (split_lines_inside _ _ Hin) as (a & b & Hs).
    destruct (strip_inside text) as (a' & b' & Ht).
    apply contains_iff. exists (a' ++ a ++ p), (q ++ b ++ b').
    rewrite Ht at 1. rewrite Hs. rewrite <- !app_assoc. reflexivity.
  - intros Hc. apply contains_iff in Hc as (pre & post & ->).
    destruct (strip_keeps pre post (Py.lit marker) h h' t t' E E' Hh Hh')
      as (pre' & post' & ->).
    destruct (split_lines_keeps pre' (Py.lit marker) post' Hnl)
      as (line & a & b & Hin & ->).
    apply Z.lt_gt, (count_marked_pos marker _ _ Hin), contains_app.
Qed.

Lemma alert_level_by_counts (now : string) (logs_text : Py.str) :
  let lines := Py.split_lines (Py.strip logs_text) in
  LogAnalyzer.alert_level (LogAnalyzer.analyze_with_patterns now logs_text)
  = if LogAnalyzer.count_marked "ERROR" lines >? 0 then "ERROR"
    else if LogAnalyzer.count_marked "WARNING" lines >? 0 then "WARNING"
    else "INFO".
Proof.
  intros lines. subst lines.
  destruct (analysis_fields now logs_text) as (_ & Hblank & Hfull).
  destruct (Py.strip logs_text) as [|ch s] eqn:E.
  - destruct (Hblank eq_refl) as (_ & _ & _ & ->). reflexivity.
  - destruct Hfull as (_ & _ & _ & ->); [discriminate|]. reflexivity.
Qed.

(** X10. The alert level of the log analysis depends only on the two markers
    occurring in the text, in the case they are written: it is ERROR exactly
    when "ERROR" occurs in the text, WARNING exactly when "ERROR" does not
    occur and "WARNING" does, and INFO exactly when neither occurs. *)
Theorem X10_alert_level_by_markers (now : string) (logs_text : Py.str) :
  let alert :=
    LogAnalyzer.alert_level (LogAnalyzer.analyze_with_patterns now logs_text) in
  let has_error := Py.contains (Py.lit "ERROR") logs_text in
  let has_warning := Py.contains (Py.lit "WARNING") logs_text in
  (alert = "ERROR" <-> has_error = true)
  /\ (alert = "WARNING" <-> has_error = false /\ has_warning = true)
  /\ (alert = "INFO" <-> has_error = false /\ has_warning = false).
Proof.
  intros alert has_error has_warning.
  pose proof (marker_count_iff "ERROR" logs_text 69%N 82%N
                (Py.lit "RROR") (rev (Py.lit "ERRO"))
                eq_refl eq_refl eq_refl eq_refl) as He.
  pose proof (marker_count_iff "WARNING" logs_text 87%N 71%N
                (Py.lit "ARNING") (rev (Py.lit "WARNIN"))
                eq_refl eq_refl eq_refl eq_refl) as Hw.
  fold has_error in He. fold has_warning in Hw.
  subst alert. rewrite alert_level_by_counts.
  destruct (_ >? 0); [|destruct (_ >? 0)];
    destruct has_error; destruct has_warning;
    repeat match goal with
           | H : Forall _ _ -> _ |- _ =>
               specialize (H ltac:(repeat constructor))
           end;
    repeat split; intros; try discriminate; try reflexivity;
    try tauto; try (exfalso; intuition discriminate).
Qed.

(** ** Detected pattern groups *)

Lemma detect_fold_filter (table : list (string * list string)) (text : Py.str)
    (found : list string) :
  fold_left
    (fun found (entry : string * list string) =>
       if LogAnalyzer.any_pattern (snd entry) text
       then found ++ [fst entry] else found)
    table found
  = found
    ++ map fst (filter (fun entry => LogAnalyzer.any_pattern (snd entry) text = true)
                  table).
Proof.
  revert found. induction table as [|entry table IH]; intros found.
  - cbn. rewrite app_nil_r. reflexivity.
  - cbn [fold_left]. rewrite IH, filter_cons.
    destruct (LogAnalyzer.any_pattern (snd entry) text) eqn:E.
    + destruct (decide (true = true)); [|contradiction].
      cbn [map]. rewrite <- app_assoc. reflexivity.
    + destruct (decide (false = true)); [discriminate|]. reflexivity.
Qed.

Lemma map_fst_filter_sublist {A B} (P : A * B -> Prop)
    `{!forall x, Decision (P x)} (l : list (A * B)) :
  map fst (filter P l) `sublist_of` map fst l.
Proof.
  induction l as [|x l IH]; [constructor|].
  rewrite filter_cons. destruct (decide (P x)); cbn [map];
    [apply sublist_skip | apply sublist_cons]; exact IH.
Qed.

(** X11. The detected-pattern list holds exactly the groups one of whose
    patterns is found in the text, each once, in the order of the table
    [database_errors], [performance_issues], [security_issues],
    [application_errors]. *)
Theorem X11_detect_groups (logs_text : Py.str) :
  let found := LogAnalyzer.detect logs_text in
  (forall name,
      In name found
      <-> exists group,
            In (name, group) LogAnalyzer.patterns
            /\ LogAnalyzer.any_pattern group logs_text = true)
  /\ found `sublist_of` Catalogue.groups
  /\ NoDup found
  /\ (length found <= 4)%nat.
Proof.
  intros found.
  assert (E : found
              = map fst (filter (fun entry =>
                                   LogAnalyzer.any_pattern (snd entry) logs_text = true)
                           LogAnalyzer.patterns)).
  { subst found. unfold LogAnalyzer.detect. rewrite detect_fold_filter.
    reflexivity. }
  assert (Hsub : found `sublist_of` Catalogue.groups).
  { rewrite E. apply map_fst_filter_sublist. }
  split; [|split; [exact Hsub|split]].
  - intros name. rewrite E, in_map_iff. split.
    + intros ([name' group] & <- & Hin). apply list_elem_of_In in Hin.
      apply list_elem_of_filter in Hin as [Ha Hin]. exists group.
      split; [apply list_elem_of_In, Hin | exact Ha].
    + intros (group & Hin & Ha). exists (name, group). split; [reflexivity|].
      apply list_elem_of_In, list_elem_of_filter.
      split; [exact Ha | apply list_elem_of_In, Hin].
  - eapply sublist_NoDup; [|exact Hsub].
    apply (bool_decide_unpack _). vm_compute. reflexivity.
  - apply sublist_length in Hsub. exact Hsub.
Qed.

Lemma search_toks_split (p : list LogAnalyzer.tok) (t : Py.str) :
  LogAnalyzer.search_toks p t = true ->
  exists pre suf, t = pre ++ suf /\ LogAnalyzer.match_here p suf = true.
Proof.
  induction t as [|ch t IH]; rewrite search_toks_unfold, orb_true_iff.
  - intros [H|H]; [|discriminate H]. exists [], []. split; [reflexivity | exact H].
  - intros [H|H].
    + exists [], (ch :: t). split; [reflexivity | exact H].
    + destruct (IH H) as (pre & suf & -> & Hm).
      exists (ch :: pre), suf. split; [reflexivity | exact Hm].
Qed.

Lemma search_toks_mono (p : list LogAnalyzer.tok) (before t after : Py.str) :
  LogAnalyzer.search_toks p t = true ->
  LogAnalyzer.search_toks p (before ++ t ++ after) = true.
Proof.
  intros H. destruct (search_toks_split p t H) as (pre & suf & -> & Hm).
  rewrite <- app_assoc, (app_assoc before). apply search_toks_app, Hm.
Qed.

Lemma any_pattern_mono (group : list string) (before t after : Py.str) :
  LogAnalyzer.any_pattern group t = true ->
  LogAnalyzer.any_pattern group (before ++ t ++ after) = true.
Proof.
  induction group as [|pattern group IH]; cbn [LogAnalyzer.any_pattern];
    [discriminate|].
  destruct (LogAnalyzer.re_search pattern t) eqn:E.
  - intros _. unfold LogAnalyzer.re_search in *.
    destruct (LogAnalyzer.compile (Py.lit pattern)); [|discriminate E].
    rewrite (search_toks_mono _ before t after E). reflexivity.
  - intros H. rewrite (IH H).
    destruct (LogAnalyzer.re_search pattern (before ++ t ++ after)); reflexivity.
Qed.

(** X12. Adding text in front of or behind a log text never removes a
    detected pattern group: every group detected in a text is detected in
    every text that contains it. *)
Theorem X12_detect_monotone (before logs_text after : Py.str) (name : string) :
  In name (LogAnalyzer.detect logs_text) ->
  In name (LogAnalyzer.detect (before ++ logs_text ++ after)).
Proof.
  unfold LogAnalyzer.detect. rewrite !detect_fold_filter. cbn [app].
  rewrite !in_map_iff. intros ([name' group] & <- & Hin).
  apply list_elem_of_In, list_elem_of_filter in Hin as [Ha Hin].
  exists (name', group). split; [reflexivity|].
  apply list_elem_of_In, list_elem_of_filter. split; [|exact Hin].
  apply any_pattern_mono, Ha.
Qed.

Lemma X12_detect_monotone_witness :
  In "performance_issues"
    (LogAnalyzer.detect (Py.lit "INFO " ++ Py.lit "slow query" ++ Py.lit " done")).
Proof.
  apply (X12_detect_monotone (Py.lit "INFO ") (Py.lit "slow query")
           (Py.lit " done") "performance_issues").
  vm_compute. left. reflexivity.
Defined.

(** ** Case of the text *)

Lemma compile_lower_bounded (n : nat) (p : Py.str) (ts : list LogAnalyzer.tok) :
  (length p <= n)%nat ->
  LogAnalyzer.compile p = Some ts -> Catalogue.lower_lits ts.
Proof.
  revert p ts. induction n as [|n IH]; intros p ts Hn E.
  - destruct p; [|cbn in Hn; lia]. injection E as <-. constructor.
  - destruct p as [|c p]; [injection E as <-; constructor|].
    cbn [length] in Hn. cbn [LogAnalyzer.compile] in E.
    destruct (LogAnalyzer.is_lower_ascii c) eqn:Hc.
    + destruct (LogAnalyzer.compile p) as [ts'|] eqn:Ep; [|discriminate E].
      injection E as <-. constructor; [exact Hc|].
      apply (IH p); [lia | exact Ep].
    + destruct (c =? 46)%N; [|discriminate E].
      destruct p as [|c' p']; [discriminate E|].
      destruct (c' =? 42)%N; [|discriminate E].
      destruct (LogAnalyzer.compile p') as [ts'|] eqn:Ep; [|discriminate E].
      injection E as <-. constructor; [exact I|].
      apply (IH p'); [cbn [length] in Hn; lia | exact Ep].
Qed.

Lemma compile_lower (p : Py.str) (ts : list LogAnalyzer.tok) :
  LogAnalyzer.compile p = Some ts -> Catalogue.lower_lits ts.
Proof. apply (compile_lower_bounded (length p)). lia. Qed.

Lemma matches_upper (c x : N) :
  LogAnalyzer.is_lower_ascii c = true ->
  LogAnalyzer.matches_ignorecase c (Catalogue.ascii_upper x)
  = LogAnalyzer.matches_ignorecase c x.
Proof.
  unfold LogAnalyzer.is_lower_ascii, LogAnalyzer.matches_ignorecase,
    Catalogue.ascii_upper.
  rewrite andb_true_iff, !N.leb_le. intros [H1 H2].
  destruct ((97 <=? x) && (x <=? 122))%N eqn:Hx; [|reflexivity].
  apply andb_true_iff in Hx as [Hx1 Hx2]. apply N.leb_le in Hx1, Hx2.
  apply eq_true_iff_eq.
  rewrite !orb_true_iff, !andb_true_iff, !orb_true_iff, !N.eqb_eq. lia.
Qed.

Lemma upper_newline (x : N) :
  (Catalogue.ascii_upper x =? Py.newline)%N = (x =? Py.newline)%N.
Proof.
  unfold Catalogue.ascii_upper, Py.newline.
  destruct ((97 <=? x) && (x <=? 122))%N eqn:Hx; [|reflexivity].
  apply andb_true_iff in Hx as [Hx1 Hx2]. apply N.leb_le in Hx1, Hx2.
  apply eq_true_iff_eq. rewrite !N.eqb_eq. lia.
Qed.

Lemma match_here_upper (ts : list LogAnalyzer.tok) (s : Py.str) :
  Catalogue.lower_lits ts ->
  LogAnalyzer.match_here ts (map Catalogue.ascii_upper s)
  = LogAnalyzer.match_here ts s.
Proof.
  intros Hts. revert s. induction Hts as [|[c|] ts Hc _ IH]; intros s;
    [reflexivity| |].
  - destruct s as [|x s]; [reflexivity|].
    cbn [map LogAnalyzer.match_here]. rewrite (matches_upper c x Hc), IH.
    reflexivity.
  - induction s as [|x s IHs]; cbn [map].
    + rewrite (match_here_star ts []). reflexivity.
    + rewrite (match_here_star ts (Catalogue.ascii_upper x
                                   :: map Catalogue.ascii_upper s)),
        (match_here_star ts (x :: s)).
      pose proof (IH (x :: s)) as Hx. cbn [map] in Hx.
      rewrite Hx, upper_newline, IHs. reflexivity.
Qed.

Lemma re_search_upper (pattern : string) (s : Py.str) :
  LogAnalyzer.re_search pattern (map Catalogue.ascii_upper s)
  = LogAnalyzer.re_search pattern s.
Proof.
  unfold LogAnalyzer.re_search.
  destruct (LogAnalyzer.compile (Py.lit pattern)) as [ts|] eqn:E; [|reflexivity].
  apply compile_lower in E.
  induction s as [|x s IH]; cbn [map].
  - reflexivity.
  - rewrite (search_toks_unfold ts (Catalogue.ascii_upper x
                                    :: map Catalogue.ascii_upper s)),
      (search_toks_unfold ts (x :: s)).
    pose proof (match_here_upper ts (x :: s) E) as Hx. cbn [map] in Hx.
    rewrite Hx, IH. reflexivity.
Qed.

Lemma any_pattern_upper (group : list string) (s : Py.str) :
  LogAnalyzer.any_pattern group (map Catalogue.ascii_upper s)
  = LogAnalyzer.any_pattern group s.
Proof.
  induction group as [|pattern group IH]; cbn [LogAnalyzer.any_pattern];
    [reflexivity|].
  rewrite re_search_upper, IH. reflexivity.
Qed.

Lemma isspace_upper (x : N) :
  Py.isspace (Catalogue.ascii_upper x) = Py.isspace x.
Proof.
  unfold Catalogue.ascii_upper.
  destruct ((97 <=? x) && (x <=? 122))%N eqn:Hx; [|reflexivity].
  apply andb_true_iff in Hx as [Hx1 Hx2]. apply N.leb_le in Hx1, Hx2.
  unfold Py.isspace. apply eq_true_iff_eq.
  rewrite !orb_true_iff, !andb_true_iff, !N.leb_le, !N.eqb_eq. lia.
Qed.

Lemma lstrip_upper (s : Py.str) :
  Py.lstrip (map Catalogue.ascii_upper s) = map Catalogue.ascii_upper (Py.lstrip s).
Proof.
  induction s as [|x s IH]; [reflexivity|].
  cbn [map Py.lstrip]. rewrite isspace_upper.
  destruct (Py.isspace x); [exact IH | reflexivity].
Qed.

Lemma strip_upper (s : Py.str) :
  Py.strip (map Catalogue.ascii_upper s) = map Catalogue.ascii_upper (Py.strip s).
Proof.
  unfold Py.strip, Py.rstrip.
  rewrite lstrip_upper, <- map_rev, lstrip_upper, map_rev. reflexivity.
Qed.

(** X13. Pattern detection does not see the case of ASCII letters: writing
    every ASCII letter of a log text in upper case leaves the
    detected-pattern list of the analysis unchanged. *)
Theorem X13_detection_ignores_case (now : string) (logs_text : Py.str) :
  LogAnalyzer.detected_patterns
    (LogAnalyzer.analyze_with_patterns now (map Catalogue.ascii_upper logs_text))
  = LogAnalyzer.detected_patterns (LogAnalyzer.analyze_with_patterns now logs_text)
  /\ LogAnalyzer.detect (map Catalogue.ascii_upper logs_text)
     = LogAnalyzer.detect logs_text.
Proof.
  assert (Hd : LogAnalyzer.detect (map Catalogue.ascii_upper logs_text)
               = LogAnalyzer.detect logs_text).
  { unfold LogAnalyzer.detect. rewrite !detect_fold_filter. do 2 f_equal.
    induction LogAnalyzer.patterns as [|entry table IH]; [reflexivity|].
    rewrite !filter_cons, any_pattern_upper, IH. reflexivity. }
  split; [|exact Hd].
  destruct (analysis_fields now logs_text) as (_ & Hb & Hf).
  destruct (analysis_fields now (map Catalogue.ascii_upper logs_text))
    as (_ & Hb' & Hf').
  rewrite strip_upper in Hb', Hf'.
  destruct (Py.strip logs_text) as [|x s] eqn:E.
  - destruct (Hb eq_refl) as (_ & _ & -> & _).
    destruct (Hb' eq_refl) as (_ & _ & -> & _). reflexivity.
  - destruct Hf as (_ & _ & -> & _); [discriminate|].
    destruct Hf' as (_ & _ & -> & _); [discriminate|]. exact Hd.
Qed.

(** ** Patterns shared between groups *)

Lemma match_here_tail (p1 p2 : list LogAnalyzer.tok) (s : Py.str) :
  LogAnalyzer.match_here (p1 ++ LogAnalyzer.DotStar :: p2) s = true ->
  exists a b, s = a ++ b /\ LogAnalyzer.match_here p2 b = true.
Proof.
  revert s. induction p1 as [|[c|] p1 IH]; intros s; cbn [app].
  - induction s as [|x s IHs]; rewrite match_here_star, orb_true_iff.
    + intros [H|H]; [|discriminate H]. exists [], []. split; [reflexivity|exact H].
    + intros [H|H]; [exists [], (x :: s); split; [reflexivity|exact H]|].
      apply andb_true_iff in H as [_ H].
      destruct (IHs H) as (a & b & -> & Hb). exists (x :: a), b.
      split; [reflexivity | exact Hb].
  - destruct s as [|x s]; cbn [LogAnalyzer.match_here]; [discriminate|].
    rewrite andb_true_iff. intros [_ H].
    destruct (IH _ H) as (a & b & -> & Hb). exists (x :: a), b.
    split; [reflexivity | exact Hb].
  - induction s as [|x s IHs]; rewrite match_here_star, orb_true_iff.
    + intros [H|H]; [exact (IH _ H) | discriminate H].
    + intros [H|H]; [exact (IH _ H)|].
      apply andb_true_iff in H as [_ H].
      destruct (IHs H) as (a & b & -> & Hb). exists (x :: a), b.
      split; [reflexivity | exact Hb].
Qed.

Lemma connection_failed_is_failed (text : Py.str) :
  LogAnalyzer.re_search "connection.*failed" text = true ->
  LogAnalyzer.re_search "failed" text = true.
Proof.
  unfold LogAnalyzer.re_search.
  change (LogAnalyzer.compile (Py.lit "connection.*failed"))
    with (Some (map LogAnalyzer.Lit (Py.lit "connection")
                ++ LogAnalyzer.DotStar :: map LogAnalyzer.Lit (Py.lit "failed"))).
  change (LogAnalyzer.compile (Py.lit "failed"))
    with (Some (map LogAnalyzer.Lit (Py.lit "failed"))).
  intros H. destruct (search_toks_split _ _ H) as (pre & suf & -> & Hm).
  destruct (match_here_tail _ _ _ Hm) as (a & b & -> & Hb).
  rewrite app_assoc, <- (app_nil_r b). apply search_toks_app, Hb.
Qed.

(** X14. Two patterns tie groups together.  Whenever "timeout" is found, both
    [database_errors] and [performance_issues] are detected; whenever
    "connection.*failed" is found, both [database_errors] and
    [application_errors] are detected. *)
Theorem X14_shared_patterns (logs_text : Py.str) :
  (LogAnalyzer.re_search "timeout" logs_text = true ->
   In "database_errors" (LogAnalyzer.detect logs_text)
   /\ In "performance_issues" (LogAnalyzer.detect logs_text))
  /\ (LogAnalyzer.re_search "connection.*failed" logs_text = true ->
      In "database_errors" (LogAnalyzer.detect logs_text)
      /\ In "application_errors" (LogAnalyzer.detect logs_text)).
Proof.
  split.
  - intros H. split.
    + apply detect_in with ["connection.*failed"; "timeout"; "deadlock"];
        [left; reflexivity|].
      cbn [LogAnalyzer.any_pattern]. rewrite H.
      destruct (LogAnalyzer.re_search "connection.*failed" logs_text); reflexivity.
    + apply detect_in with ["high.*response"; "slow"; "timeout"];
        [right; left; reflexivity|].
      cbn [LogAnalyzer.any_pattern]. rewrite H.
      destruct (LogAnalyzer.re_search "high.*response" logs_text);
        destruct (LogAnalyzer.re_search "slow" logs_text); reflexivity.
  - intros H. split.
    + apply detect_in with ["connection.*failed"; "timeout"; "deadlock"];
        [left; reflexivity|].
      cbn [LogAnalyzer.any_pattern]. rewrite H. reflexivity.
    + apply detect_in with ["exception"; "error"; "failed"];
        [do 3 right; left; reflexivity|].
      cbn [LogAnalyzer.any_pattern].
      rewrite (connection_failed_is_failed logs_text H).
      destruct (LogAnalyzer.re_search "exception" logs_text);
        destruct (LogAnalyzer.re_search "error" logs_text); reflexivity.
Qed.

(** ** Entries and lines *)

Lemma split_lines_plain (l : Py.str) :
  Forall (fun ch => (ch =? Py.newline)%N = false) l -> Py.split_lines l = [l].
Proof.
  induction 1 as [|ch l Hc _ IH]; [reflexivity|].
  cbn [Py.split_lines]. rewrite Hc, IH. reflexivity.
Qed.

Lemma split_lines_app_newline (l t : Py.str) :
  Forall (fun ch => (ch =? Py.newline)%N = false) l ->
  Py.split_lines (l ++ Py.newline :: t) = l :: Py.split_lines t.
Proof.
  induction 1 as [|ch l Hc _ IH]; [reflexivity|].
  cbn [app Py.split_lines]. rewrite Hc, IH. reflexivity.
Qed.

Lemma join_tidy_lines (l : Py.str) (rest : list Py.str) :
  Forall Catalogue.tidy_line (l :: rest) ->
  exists text,
    Py.join_lines (map Py.JStr (l :: rest)) = Py.Ret text
    /\ Py.split_lines text = l :: rest
    /\ (exists h t, text = h :: t /\ Py.isspace h = false)
    /\ (exists h t, rev text = h :: t /\ Py.isspace h = false).
Proof.
  revert l. induction rest as [|l2 rest IH]; intros l Hall.
  - apply Forall_cons in Hall as [(Hh & Hl & Hn) _].
    exists l. repeat split; [apply split_lines_plain, Hn | exact Hh | exact Hl].
  - apply Forall_cons in Hall as [(Hh & Hl & Hn) Hrest].
    destruct (IH l2 Hrest) as (t & Hj & Hs & _ & (h' & t' & Hr & Hsp)).
    exists (l ++ Py.newline :: t). split; [|split; [|split]].
    + change (map Py.JStr (l :: l2 :: rest))
        with (Py.JStr l :: map Py.JStr (l2 :: rest)).
      cbn [Py.join_lines]. cbn [map] in Hj |- *. rewrite Hj. reflexivity.
    + rewrite (split_lines_app_newline l t Hn), Hs. reflexivity.
    + destruct Hh as (h & tl & -> & Hsp'). exists h, (tl ++ Py.newline :: t).
      split; [reflexivity | exact Hsp'].
    + exists h', (t' ++ [Py.newline] ++ rev l). split; [|exact Hsp].
      rewrite rev_app_distr. cbn [rev]. rewrite Hr, <- !app_assoc. reflexivity.
Qed.

Lemma strip_tidy (text : Py.str) :
  (exists h t, text = h :: t /\ Py.isspace h = false) ->
  (exists h t, rev text = h :: t /\ Py.isspace h = false) ->
  Py.strip text = text.
Proof.
  intros (h & t & -> & Hh) (h' & t' & Hr & Hh').
  unfold Py.strip, Py.rstrip. cbn [Py.lstrip]. rewrite Hh, Hr.
  cbn [Py.lstrip]. rewrite Hh', <- Hr. apply rev_involutive.
Qed.

(** X15. Joining log entries with line feeds and analysing the result counts
    them back: for a non-empty list of non-empty entries, none holding a line
    feed and none starting or ending with white space, the join does not
    raise, the joined text splits into exactly the entries, and the analysis
    reports as many entries as were joined. *)
Theorem X15_entries_round_trip (now : string) (first : Py.str)
    (rest : list Py.str) :
  Forall Catalogue.tidy_line (first :: rest) ->
  exists text,
    Py.join_lines (map Py.JStr (first :: rest)) = Py.Ret text
    /\ Py.split_lines text = first :: rest
    /\ LogAnalyzer.total_entries (LogAnalyzer.analyze_with_patterns now text)
       = Py.len (first :: rest).
Proof.
  intros Hall.
  destruct (join_tidy_lines first rest Hall) as (text & Hj & Hs & Hh & Hl).
  exists text. split; [exact Hj|]. split; [exact Hs|].
  pose proof (strip_tidy text Hh Hl) as Hstrip.
  destruct (analysis_fields now text) as (_ & _ & Hf).
  destruct Hf as (-> & _).
  - rewrite Hstrip. destruct Hh as (h & t & -> & _). discriminate.
  - rewrite Hstrip, Hs. reflexivity.
Qed.

Lemma X15_entries_round_trip_witness :
  exists text,
    Py.join_lines (map Py.JStr [Py.lit "INFO started"; Py.lit "ERROR: connection failed"])
    = Py.Ret text
    /\ Py.split_lines text = [Py.lit "INFO started"; Py.lit "ERROR: connection failed"]
    /\ LogAnalyzer.total_entries
         (LogAnalyzer.analyze_with_patterns "2025-01-01T12:00:01.000001" text)
       = 2.
Proof.
  apply (X15_entries_round_trip "2025-01-01T12:00:01.000001"
           (Py.lit "INFO started") [Py.lit "ERROR: connection failed"]).
  repeat constructor; try (do 2 eexists; split; reflexivity).
Defined.

(** ** Retrieval of the logs *)

(** X16. [get_loki_logs] never raises and always returns a dictionary, so the
    test for the key "error" that follows it cannot fail.  The dictionary is
    an error record with the single key "error" whenever the request raised,
    the status was between 400 and 599, the body was not JSON, or the body
    was not a dictionary with a countable result list; otherwise it is the
    body itself, for any status outside 400..599. *)
Theorem X16_get_loki_logs_total (exn_text : Py.exn_kind -> Py.str)
    (r : LogAnalyzer.http_outcome) :
  let result := LogAnalyzer.get_loki_logs exn_text r in
  (exists entries, result = Py.JObj entries)
  /\ (exists b, Py.contains_key (Py.lit "error") result = Py.Ret b)
  /\ (forall e,
         LogAnalyzer.get_loki_logs_body r = Py.Raise e ->
         exists text, result = Py.JObj [(Py.lit "error", Py.JStr text)])
  /\ (forall data,
         LogAnalyzer.get_loki_logs_body r = Py.Ret data ->
         result = data
         /\ exists status,
              r = LogAnalyzer.HttpResponse status (Some data)
              /\ (status < 400 \/ 600 <= status))
  /\ (r = LogAnalyzer.HttpRaised
      \/ (exists status body,
             r = LogAnalyzer.HttpResponse status body
             /\ (400 <= status < 600 \/ body = None)) ->
      exists e, LogAnalyzer.get_loki_logs_body r = Py.Raise e).
Proof.
  intros result.
  assert (Hraise : forall e,
            LogAnalyzer.get_loki_logs_body r = Py.Raise e ->
            exists text, result = Py.JObj [(Py.lit "error", Py.JStr text)]).
  { intros e He. subst result. unfold LogAnalyzer.get_loki_logs. rewrite He.
    destruct e; eexists; reflexivity. }
  assert (Hret : forall data,
            LogAnalyzer.get_loki_logs_body r = Py.Ret data ->
            result = data
            /\ (exists entries, data = Py.JObj entries)
            /\ exists status,
                 r = LogAnalyzer.HttpResponse status (Some data)
                 /\ (status < 400 \/ 600 <= status)).
  { intros data Hd. split.
    { subst result. unfold LogAnalyzer.get_loki_logs. rewrite Hd. reflexivity. }
    destruct r as [|status body]; [discriminate Hd|].
    cbn [LogAnalyzer.get_loki_logs_body] in Hd.
    destruct (Z.leb_spec 400 status) as [H4|H4];
      destruct (Z.ltb_spec status 600) as [H6|H6]; cbn [andb] in Hd;
      try discriminate Hd;
      (destruct body as [body|]; [|discriminate Hd]);
      unfold mbind, M_bind, mret, M_ret in Hd;
      (destruct body; try discriminate Hd);
      cbn [Py.get Py.bind] in Hd;
      (destruct (Py.get _ _ _); [|discriminate Hd]); cbn [Py.bind] in Hd;
      (destruct (Py.json_len _); [|discriminate Hd]); cbn [Py.bind] in Hd;
      injection Hd as <-;
      (split; [eexists; reflexivity | eexists; split; [reflexivity | lia]]). }
  split; [|split; [|split; [exact Hraise|split]]].
  - destruct (LogAnalyzer.get_loki_logs_body r) as [data|e] eqn:E.
    + destruct (Hret data eq_refl) as (-> & Hobj & _). exact Hobj.
    + destruct (Hraise e eq_refl) as [text ->]. eexists. reflexivity.
  - destruct (LogAnalyzer.get_loki_logs_body r) as [data|e] eqn:E.
    + destruct (Hret data eq_refl) as (-> & [entries ->] & _).
      eexists. reflexivity.
    + destruct (Hraise e eq_refl) as [text ->]. eexists. reflexivity.
  - intros data Hd. destruct (Hret data Hd) as (H1 & _ & H3). split; assumption.
  - intros [-> | (status & body & -> & [Hs | ->])].
    + eexists. reflexivity.
    + cbn [LogAnalyzer.get_loki_logs_body].
      destruct (Z.leb_spec 400 status); [|lia].
      destruct (Z.ltb_spec status 600); [|lia]. eexists. reflexivity.
    + cbn [LogAnalyzer.get_loki_logs_body].
      destruct ((400 <=? status) && (status <? 600)); eexists; reflexivity.
Qed.

(** ** Network summary: bounds and counts *)

Lemma ratio_bounds (a n : Z) :
  0 <= a <= n -> 0 < n ->
  (0 <= inject_Z a / inject_Z n * 100 <= 100)%Q.
Proof.
  intros Ha Hn.
  assert (Hn' : (0 < inject_Z n)%Q) by (change 0%Q with (inject_Z 0); rewrite <- Zlt_Qlt; lia).
  assert (H0 : (0 <= inject_Z a / inject_Z n)%Q).
  { apply Qle_shift_div_l; [exact Hn'|]. rewrite Qmult_0_l.
    change 0%Q with (inject_Z 0). rewrite <- Zle_Qle. lia. }
  assert (H1 : (inject_Z a / inject_Z n <= 1)%Q).
  { apply Qle_shift_div_r; [exact Hn'|]. rewrite Qmult_1_l.
    rewrite <- Zle_Qle. lia. }
  split; lra.
Qed.

Lemma count_map_filter {A B} (f : A -> B) (P : B -> bool) (l : list A) :
  length (filter (fun r => P r = true) (map f l))
  = length (filter (fun t => P (f t) = true) l).
Proof.
  induction l as [|x l IH]; [reflexivity|].
  cbn [map]. rewrite !filter_cons.
  destruct (decide (P (f x) = true)); cbn [length]; rewrite IH; reflexivity.
Qed.

Lemma partition_length {A} (P : A -> bool) (l : list A) :
  (length (filter (fun t => P t = false) l)
   + length (filter (fun t => P t = true) l) = length l)%nat.
Proof.
  induction l as [|x l IH]; [reflexivity|].
  rewrite !filter_cons. destruct (P x);
    destruct (decide (true = false)); destruct (decide (true = true));
    destruct (decide (false = false)); destruct (decide (false = true));
    try discriminate; try contradiction; cbn [length]; lia.
Qed.

(** The result of [analyze_network_health], when it returns. *)
Lemma network_result (targets : list string) (w : NetworkAnalyzer.net)
    (r : NetworkAnalyzer.results) :
  NetworkAnalyzer.analyze_network_health targets w = Py.Ret r ->
  let pingable := filter (fun t => NetworkAnalyzer.is_http t = false) targets in
  let endpoints := filter (fun t => NetworkAnalyzer.is_http t = true) targets in
  let up_pings :=
    filter (fun p => NetworkAnalyzer.ping_available p = true)
      (map (NetworkAnalyzer.ping_service w) pingable) in
  let up_https :=
    filter (fun p => NetworkAnalyzer.http_available p = true)
      (map (NetworkAnalyzer.http_response_time w) endpoints) in
  let up_dns :=
    filter (fun p => NetworkAnalyzer.resolved p = true)
      (map (NetworkAnalyzer.check_dns_resolution w) NetworkAnalyzer.dns_hosts) in
  pingable <> [] /\ endpoints <> []
  /\ r = {| NetworkAnalyzer.timestamp := NetworkAnalyzer.now_iso w;
            NetworkAnalyzer.ping_results :=
              map (NetworkAnalyzer.ping_service w) pingable;
            NetworkAnalyzer.http_results :=
              map (NetworkAnalyzer.http_response_time w) endpoints;
            NetworkAnalyzer.dns_results :=
              map (NetworkAnalyzer.check_dns_resolution w) NetworkAnalyzer.dns_hosts;
            NetworkAnalyzer.network_summary :=
              {| NetworkAnalyzer.ping_availability :=
                   (inject_Z (Py.len up_pings) / inject_Z (Py.len pingable) * 100)%Q;
                 NetworkAnalyzer.http_availability :=
                   (inject_Z (Py.len up_https) / inject_Z (Py.len endpoints) * 100)%Q;
                 NetworkAnalyzer.dns_availability :=
                   (inject_Z (Py.len up_dns) / inject_Z 3 * 100)%Q;
                 NetworkAnalyzer.avg_ping_time :=
                   NetworkAnalyzer.mean_or_zero
                     (map NetworkAnalyzer.avg_time up_pings);
                 NetworkAnalyzer.avg_http_time :=
                   NetworkAnalyzer.mean_or_zero
                     (map NetworkAnalyzer.response_time_ms up_https);
                 NetworkAnalyzer.avg_dns_time :=
                   NetworkAnalyzer.mean_or_zero
                     (map NetworkAnalyzer.resolution_time_ms up_dns);
                 NetworkAnalyzer.total_checks := Py.len targets + 3 |} |}.
Proof.
  intros H pingable endpoints up_pings up_https up_dns.
  unfold NetworkAnalyzer.analyze_network_health in H.
  fold pingable endpoints in H. rewrite !truediv_len in H.
  unfold mbind, M_bind, mret, M_ret in H.
  destruct pingable as [|p ps] eqn:Ep; [discriminate H|].
  destruct endpoints as [|e es] eqn:Ee; [discriminate H|].
  cbn [Py.bind] in H. injection H as <-.
  split; [discriminate|]. split; [discriminate|]. reflexivity.
Qed.

(** X17. Whenever the network summary is computed, each of the three
    availability percentages lies between 0 and 100, every target was probed
    exactly once, either by ping or by HTTP, the three DNS names were
    resolved, and [total_checks] is the number of targets plus three. *)
Theorem X17_network_summary_bounds (targets : list string)
    (w : NetworkAnalyzer.net) (r : NetworkAnalyzer.results) :
  NetworkAnalyzer.analyze_network_health targets w = Py.Ret r ->
  let s := NetworkAnalyzer.network_summary r in
  (0 <= NetworkAnalyzer.ping_availability s <= 100)%Q
  /\ (0 <= NetworkAnalyzer.http_availability s <= 100)%Q
  /\ (0 <= NetworkAnalyzer.dns_availability s <= 100)%Q
  /\ (length (NetworkAnalyzer.ping_results r)
      + length (NetworkAnalyzer.http_results r) = length targets)%nat
  /\ length (NetworkAnalyzer.dns_results r) = 3%nat
  /\ NetworkAnalyzer.total_checks s = Py.len targets + 3.
Proof.
  intros H s. destruct (network_result targets w r H) as (Hp & He & ->).
  subst s.
  cbn [NetworkAnalyzer.network_summary NetworkAnalyzer.ping_availability
       NetworkAnalyzer.http_availability NetworkAnalyzer.dns_availability
       NetworkAnalyzer.ping_results NetworkAnalyzer.http_results
       NetworkAnalyzer.dns_results NetworkAnalyzer.total_checks].
  split; [|split; [|split; [|split; [|split]]]].
  - apply ratio_bounds; unfold Py.len.
    + pose proof (length_filter
                    (fun p => NetworkAnalyzer.ping_available p = true)
                    (map (NetworkAnalyzer.ping_service w)
                       (filter (fun t => NetworkAnalyzer.is_http t = false) targets))) as Hle.
      rewrite length_map in Hle. lia.
    + destruct (filter (fun t => NetworkAnalyzer.is_http t = false) targets);
        [contradiction | cbn [length]; lia].
  - apply ratio_bounds; unfold Py.len.
    + pose proof (length_filter
                    (fun p => NetworkAnalyzer.http_available p = true)
                    (map (NetworkAnalyzer.http_response_time w)
                       (filter (fun t => NetworkAnalyzer.is_http t = true) targets))) as Hle.
      rewrite length_map in Hle. lia.
    + destruct (filter (fun t => NetworkAnalyzer.is_http t = true) targets);
        [contradiction | cbn [length]; lia].
  - apply ratio_bounds; [|lia]. unfold Py.len.
    pose proof (length_filter
                  (fun p => NetworkAnalyzer.resolved p = true)
                  (map (NetworkAnalyzer.check_dns_resolution w)
                     NetworkAnalyzer.dns_hosts)) as Hle.
    rewrite length_map in Hle. cbn [length NetworkAnalyzer.dns_hosts] in Hle. lia.
  - rewrite !length_map. apply partition_length.
  - reflexivity.
  - reflexivity.
Qed.

Lemma X17_network_summary_bounds_witness :
  exists r,
    NetworkAnalyzer.analyze_network_health NetworkAnalyzer.target_services
      Scenario.net_up = Py.Ret r
    /\ (NetworkAnalyzer.http_availability (NetworkAnalyzer.network_summary r) <= 100)%Q.
Proof.
  eexists. split; [reflexivity|].
  refine (proj2 (proj1 (proj2
            (X17_network_summary_bounds NetworkAnalyzer.target_services
               Scenario.net_up _ eq_refl)))).
Defined.

(** ** Latency averages *)

Lemma sum_bounds (lo hi : Q) (l : list Q) :
  Forall (fun x => (lo <= x <= hi)%Q) l ->
  (lo * inject_Z (Py.len l) <= fold_right Qplus 0 l <= hi * inject_Z (Py.len l))%Q.
Proof.
  unfold Py.len. induction 1 as [|x l [Hx1 Hx2] _ [IH1 IH2]].
  - change (inject_Z (Z.of_nat (@length Q []))) with 0%Q. cbn [fold_right].
    split; lra.
  - cbn [fold_right length]. rewrite Nat2Z.inj_succ, <- Z.add_1_r, inject_Z_plus.
    change (inject_Z 1) with 1%Q.
    set (n := inject_Z (Z.of_nat (length l))) in *.
    set (total := fold_right Qplus 0%Q l) in *.
    split; nra.
Qed.

Lemma mean_bounds (lo hi : Q) (l : list Q) :
  l <> [] -> Forall (fun x => (lo <= x <= hi)%Q) l ->
  (lo <= Py.mean l <= hi)%Q.
Proof.
  intros Hne Hall. pose proof (sum_bounds lo hi l Hall) as [H1 H2].
  assert (Hn : (0 < inject_Z (Py.len l))%Q).
  { change 0%Q with (inject_Z 0). rewrite <- Zlt_Qlt. unfold Py.len.
    destruct l; [contradiction | cbn [length]; lia]. }
  unfold Py.mean. split.
  - apply Qle_shift_div_l; assumption.
  - apply Qle_shift_div_r; assumption.
Qed.

(** X18. Latency averages are taken over the successful probes only.  When
    the summary is computed and no HTTP endpoint answers, the HTTP
    availability and the average HTTP time are 0; when at least one answers
    and every answering endpoint took between [lo] and [hi] milliseconds,
    the average lies between [lo] and [hi], whatever the failed probes
    report. *)
Theorem X18_http_average (targets : list string) (w : NetworkAnalyzer.net)
    (r : NetworkAnalyzer.results) (lo hi : Q) :
  NetworkAnalyzer.analyze_network_health targets w = Py.Ret r ->
  Forall (fun p => NetworkAnalyzer.http_available p = true ->
                   (lo <= NetworkAnalyzer.response_time_ms p <= hi)%Q)
    (NetworkAnalyzer.http_results r) ->
  let s := NetworkAnalyzer.network_summary r in
  let answering :=
    filter (fun p => NetworkAnalyzer.http_available p = true)
      (NetworkAnalyzer.http_results r) in
  (answering = [] ->
   NetworkAnalyzer.avg_http_time s = 0%Q
   /\ (NetworkAnalyzer.http_availability s == 0)%Q)
  /\ (answering <> [] -> (lo <= NetworkAnalyzer.avg_http_time s <= hi)%Q).
Proof.
  intros H Hall s answering.
  destruct (network_result targets w r H) as (Hp & He & ->).
  subst s answering.
  cbn [NetworkAnalyzer.network_summary NetworkAnalyzer.http_availability
       NetworkAnalyzer.avg_http_time NetworkAnalyzer.http_results] in *.
  set (up := filter (fun p => NetworkAnalyzer.http_available p = true)
               (map (NetworkAnalyzer.http_response_time w)
                  (filter (fun t => NetworkAnalyzer.is_http t = true) targets))) in *.
  split.
  - intros ->. split; [reflexivity|]. cbn. unfold Qdiv. rewrite Qmult_0_l.
    reflexivity.
  - intros Hne. unfold NetworkAnalyzer.mean_or_zero.
    destruct (map NetworkAnalyzer.response_time_ms up) as [|x xs] eqn:Em.
    { destruct up; [contradiction | discriminate Em]. }
    rewrite <- Em. apply mean_bounds.
    + rewrite Em. discriminate.
    + apply Forall_forall. intros x' Hin. apply list_elem_of_In in Hin.
      apply in_map_iff in Hin as (p & <- & Hin).
      apply list_elem_of_In in Hin. subst up.
      apply list_elem_of_filter in Hin as [Hav Hin].
      rewrite Forall_forall in Hall. apply Hall; assumption.
Qed.

Lemma X18_http_average_witness :
  exists r,
    NetworkAnalyzer.analyze_network_health NetworkAnalyzer.target_services
      Scenario.net_up = Py.Ret r
    /\ (20 <= NetworkAnalyzer.avg_http_time (NetworkAnalyzer.network_summary r) <= 20)%Q.
Proof.
  eexists. split; [reflexivity|].
  refine (proj2 (X18_http_average NetworkAnalyzer.target_services
                   Scenario.net_up _ 20 20 eq_refl _) _).
  - repeat constructor; vm_compute; discriminate.
  - vm_compute. discriminate.
Defined.

(** ** Recommendations of the network report *)

Lemma below_lt (a b : Q) : NetworkAnalyzer.below a b = true <-> (a < b)%Q.
Proof. apply (Qltb_lt a b). Qed.

Lemma below_ge (a b : Q) : NetworkAnalyzer.below a b = false <-> (b <= a)%Q.
Proof.
  unfold NetworkAnalyzer.below. rewrite negb_false_iff. apply Qle_bool_iff.
Qed.

Lemma report_stable_iff (s : NetworkAnalyzer.summary) :
  NetworkAnalyzer.report_recommendations s = [Catalogue.STABLE]
  <-> (80 <= NetworkAnalyzer.ping_availability s)%Q
      /\ (100 <= NetworkAnalyzer.http_availability s)%Q
      /\ (NetworkAnalyzer.avg_http_time s <= 1000)%Q
      /\ (100 <= NetworkAnalyzer.dns_availability s)%Q.
Proof.
  unfold NetworkAnalyzer.report_recommendations. cbv zeta.
  pose proof (below_lt (NetworkAnalyzer.ping_availability s) 80) as P1.
  pose proof (below_ge (NetworkAnalyzer.ping_availability s) 80) as P0.
  pose proof (below_lt (NetworkAnalyzer.http_availability s) 100) as H1.
  pose proof (below_ge (NetworkAnalyzer.http_availability s) 100) as H0.
  pose proof (below_lt 1000 (NetworkAnalyzer.avg_http_time s)) as T1.
  pose proof (below_ge 1000 (NetworkAnalyzer.avg_http_time s)) as T0.
  pose proof (below_lt (NetworkAnalyzer.dns_availability s) 100) as D1.
  pose proof (below_ge (NetworkAnalyzer.dns_availability s) 100) as D0.
  destruct (NetworkAnalyzer.below (NetworkAnalyzer.ping_availability s) 80);
    destruct (NetworkAnalyzer.below (NetworkAnalyzer.http_availability s) 100);
    destruct (NetworkAnalyzer.below 1000 (NetworkAnalyzer.avg_http_time s));
    destruct (NetworkAnalyzer.below (NetworkAnalyzer.dns_availability s) 100);
    cbn [app];
    (split;
     [ intros E; first [discriminate E
                       | repeat split; [apply P0|apply H0|apply T0|apply D0];
                         reflexivity]
     | intros (A & B & C & D);
       first [ reflexivity
             | exfalso;
               pose proof (proj1 P1); pose proof (proj1 H1);
               pose proof (proj1 T1); pose proof (proj1 D1);
               first [ assert (X : (NetworkAnalyzer.ping_availability s < 80)%Q)
                         by auto; lra
                     | assert (X : (NetworkAnalyzer.http_availability s < 100)%Q)
                         by auto; lra
                     | assert (X : (1000 < NetworkAnalyzer.avg_http_time s)%Q)
                         by auto; lra
                     | assert (X : (NetworkAnalyzer.dns_availability s < 100)%Q)
                         by auto; lra ] ] ]).
Qed.

(** X19. The network report always recommends something: between one and
    four entries.  The entry "running stable" is never mixed with another
    one, and it is the recommendation exactly when the ping availability is
    at least 80, the HTTP and the DNS availability are at least 100 and the
    average HTTP time is at most 1000 ms. *)
Theorem X19_report_recommendations (s : NetworkAnalyzer.summary) :
  let recommendations := NetworkAnalyzer.report_recommendations s in
  (1 <= length recommendations <= 4)%nat
  /\ (In Catalogue.STABLE recommendations <-> recommendations = [Catalogue.STABLE])
  /\ (recommendations = [Catalogue.STABLE]
      <-> (80 <= NetworkAnalyzer.ping_availability s)%Q
          /\ (100 <= NetworkAnalyzer.http_availability s)%Q
          /\ (NetworkAnalyzer.avg_http_time s <= 1000)%Q
          /\ (100 <= NetworkAnalyzer.dns_availability s)%Q).
Proof.
  intros recommendations. subst recommendations.
  unfold NetworkAnalyzer.report_recommendations. cbv zeta.
  pose proof (below_lt (NetworkAnalyzer.ping_availability s) 80) as P1.
  pose proof (below_ge (NetworkAnalyzer.ping_availability s) 80) as P0.
  pose proof (below_lt (NetworkAnalyzer.http_availability s) 100) as H1.
  pose proof (below_ge (NetworkAnalyzer.http_availability s) 100) as H0.
  pose proof (below_lt 1000 (NetworkAnalyzer.avg_http_time s)) as T1.
  pose proof (below_ge 1000 (NetworkAnalyzer.avg_http_time s)) as T0.
  pose proof (below_lt (NetworkAnalyzer.dns_availability s) 100) as D1.
  pose proof (below_ge (NetworkAnalyzer.dns_availability s) 100) as D0.
  destruct (NetworkAnalyzer.below (NetworkAnalyzer.ping_availability s) 80);
    destruct (NetworkAnalyzer.below (NetworkAnalyzer.http_availability s) 100);
    destruct (NetworkAnalyzer.below 1000 (NetworkAnalyzer.avg_http_time s));
    destruct (NetworkAnalyzer.below (NetworkAnalyzer.dns_availability s) 100);
    cbn [app length In];
    (split; [lia|]);
    (split;
     [ split;
       [ intros Hin; repeat (destruct Hin as [Hin|Hin]; [try discriminate Hin|]);
         try reflexivity; try contradiction
       | intros E; first [discriminate E | left; reflexivity] ]
     | split;
       [ intros E; first [discriminate E
                         | repeat split; [apply P0|apply H0|apply T0|apply D0];
                           reflexivity]
       | intros (A & B & C & D);
         first [ reflexivity
               | exfalso;
                 pose proof (proj1 P1); pose proof (proj1 H1);
                 pose proof (proj1 T1); pose proof (proj1 D1);
                 first [ assert (X : (NetworkAnalyzer.ping_availability s < 80)%Q)
                           by auto; lra
                       | assert (X : (NetworkAnalyzer.http_availability s < 100)%Q)
                           by auto; lra
                       | assert (X : (1000 < NetworkAnalyzer.avg_http_time s)%Q)
                           by auto; lra
                       | assert (X : (NetworkAnalyzer.dns_availability s < 100)%Q)
                           by auto; lra ] ] ] ]).
Qed.

Lemma filter_all {A} (P : A -> bool) (l : list A) :
  length (filter (fun t => P t = true) l) = length l
  <-> Forall (fun t => P t = true) l.
Proof.
  induction l as [|x l IH]; [split; [constructor | reflexivity]|].
  rewrite filter_cons.
  pose proof (length_filter (fun t => P t = true) l) as Hle.
  destruct (decide (P x = true)) as [Hx|Hx]; cbn [length].
  - split.
    + intros E. constructor; [exact Hx | apply IH; lia].
    + intros H. apply Forall_cons in H as [_ H]. apply IH in H. lia.
  - split; [lia|]. intros H. apply Forall_cons in H as [H _]. contradiction.
Qed.

Lemma full_ratio (a n : Z) :
  0 <= a <= n -> 0 < n ->
  (100 <= inject_Z a / inject_Z n * 100)%Q <-> a = n.
Proof.
  intros Ha Hn.
  assert (Hn' : (0 < inject_Z n)%Q)
    by (change 0%Q with (inject_Z 0); rewrite <- Zlt_Qlt; lia).
  split.
  - intros H.
    assert (H1 : (1 <= inject_Z a / inject_Z n)%Q) by lra.
    assert (H2 : (inject_Z n <= inject_Z a)%Q).
    { apply (Qmult_le_compat_r _ _ (inject_Z n)) in H1; [|lra].
      unfold Qdiv in H1. rewrite <- Qmult_assoc, (Qmult_comm (/ _)) in H1.
      rewrite Qmult_inv_r, Qmult_1_r, Qmult_1_l in H1; [exact H1 | lra]. }
    rewrite <- Zle_Qle in H2. lia.
  - intros ->. unfold Qdiv. rewrite Qmult_inv_r; lra.
Qed.

Lemma two_ratio (a : Z) :
  0 <= a <= 2 -> (80 <= inject_Z a / inject_Z 2 * 100)%Q <-> a = 2.
Proof.
  intros Ha. assert (E : a = 0 \/ a = 1 \/ a = 2) by lia.
  destruct E as [->|[->| ->]]; vm_compute; split; intros H;
    first [reflexivity | discriminate H | exfalso; apply H; reflexivity | idtac].
  all: try (intros E; discriminate E).
Qed.

(** X20. With the built-in targets, the network report recommends "running
    stable" exactly when both hosts answer the ping, all four HTTP endpoints
    answer, all three DNS names resolve and the average HTTP time is at most
    1000 ms; a single failed probe replaces it by a warning. *)
Theorem X20_builtin_stable (w : NetworkAnalyzer.net) (r : NetworkAnalyzer.results) :
  NetworkAnalyzer.analyze_network_health NetworkAnalyzer.target_services w
  = Py.Ret r ->
  NetworkAnalyzer.report_recommendations (NetworkAnalyzer.network_summary r)
  = [Catalogue.STABLE]
  <-> Forall (fun t => NetworkAnalyzer.ping_available
                         (NetworkAnalyzer.ping_service w t) = true)
        ["8.8.8.8"; "1.1.1.1"]
      /\ Forall (fun t => NetworkAnalyzer.http_available
                            (NetworkAnalyzer.http_response_time w t) = true)
           [ "http://localhost:5000"; "http://localhost:9090";
             "http://localhost:3100"; "http://localhost:3000" ]
      /\ Forall (fun t => NetworkAnalyzer.resolved
                            (NetworkAnalyzer.check_dns_resolution w t) = true)
           NetworkAnalyzer.dns_hosts
      /\ (NetworkAnalyzer.avg_http_time (NetworkAnalyzer.network_summary r)
          <= 1000)%Q.
Proof.
  intros H.
  rewrite (report_stable_iff (NetworkAnalyzer.network_summary r)).
  destruct (network_result _ w r H) as (_ & _ & ->).
  cbn [NetworkAnalyzer.network_summary NetworkAnalyzer.ping_availability
       NetworkAnalyzer.http_availability NetworkAnalyzer.dns_availability
       NetworkAnalyzer.avg_http_time].
  change (filter (fun t => NetworkAnalyzer.is_http t = false)
            NetworkAnalyzer.target_services) with ["8.8.8.8"; "1.1.1.1"].
  change (filter (fun t => NetworkAnalyzer.is_http t = true)
            NetworkAnalyzer.target_services)
    with [ "http://localhost:5000"; "http://localhost:9090";
           "http://localhost:3100"; "http://localhost:3000" ].
  unfold Py.len. rewrite !count_map_filter.
  change (Z.of_nat (length ["8.8.8.8"; "1.1.1.1"])) with 2.
  change (Z.of_nat (length [ "http://localhost:5000"; "http://localhost:9090";
                             "http://localhost:3100"; "http://localhost:3000" ]))
    with 4.
  rewrite <- !filter_all. cbn [length NetworkAnalyzer.dns_hosts].
  set (kp := length (filter _ ["8.8.8.8"; "1.1.1.1"])).
  set (kh := length (filter _ [ "http://localhost:5000"; "http://localhost:9090";
                                "http://localhost:3100"; "http://localhost:3000" ])).
  set (kd := length (filter _ NetworkAnalyzer.dns_hosts)).
  assert (Hp : (kp <= 2)%nat) by (subst kp; apply length_filter).
  assert (Hh : (kh <= 4)%nat) by (subst kh; apply length_filter).
  assert (Hd : (kd <= 3)%nat) by (subst kd; apply length_filter).
  rewrite two_ratio, !full_ratio by lia. intuition lia.
Qed.

Lemma X20_builtin_stable_witness :
  exists r,
    NetworkAnalyzer.analyze_network_health NetworkAnalyzer.target_services
      Scenario.net_up = Py.Ret r
    /\ NetworkAnalyzer.report_recommendations (NetworkAnalyzer.network_summary r)
       = [Catalogue.STABLE].
Proof.
  eexists. split; [reflexivity|].
  apply (X20_builtin_stable Scenario.net_up _ eq_refl).
  repeat split; try (repeat constructor). vm_compute. discriminate.
Defined.

(** ** Recommendations of the insight report *)

Lemma Qgtb_le (a b : Q) : InsightGenerator.Qgtb a b = false <-> (a <= b)%Q.
Proof.
  unfold InsightGenerator.Qgtb. rewrite negb_false_iff. apply Qle_bool_iff.
Qed.



(** ** The detailed health report *)

Lemma Qltb_ge (a b : Q) : InsightGenerator.Qltb a b = false <-> (b <= a)%Q.
Proof. apply (Qgtb_le b a). Qed.

Lemma Qsum_nonneg (l : list Q) :
  Forall (fun q => (0 <= q)%Q) l -> (0 <= InsightGenerator.Qsum l)%Q.
Proof. apply sum_nonneg. Qed.

Lemma raw_error_rate_nonneg (m : InsightGenerator.container_metrics) :
  Forall (fun q => (0 <= q)%Q)
    (InsightGenerator.app_requests (InsightGenerator.series m)) ->
  Forall (fun q => (0 <= q)%Q)
    (InsightGenerator.app_errors (InsightGenerator.series m)) ->
  (0 <= InsightGenerator.raw_error_rate m)%Q.
Proof.
  intros Hr He. unfold InsightGenerator.raw_error_rate. cbv zeta.
  pose proof (Qsum_nonneg _ Hr) as Sr. pose proof (Qsum_nonneg _ He) as Se.
  set (total_requests :=
         match InsightGenerator.app_requests (InsightGenerator.series m) with
         | [] => 0%Q
         | _ :: _ => _
         end).
  set (total_errors :=
         match InsightGenerator.app_errors (InsightGenerator.series m) with
         | [] => 0%Q
         | _ :: _ => _
         end).
  assert (Tr : (0 <= total_requests)%Q).
  { subst total_requests.
    destruct (InsightGenerator.app_requests (InsightGenerator.series m)); lra. }
  assert (Te : (0 <= total_errors)%Q).
  { subst total_errors.
    destruct (InsightGenerator.app_errors (InsightGenerator.series m)); lra. }
  destruct (Qeq_bool total_requests 0) eqn:E; [lra|].
  assert (Hpos : (0 < total_requests)%Q).
  { apply Qeq_bool_neq in E. apply Qle_lteq in Tr as [Tr|Tr]; [exact Tr|].
    exfalso. apply E. symmetry. exact Tr. }
  assert (H0 : (0 <= total_errors / total_requests)%Q).
  { apply Qle_shift_div_l; [exact Hpos | lra]. }
  lra.
Qed.

(** X22. In the detailed health report of series without negative samples,
    for a [round] that keeps non-negative numbers non-negative and 0 at 0,
    as Python's does, the reported error rate is not negative and the uptime
    lies between 0 and 100.  Status and availability agree: an availability
    of HIGH or MEDIUM comes with the status NORMAL, and a status other than
    NORMAL with the availability LOW.  Without traffic (the request samples
    sum to 0) the reported error rate is 0: the status is NORMAL, the
    availability HIGH and the uptime 100, whatever the error samples are. *)
Theorem X22_health_report (round : Q -> nat -> Q)
    (m : InsightGenerator.container_metrics) :
  (forall x n, (0 <= x)%Q -> (0 <= round x n)%Q) ->
  (forall n, (round 0 n == 0)%Q) ->
  Forall (fun q => (0 <= q)%Q)
    (InsightGenerator.app_requests (InsightGenerator.series m)) ->
  Forall (fun q => (0 <= q)%Q)
    (InsightGenerator.app_errors (InsightGenerator.series m)) ->
  let h := InsightGenerator.generate_detailed_health_report round m in
  (0 <= InsightGenerator.error_rate h)%Q
  /\ InsightGenerator.error_rate h
     = round (InsightGenerator.raw_error_rate m) 2%nat
  /\ (0 <= InsightGenerator.raw_error_rate m)%Q
  /\ (0 <= InsightGenerator.uptime_percentage h <= 100)%Q
  /\ (InsightGenerator.availability h = "HIGH"
      \/ InsightGenerator.availability h = "MEDIUM" ->
      InsightGenerator.status h = "🟢 NORMAL")
  /\ (InsightGenerator.status h <> "🟢 NORMAL" ->
      InsightGenerator.availability h = "LOW")
  /\ ((InsightGenerator.Qsum
         (InsightGenerator.app_requests (InsightGenerator.series m)) == 0)%Q ->
      (InsightGenerator.error_rate h == 0)%Q
      /\ InsightGenerator.raw_error_rate m = 0%Q
      /\ InsightGenerator.status h = "🟢 NORMAL"
      /\ InsightGenerator.availability h = "HIGH"
      /\ (InsightGenerator.uptime_percentage h == 100)%Q).
Proof.
  intros Rpos Rzero Hr He h.
  pose proof (raw_error_rate_nonneg m Hr He) as Hpos.
  subst h. unfold InsightGenerator.generate_detailed_health_report. cbv zeta.
  cbn [InsightGenerator.status InsightGenerator.availability
       InsightGenerator.uptime_percentage InsightGenerator.error_rate].
  set (e := InsightGenerator.raw_error_rate m) in *.
  pose proof (Qgtb_lt e 10) as A1. pose proof (Qgtb_le e 10) as A0.
  pose proof (Qgtb_lt e 5) as B1. pose proof (Qgtb_le e 5) as B0.
  pose proof (Qltb_lt e 1) as C1. pose proof (Qltb_ge e 1) as C0.
  pose proof (Qltb_lt e 5) as D1. pose proof (Qltb_ge e 5) as D0.
  split; [exact (Rpos e 2%nat Hpos)|]. split; [reflexivity|].
  split; [exact Hpos|]. split; [|split; [|split]].
  - unfold InsightGenerator.Qmin2.
    pose proof (Qltb_lt 100 e) as M1. pose proof (Qltb_ge 100 e) as M0.
    destruct (InsightGenerator.Qltb 100 e).
    + split; lra.
    + pose proof (proj1 M0 eq_refl). split; lra.
  - destruct (InsightGenerator.Qgtb e 10); [|destruct (InsightGenerator.Qgtb e 5)];
      destruct (InsightGenerator.Qltb e 1); destruct (InsightGenerator.Qltb e 5);
      intros [H|H]; try discriminate H; try reflexivity; exfalso;
      repeat match goal with
             | H : true = true <-> _ |- _ => pose proof (proj1 H eq_refl); clear H
             | H : false = false <-> _ |- _ => pose proof (proj1 H eq_refl); clear H
             | H : _ <-> _ |- _ => clear H
             end; lra.
  - destruct (InsightGenerator.Qgtb e 10); [|destruct (InsightGenerator.Qgtb e 5)];
      destruct (InsightGenerator.Qltb e 1); destruct (InsightGenerator.Qltb e 5);
      intros H; try reflexivity; try (exfalso; apply H; reflexivity); exfalso;
      repeat match goal with
             | H : true = true <-> _ |- _ => pose proof (proj1 H eq_refl); clear H
             | H : false = false <-> _ |- _ => pose proof (proj1 H eq_refl); clear H
             | H : _ <-> _ |- _ => clear H
             end; lra.
  - intros Hz.
    assert (E0 : e = 0%Q).
    { subst e. unfold InsightGenerator.raw_error_rate. cbv zeta.
      set (total_requests :=
             match InsightGenerator.app_requests (InsightGenerator.series m) with
             | [] => 0%Q
             | _ :: _ => _
             end).
      assert (Hq : (total_requests == 0)%Q).
      { subst total_requests.
        destruct (InsightGenerator.app_requests (InsightGenerator.series m));
          [reflexivity | rewrite Hz; reflexivity]. }
      apply Qeq_bool_iff in Hq. rewrite Hq. reflexivity. }
    rewrite E0. split; [apply Rzero|]. repeat split; reflexivity.
Qed.

Lemma X22_health_report_witness :
  (0 <= InsightGenerator.error_rate
          (InsightGenerator.generate_detailed_health_report
             (fun q _ => q) Scenario.busy))%Q.
Proof.
  refine (proj1 (X22_health_report (fun q _ => q) Scenario.busy _ _ _ _)).
  - intros x n H. exact H.
  - intros n. reflexivity.
  - repeat constructor; vm_compute; discriminate.
  - repeat constructor; vm_compute; discriminate.
Defined.

(** ** Trends *)

Lemma instability_test (errors : list Binary64.float) :
  In InsightGenerator.INSTABILITY (InsightGenerator.error_trends errors)
  <-> existsb Binary64.truth errors = true
      /\ Binary64.gtb (Binary64.max errors) (Binary64.of_Q (1 # 10)) = true.
Proof.
  unfold InsightGenerator.error_trends. rewrite <- andb_true_iff.
  destruct (_ && _); cbn [In]; split; try tauto; discriminate.
Qed.

(** Without a NaN among the samples, the test of the error part is the
    existence of a sample above the constant. *)
Lemma instability_iff (errors : list Binary64.float) :
  Forall (fun e => Binary64.is_nan e = false) errors ->
  In InsightGenerator.INSTABILITY (InsightGenerator.error_trends errors)
  <-> exists e,
        In e errors /\ Binary64.gtb e (Binary64.of_Q (1 # 10)) = true.
Proof.
  intros Hnan. rewrite instability_test. unfold Binary64.gtb. split.
  - intros [Hany Hmax].
    apply max_above in Hmax; [exact Hmax | | exact Hnan].
    intros ->. discriminate Hany.
  - intros (e & Hin & He). split.
    + apply existsb_exists. exists e. split; [exact Hin|].
      destruct e as [[]|[]| |]; try reflexivity; discriminate He.
    + apply max_above; [| exact Hnan | exists e; split; assumption].
      intros ->. destruct Hin.
Qed.

Lemma instability_only_from_errors (format_1f : Binary64.float -> string)
    (m : InsightGenerator.samples) :
  In InsightGenerator.INSTABILITY (InsightGenerator.analyze_trends format_1f m)
  <-> In InsightGenerator.INSTABILITY
        (InsightGenerator.error_trends (InsightGenerator.errors m)).
Proof.
  unfold InsightGenerator.analyze_trends. rewrite !in_app_iff.
  split; [|tauto]. intros [H|[H|H]]; [exfalso|exact H|exfalso].
  - unfold InsightGenerator.request_trends in H.
    destruct (3 <=? _); [|exact H].
    destruct (Binary64.gtb _ _);
      [|destruct (Binary64.ltb _ _)]; cbn in H;
      try (destruct H as [H|[]]; discriminate H); exact H.
  - unfold InsightGenerator.memory_trends in H.
    destruct (InsightGenerator.memory m); [exact H|].
    destruct (Binary64.gtb _ _); cbn in H;
      [destruct H as [H|[]]; discriminate H | exact H].
Qed.

(** The float that the literal [0.1] denotes, as a number. *)
Lemma value_of_tenth :
  (Binary64.value (Binary64.of_Q (1 # 10))
   == 3602879701896397 # 36028797018963968)%Q.
Proof. vm_compute. reflexivity. Qed.

(** X23. [analyze_trends] reports at most three trends and never growth and
    decline together; with fewer than three request samples it reports
    neither.  When no error sample is a NaN, it reports instability exactly
    when some error sample is greater than the float of the literal 0.1; for
    zeros and finite samples, exactly when the number of some sample is above
    3602879701896397 / 2^55, the number of that float, which is above 1/10.
    The test [any(errors)] only keeps [max] from an empty list.  A NaN as the
    first error sample hides every other sample: no instability is
    reported. *)
Theorem X23_trends (format_1f : Binary64.float -> string)
    (m : InsightGenerator.samples) :
  let trends := InsightGenerator.analyze_trends format_1f m in
  (length trends <= 3)%nat
  /\ ~ (In InsightGenerator.GROWING trends /\ In InsightGenerator.DECREASE trends)
  /\ ((length (InsightGenerator.requests m) < 3)%nat ->
      ~ In InsightGenerator.GROWING trends
      /\ ~ In InsightGenerator.DECREASE trends)
  /\ (Forall (fun e => Binary64.is_nan e = false) (InsightGenerator.errors m) ->
      (In InsightGenerator.INSTABILITY trends
       <-> exists e,
             In e (InsightGenerator.errors m)
             /\ Binary64.gtb e (Binary64.of_Q (1 # 10)) = true))
  /\ (Forall (fun e => Binary64.is_finite e = true) (InsightGenerator.errors m) ->
      (In InsightGenerator.INSTABILITY trends
       <-> exists e,
             In e (InsightGenerator.errors m)
             /\ (3602879701896397 # 36028797018963968 < Binary64.value e)%Q))
  /\ (1 # 10 < 3602879701896397 # 36028797018963968)%Q
  /\ (forall rest,
         InsightGenerator.errors m = S754_nan :: rest ->
         ~ In InsightGenerator.INSTABILITY trends).
Proof.
  intros trends.
  pose proof (growing_only_from_requests format_1f m) as Hg.
  pose proof (decrease_only_from_requests format_1f m) as Hd.
  pose proof (instability_only_from_errors format_1f m) as Hi.
  fold trends in Hg, Hd, Hi.
  split; [|split; [|split; [|split; [|split; [|split]]]]].
  - subst trends. unfold InsightGenerator.analyze_trends,
      InsightGenerator.request_trends, InsightGenerator.error_trends,
      InsightGenerator.memory_trends.
    rewrite !length_app.
    destruct (3 <=? _);
      [destruct (Binary64.gtb _ _);
       [|destruct (Binary64.ltb _ _)]|];
      destruct (existsb _ _ && _);
      (destruct (InsightGenerator.memory m);
       [|destruct (Binary64.gtb _ _)]); cbn [length]; lia.
  - intros [H1 H2]. apply Hg in H1. apply Hd in H2.
    unfold InsightGenerator.request_trends in H1, H2.
    destruct (3 <=? _); [|exact H1].
    destruct (Binary64.gtb _ _);
      [|destruct (Binary64.ltb _ _)]; cbn in H1, H2.
    + destruct H2 as [H2|[]]. discriminate H2.
    + destruct H1 as [H1|[]]. discriminate H1.
    + exact H1.
  - intros Hlen. rewrite Hg, Hd. unfold InsightGenerator.request_trends.
    destruct (Z.leb_spec 3 (Py.len (InsightGenerator.requests m))) as [H|_];
      [unfold Py.len in H; lia|].
    split; intros [].
  - intros Hnan. rewrite Hi. apply instability_iff, Hnan.
  - intros Hfin. rewrite Hi, instability_iff.
    + split; intros (e & Hin & He); exists e; (split; [exact Hin|]).
      * rewrite <- value_of_tenth. apply ltb_finite; [reflexivity| |exact He].
        rewrite List.Forall_forall in Hfin. exact (Hfin e Hin).
      * rewrite <- value_of_tenth in He. apply ltb_finite; [reflexivity| |exact He].
        rewrite List.Forall_forall in Hfin. exact (Hfin e Hin).
    + eapply Forall_impl; [exact Hfin|].
      intros [| | |]; cbn; congruence.
  - reflexivity.
  - intros rest E. rewrite Hi, instability_test, E.
    intros [_ H]. unfold Binary64.max, Binary64.gtb in H.
    rewrite fold_max_nan, ltb_nan_r in H. discriminate H.
Qed.

(** ** Performance *)

(** X24. The performance level is SLOW exactly when the bridge took more than
    1000 ms, MODERATE exactly when it took more than 500 and at most 1000 ms,
    and FAST otherwise; the service availability lies between 0 and 100.  A
    MODERATE level adds no weight to the overall status and no
    recommendation. *)
Theorem X24_performance_levels (w : MasterAnalyzer.performance_world) :
  let p := MasterAnalyzer.analyze_performance w in
  let t := MasterAnalyzer.response_time_ms p in
  (MasterAnalyzer.performance_level p = "SLOW" <-> (1000 < t)%Q)
  /\ (MasterAnalyzer.performance_level p = "MODERATE" <-> (500 < t <= 1000)%Q)
  /\ (MasterAnalyzer.performance_level p = "FAST" <-> (t <= 500)%Q)
  /\ (0 <= MasterAnalyzer.services_availability p <= 100)%Q
  /\ (MasterAnalyzer.performance_level p = "MODERATE" ->
      MasterAnalyzer.perf_weight p = 0
      /\ MasterAnalyzer.performance_recommendations p = []).
Proof.
  intros p t. subst p t. unfold MasterAnalyzer.analyze_performance.
  cbn [MasterAnalyzer.performance_level MasterAnalyzer.response_time_ms
       MasterAnalyzer.services_availability].
  set (t := MonitoringBridge.response_time_ms
              (MonitoringBridge.get_quick_status (MasterAnalyzer.report_probe w))).
  split; [|split; [|split; [|split]]].
  4: { apply ratio_bounds; [|cbn; lia].
       cbn [MonitoringBridge.get_quick_status MonitoringBridge.services_available
            MonitoringBridge.services_total].
       apply sum_bools_services. }
  4: { unfold MasterAnalyzer.perf_weight, MasterAnalyzer.performance_recommendations.
       cbn [MasterAnalyzer.performance_level]. intros ->.
       repeat split. }
  all: unfold MasterAnalyzer.performance_level_of;
    pose proof (Qgtb_lt t 1000) as A1; pose proof (Qgtb_le t 1000) as A0;
    pose proof (Qgtb_lt t 500) as B1; pose proof (Qgtb_le t 500) as B0;
    destruct (InsightGenerator.Qgtb t 1000);
      [|destruct (InsightGenerator.Qgtb t 500)];
    repeat match goal with
           | H : true = true <-> _ |- _ => pose proof (proj1 H eq_refl); clear H
           | H : false = false <-> _ |- _ => pose proof (proj1 H eq_refl); clear H
           | H : _ <-> _ |- _ => clear H
           end;
    (split; [intros E; first [discriminate E | lra | split; lra]
            | intros E; first [reflexivity | exfalso; lra]]).
Qed.

(** ** Which query the log result names *)

(** X25. A result of [analyze_logs_patterns] without error names the query
    "alternative" exactly when at least one entry was analysed and "original"
    exactly when none was, also when the first query delivered the entries;
    and when the first query delivers an entry, the answers to the
    alternative queries do not influence the result. *)
Theorem X25_query_used (w : MasterAnalyzer.logs_world)
    (other : string -> MasterAnalyzer.alt_outcome)
    (entry : Py.json) (entries : list Py.json) :
  MasterAnalyzer.import_ok w = true ->
  Py.contains_key (Py.lit "error")
    (LogAnalyzer.get_loki_logs (MasterAnalyzer.exn_text w) (MasterAnalyzer.primary w))
  = Py.Ret false ->
  MasterAnalyzer.collect
    (LogAnalyzer.get_loki_logs (MasterAnalyzer.exn_text w) (MasterAnalyzer.primary w))
    [] = (entry :: entries, None) ->
  let l := MasterAnalyzer.analyze_logs_patterns w in
  let l' :=
    MasterAnalyzer.analyze_logs_patterns
      {| MasterAnalyzer.import_ok := MasterAnalyzer.import_ok w;
         MasterAnalyzer.primary := MasterAnalyzer.primary w;
         MasterAnalyzer.alternative := other;
         MasterAnalyzer.exn_text := MasterAnalyzer.exn_text w;
         MasterAnalyzer.analysis_now := MasterAnalyzer.analysis_now w;
         MasterAnalyzer.logs_now := MasterAnalyzer.logs_now w |} in
  l' = l
  /\ (MasterAnalyzer.logs_error l = None ->
      MasterAnalyzer.query_used l = Some "alternative"
      /\ MasterAnalyzer.entries_analyzed l = Some (Py.len (entry :: entries))).
Proof.
  intros Hi Hk Hc l l'. subst l l'.
  unfold MasterAnalyzer.analyze_logs_patterns, MasterAnalyzer.analyze_logs_body.
  unfold mbind, M_bind, mret, M_ret.
  cbn [MasterAnalyzer.import_ok MasterAnalyzer.primary MasterAnalyzer.exn_text
       MasterAnalyzer.analysis_now MasterAnalyzer.logs_now].
  rewrite Hi, Hk, Hc. cbn [Py.bind negb].
  split; [reflexivity|].
  destruct (Py.join_lines _) as [text|e]; cbn [Py.bind Py.try_except];
    [intros _; split; reflexivity | intros H; discriminate H].
Qed.

Lemma X25_query_used_witness :
  MasterAnalyzer.query_used
    (MasterAnalyzer.analyze_logs_patterns Scenario.quiet_logs)
  = Some "alternative".
Proof.
  refine (proj1 (proj2 (X25_query_used Scenario.quiet_logs
                          (fun _ => MasterAnalyzer.AltRaised)
                          (Py.JStr (Py.lit "INFO request served")) []
                          eq_refl eq_refl eq_refl) eq_refl)).
Defined.
